(* ===== verification/_CoqProject ===== *)
-Q . S2P
Prelude.v
Decimal.v
PyStr.v
Datetime.v
Doctor.v
Precautions.v
Encoder.v
Classifier.v
History.v
Base64.v
Report.v
App.v
Phases.v
Sidebar.v
Script.v
