(* ===== verification/Prelude.v ===== *)
(** * MediVision AI: a verification development of the prediction pipeline

    The repository is a Streamlit application ([src/main.py]) with a small
    backend ([src/backend/patient_data.py]).  One click of the
    "Predict Disease" button (main.py 164-198) runs, in this order: a
    guard on the form (name and symptom selection non-empty), the symptom
    encoder ([encoder.transform]), the pre-trained classifier
    ([model.predict], [model.predict_proba().max() * 100]), the precaution
    lookup ([get_precautions]), the doctor recommendation
    ([recommend_doctor]), the insertion of one row in the SQLite [history]
    table ([store_patient_history]) and the PDF report ([generate_pdf]),
    whose base64 download link ends the page.  The state that outlives a
    click is the SQLite file (created by [initialize_db] when the backend
    is imported) and the temporary files the reports leave behind.

    ** Files, in dependency order, and what they model

    - [Prelude] (this file): the Python exceptions of the pipeline
      ([py_exc]); the error monad [result] ("return or raise") with its
      [let!] notation in [mv_scope]; the [mv] hint and rewrite databases;
      the tactics [res_inv], [res_simp], [eval_map_Forall],
      [decide_by_eval]; Python dict literals ([py_dict], [dict_get] for
      [dict.get] with a default); the byte-wise order of strings
      ([string_le]) and generic lemmas on lists and strings.
    - [Decimal]: decimal printing of naturals ([str_N], [dec_pad] for
      zero-padded fields) and its parser, with the round trip and the
      order-preservation of fixed-width fields.
    - [PyStr]: [str.lower], [str.strip], [str.title] and [str.join] as
      CPython implements them, on ASCII text; the pandas cell ([cell],
      a string or NaN) and the [TypeError] [join] raises on NaN; and
      [str.split(", ")] ([split_sep]), the reader of the joined columns
      the specification asks for.
    - [Datetime]: [datetime] records, [strftime("%Y-%m-%d %H:%M")]
      (patient_data.py 79) and [strftime("%d %B, %Y")] (main.py 91).
    - [Doctor]: [doctors_by_city], [specialist_map] and [recommend_doctor]
      (patient_data.py 5-92), dicts as stdpp [gmap]s.
    - [Precautions]: [get_precautions] (main.py 176-178) on the rows of
      [precautions_df], and its refinement of a dictionary lookup.
    - [Encoder]: [encoder.transform] (main.py 168), modelled from the
      specification's contract since the fitted encoder is a pickle.
    - [Classifier]: the model as a type class [Predictor] with laws
      [PredictorLaws] (the interface the handler is proved against), and
      [predict], [predict_proba], [np_max], [confidence_score] (main.py
      169-171) defined over it; [example_predictor] discharges the laws.
    - [History]: the database file as a state ([db]: directory reachable,
      the [history] table with its rows and AUTOINCREMENT counter [seq]);
      [initialize_db], [store_patient_history] and [get_patient_history]
      (patient_data.py 53-99) as functions [db -> result db]; [ORDER BY
      date DESC] as a relation refined by stdpp's merge sort.
    - [Base64]: [base64.b64encode] (main.py 130) and its decoder.
    - [Report]: [f"{x:.2f}"] (round half to even), [generate_pdf]
      (main.py 76-137) as the exact list of FPDF calls, the temporary
      directory [NamedTemporaryFile(delete=False)] writes to, and the
      HTML link; FPDF's rendering of the calls to bytes is a parameter.
    - [App]: the button handler [on_predict] / [predict_pipeline] in a
      state and exception monad [M] over the database, the temporary
      directory and the elements the page shows; an uncaught exception
      ends the script and is shown ([run]).
    - [Phases]: the same handler cut at the specification's phases
      ([AwaitingInput], [Encoding], [Classifying], [Resolving],
      [Persisting], [Reporting], then [Done], [Warned] or [Failed]):
      [phase_action] holds each phase's statements, [phase_step] one
      transition, [pstep] the step relation (stdpp's [rtc] and
      [bsteps]); [spec_step] is the specification's machine.
    - [Sidebar]: [disease_data['Disease'].value_counts().head(10)]
      (main.py 146-147), specified up to the order of equal counts.
    - [Script]: one run of [main.py] ([script_run]: page configuration,
      backend import with [initialize_db()] on the first import, layout,
      widgets, handler) on the server state [session], the forms the
      widgets allow ([widget_ok]), and [session_step], the session as a
      step relation over runs.

    ** What the theorems show

    - Phases: every run of the phase machine is a run of the
      specification's machine (a simulation, by induction on the steps);
      each transition keeps the history well formed and only appends to
      it, which [Script] lifts to whole sessions.
    - Script: along any session the history keeps its invariant and only
      grows; an unreachable database directory makes every run show only
      the import error; every form the widgets allow is encodable; the
      selectbox's "Other" city always gets the fallback message; the
      sidebar shows the ten most common diseases with their counts.
    - Handler ([App]): the guard stops everything; on the normal path the
      handler stores exactly the row [store_patient_history] builds,
      writes one temporary file and shows the link; a classification
      error changes neither the database nor the files; a storage error
      (e.g. a NaN precaution) prevents the report.
    - History: a store appends one row with rowid [seq + 1]; the table
      invariant (increasing rowids in [1, seq], [seq <= 2^63 - 1]) is
      preserved; the errors (unreachable directory, missing table, NaN
      precaution, exhausted rowids) are characterised; [ORDER BY date
      DESC] puts a row stored at a later minute first, returns strictly
      increasing dates in reverse, and leaves the order of two rows
      stored in the same minute open (either may come first); the
      joined symptom and precaution columns read back with
      [str.split(", ")] when no item contains ", " and the list is not
      empty, and the stored text cannot tell no precaution from one empty
      precaution, nor a precaution containing ", " from two.
    - Doctor: the answers for known and unknown cities and unmapped
      diseases, unreachability of "No specialist available"; a label
      with a trailing space always gets the general practitioner.
    - Precautions, Encoder, Classifier: lookup refinement, and NaN cells
      returned exactly when the first matching row has one; indicator vectors of the right length and weight,
      order independence and the unknown-symptom error; the confidence
      lies in [0, 100] and is at least [100 / K].
    - Formatting: the stored date orders byte-wise like the instant; the
      base64 link decodes to the PDF's bytes; [.2f] prints a value within
      0.005 of its argument.

    ** Bounds and modelling choices

    Rowids are [Z] with SQLite's bound [2^63 - 1].  [str_N] uses
    [log2 n + 1] steps of fuel, enough since a number has at most that
    many decimal digits (proved by [parse_str_N]).  Floats are rationals
    [Q]: the confidence bounds hold exactly, and [.2f] rounds half to
    even on the exact value.  Text is Rocq [string] (8-bit characters);
    the string methods are modelled for ASCII, characters above 127 being
    uncased non-space characters.  The phase machine is run by [drive]
    with seven steps of fuel, enough for a click: [drive_on_predict]
    shows that seven steps from [AwaitingInput] reach a stopped phase.

    ** Not modelled

    The CSS text, the labels of the widgets and the drawing of the bar
    chart (main.py 27-73, 140-161): presentation only; the page records
    which elements are shown, in order.  Loading the pickles and the CSV
    files (main.py 19-24) goes through joblib and pandas on artifacts that
    are not in the repository: their results are the parameters of the
    development (the vocabulary, the [Predictor] instance, the precaution
    rows, the [Disease] column), so nothing of these lines is left to
    translate.  What the user may enter beyond the widgets' declarations
    (Streamlit's own input handling).  Unicode text beyond ASCII in the
    string methods.  FPDF's byte encoding of a document, and its
    failures: text is Latin-1 bytes and the temporary directory is
    writable, so [generate_pdf] does not raise in the model, while in the
    program an exception there comes after the row is committed (see
    [Phases]).  SQLite's file format and concurrent writers: the
    application serves one user at a time, and a session is a sequence
    of runs. *)

From stdpp Require Export base list strings gmap sorting.
From Stdlib Require Export ZArith Lia.

Declare Scope mv_scope.
Delimit Scope mv_scope with mv.
Open Scope mv_scope.

Create HintDb mv.
Create Rewrite HintDb mv.

(** ** Python exceptions raised along the pipeline *)

Inductive py_exc :=
| TypeError (msg : string)
| ValueError (msg : string)
| OperationalError (msg : string)
| DatabaseError (msg : string)
| UnknownSymptom (s : string)
| InvalidInputShape
| OSError (msg : string).

#[export] Instance py_exc_eq_dec : EqDecision py_exc.
Proof. solve_decision. Defined.

(** ** The error monad: a Python computation returns or raises *)

Inductive result (A : Type) :=
| Ok (a : A)
| Err (e : py_exc).
Arguments Ok {A} a.
Arguments Err {A} e.

Definition res_bind {A B} (m : result A) (k : A -> result B) : result B :=
  match m with
  | Ok a => k a
  | Err e => Err e
  end.

Definition res_map {A B} (f : A -> B) (m : result A) : result B :=
  res_bind m (fun a => Ok (f a)).

Notation "'let!' x ':=' m 'in' k" := (res_bind m (fun x => k))
  (at level 10, x name, m at level 100, k at level 200) : mv_scope.

Definition is_ok {A} (m : result A) : bool :=
  match m with Ok _ => true | Err _ => false end.

Lemma res_bind_Ok {A B} (a : A) (k : A -> result B) : res_bind (Ok a) k = k a.
Proof. reflexivity. Qed.

Lemma res_bind_Err {A B} e (k : A -> result B) : res_bind (Err e) k = Err e.
Proof. reflexivity. Qed.

Lemma res_bind_assoc {A B C} (m : result A) (k : A -> result B) (h : B -> result C) :
  res_bind (res_bind m k) h = res_bind m (fun a => res_bind (k a) h).
Proof. by destruct m. Qed.

Lemma res_bind_eq_Ok {A B} (m : result A) (k : A -> result B) b :
  res_bind m k = Ok b -> exists a, m = Ok a /\ k a = Ok b.
Proof. destruct m; simpl; [eauto | discriminate]. Qed.

Lemma res_bind_eq_Err {A B} (m : result A) (k : A -> result B) e :
  res_bind m k = Err e -> m = Err e \/ exists a, m = Ok a /\ k a = Err e.
Proof. destruct m as [a|e0]; simpl; intros H; [right; exists a; done | left; congruence]. Qed.

#[export] Hint Rewrite @res_bind_Ok @res_bind_Err @res_bind_assoc : mv.

(** Decompose a hypothesis [res_bind m k = r]. *)
Ltac res_inv H :=
  lazymatch type of H with
  | res_bind _ _ = Ok _ =>
      let a := fresh "a" in let Ha := fresh "Ha" in
      apply res_bind_eq_Ok in H as (a & Ha & H)
  | res_bind _ _ = Err _ =>
      let a := fresh "a" in let Ha := fresh "Ha" in
      apply res_bind_eq_Err in H as [H | (a & Ha & H)]
  end.

Ltac res_simp := repeat (autorewrite with mv in *; simpl in *).

(** ** Generic list lemmas shared by the components *)

Lemma Forall_app_inv {A} (P : A -> Prop) l1 l2 :
  Forall P (l1 ++ l2) -> Forall P l1 /\ Forall P l2.
Proof. by rewrite Forall_app. Qed.

Lemma length_filter_le {A} (P : A -> Prop) `{!∀ x, Decision (P x)} (l : list A) :
  length (filter P l) <= length l.
Proof.
  induction l as [|x l IH]; simpl; [lia|].
  rewrite filter_cons. case_decide; simpl; lia.
Qed.

#[export] Hint Resolve length_filter_le : mv.

Lemma StronglySorted_weaken {A} (R R' : relation A) l :
  (forall x y, R x y -> R' x y) -> StronglySorted R l -> StronglySorted R' l.
Proof.
  intros HR Hl. induction Hl as [|x l _ IH Hx]; constructor; [done|].
  eapply Forall_impl; [exact Hx | exact (HR x)].
Qed.

(** ** Generic string lemmas

    stdpp makes [String.append] opaque to [simpl]; the two computation
    rules are stated here and used by rewriting. *)

Lemma string_app_nil_l (s : string) : ("" ++ s)%string = s.
Proof. reflexivity. Qed.

Lemma string_app_String a (s1 s2 : string) :
  (String a s1 ++ s2)%string = String a (s1 ++ s2).
Proof. reflexivity. Qed.

Lemma string_length_app (s1 s2 : string) :
  String.length (s1 ++ s2) = String.length s1 + String.length s2.
Proof. induction s1; rewrite ?string_app_String; simpl; auto. Qed.

Lemma string_app_assoc (s1 s2 s3 : string) : ((s1 ++ s2) ++ s3 = s1 ++ (s2 ++ s3))%string.
Proof. induction s1; rewrite ?string_app_nil_l, ?string_app_String; congruence. Qed.

Lemma string_app_nil_r (s : string) : (s ++ "")%string = s.
Proof. induction s; [reflexivity | rewrite string_app_String; congruence]. Qed.

#[export] Hint Rewrite string_app_nil_l string_app_String string_length_app
  string_app_assoc string_app_nil_r : mv.

(** ** Python dict literals and [dict.get] *)

(** A dict literal [{k1: v1, ..., kn: vn}]: the entries are inserted left
    to right, so a repeated key keeps its last value. *)
Definition py_dict {V} (entries : list (string * V)) : gmap string V :=
  foldl (fun m kv => <[kv.1 := kv.2]> m) ∅ entries.

(** [d.get(k, default)] *)
Definition dict_get {V} (d : gmap string V) (k : string) (dflt : V) : V :=
  default dflt (d !! k).

(** Prove [map_Forall P m] for a closed map by evaluating its decision
    procedure (instance search does not see through the [fun] of [P]). *)
Ltac eval_map_Forall :=
  lazymatch goal with
  | |- map_Forall ?P ?m =>
      refine (bool_decide_unpack _
        (dec := @map_Forall_dec _ _ _ _ _ _ _ _ _ _ _ _ P
                  (fun i x => ltac:(cbv beta; apply _)) m) _);
      vm_compute; exact I
  end.

(** ** The byte-wise order on strings

    SQLite compares [TEXT] values with the BINARY collation (memcmp, the
    shorter string first on a common prefix), which is [String.compare]
    on 8-bit characters. *)

Definition string_le (s1 s2 : string) : Prop := String.compare s1 s2 <> Gt.

#[export] Instance string_le_dec : RelDecision string_le.
Proof. intros s1 s2. unfold string_le. apply _. Defined.

Lemma string_compare_refl s : String.compare s s = Eq.
Proof.
  induction s as [|c s IH]; simpl; [done|].
  unfold Ascii.compare. by rewrite N.compare_refl.
Qed.

#[export] Instance string_le_trans : Transitive string_le.
Proof.
  unfold string_le. intros a; induction a as [|x a IH]; intros [|y b] [|z c];
    simpl; try congruence.
  unfold Ascii.compare.
  destruct (N.compare_spec (Ascii.N_of_ascii x) (Ascii.N_of_ascii y)),
    (N.compare_spec (Ascii.N_of_ascii y) (Ascii.N_of_ascii z)),
    (N.compare_spec (Ascii.N_of_ascii x) (Ascii.N_of_ascii z));
    try congruence; try lia; eauto.
Qed.

#[export] Instance string_le_total : Total string_le.
Proof.
  intros a b. unfold string_le. rewrite (String.compare_antisym b a).
  destruct (String.compare a b); simpl; [left|left|right]; congruence.
Qed.

Lemma string_le_antisym a b : string_le a b -> string_le b a -> a = b.
Proof.
  unfold string_le. rewrite (String.compare_antisym b a). intros H1 H2.
  apply String.compare_eq_iff. destruct (String.compare a b); simpl in *; congruence.
Qed.

Lemma string_lt_not_le a b : String.compare a b = Lt -> ~ string_le b a.
Proof.
  unfold string_le. rewrite (String.compare_antisym b a). intros ->. simpl. congruence.
Qed.

(** Prove a decidable proposition on closed terms by evaluation. *)
Ltac decide_by_eval := apply (bool_decide_unpack _); vm_compute; exact I.
