(* ===== verification/Decimal.v ===== *)
(** * Decimal printing of non-negative integers

    Python prints an [int] in decimal with [str] and [f"{n}"], and
    [strftime] prints date fields zero-padded to a fixed width ([%m],
    [%d], [%H], [%M] to two digits).  [dec_pad w n] is the fixed-width
    printing (the [w] low-order digits of [n], most significant first) and
    [str_N n] the Python [str(n)] of a non-negative integer.  The file
    proves the lengths, that fixed-width strings compare like the numbers
    they print (the fact SQLite's [ORDER BY] on text relies on), and the
    parse/print round trip. *)

From S2P Require Import Prelude.
From Stdlib Require Import Ascii String.
Local Open Scope N_scope.

Definition digit_char (d : N) : ascii := ascii_of_N (48 + d).

(** [w] low-order decimal digits of [n], most significant first. *)
Fixpoint dec_pad (w : nat) (n : N) : string :=
  match w with
  | O => ""
  | S w' => (dec_pad w' (n / 10) ++ String (digit_char (n mod 10)) "")%string
  end.

(** Python [str(n)] for [n >= 0]: the digits without leading zeros, "0"
    for zero.  [fuel] bounds the number of digits. *)
Fixpoint str_digits (fuel : nat) (n : N) : string :=
  match fuel with
  | O => ""
  | S f =>
      ((if N.ltb n 10 then "" else str_digits f (n / 10))
         ++ String (digit_char (n mod 10)) "")%string
  end.

Definition str_N (n : N) : string := str_digits (S (N.to_nat (N.log2 n))) n.

Definition str_nat (n : nat) : string := str_N (N.of_nat n).

(** Parsing a string of decimal digits, as Python's [int(s)] does on a
    string of ASCII digits; [None] on any other character or on "". *)
Definition digit_val (c : ascii) : option N :=
  let k := N_of_ascii c in
  if N.leb 48 k && N.leb k 57 then Some (k - 48) else None.

Fixpoint parse_digits_acc (acc : N) (s : string) : option N :=
  match s with
  | EmptyString => Some acc
  | String c s' =>
      match digit_val c with
      | Some d => parse_digits_acc (acc * 10 + d) s'
      | None => None
      end
  end.

Definition parse_N (s : string) : option N :=
  match s with
  | EmptyString => None
  | _ => parse_digits_acc 0 s
  end.

(** ** Lengths and digits *)

Lemma digit_char_N d : d < 10 -> N_of_ascii (digit_char d) = 48 + d.
Proof. intros Hd. unfold digit_char. apply N_ascii_embedding. lia. Qed.

Lemma length_dec_pad w n : String.length (dec_pad w n) = w.
Proof.
  revert n; induction w as [|w IH]; intros n; simpl; [done|].
  rewrite string_length_app, IH. simpl. lia.
Qed.

Lemma pow10_S (w : nat) : 10 ^ N.of_nat (S w) = 10 ^ N.of_nat w * 10.
Proof. rewrite Nat2N.inj_succ, N.pow_succ_r'. lia. Qed.

(** The two numeric facts behind one more digit: the quotient and the
    remainder of [n mod 10^(w+1)] by 10. *)
Lemma mod_pow10_S_div (w : nat) n :
  (n mod 10 ^ N.of_nat (S w)) / 10 = (n / 10) mod 10 ^ N.of_nat w.
Proof.
  rewrite pow10_S. assert (10 ^ N.of_nat w <> 0) by (apply N.pow_nonzero; lia).
  rewrite N.mul_comm, N.Div0.mod_mul_r by lia.
  rewrite N.mul_comm, N.div_add by lia.
  rewrite N.div_small by (apply N.mod_lt; lia). lia.
Qed.

Lemma mod_pow10_S_mod (w : nat) n :
  (n mod 10 ^ N.of_nat (S w)) mod 10 = n mod 10.
Proof.
  rewrite pow10_S. assert (10 ^ N.of_nat w <> 0) by (apply N.pow_nonzero; lia).
  rewrite N.mul_comm, N.Div0.mod_mul_r by lia.
  rewrite N.mul_comm, N.Div0.mod_add, N.Div0.mod_mod by lia. done.
Qed.

Lemma dec_pad_mod w n : dec_pad w (n mod 10 ^ N.of_nat w) = dec_pad w n.
Proof.
  revert n; induction w as [|w IH]; intros n; simpl; [done|].
  rewrite mod_pow10_S_div, IH, mod_pow10_S_mod. done.
Qed.

(** ** Fixed-width strings compare like the numbers they print *)

Lemma compare_app_same_length (p1 p2 s1 s2 : string) :
  String.length p1 = String.length p2 ->
  String.compare (p1 ++ s1) (p2 ++ s2) =
  match String.compare p1 p2 with Eq => String.compare s1 s2 | c => c end.
Proof.
  revert p2; induction p1 as [|a p1 IH]; intros [|b p2] Hl; simpl in *;
    try discriminate; [done|].
  destruct (Ascii.compare a b); auto.
Qed.

Lemma compare_digit_char x y :
  x < 10 -> y < 10 ->
  String.compare (String (digit_char x) "") (String (digit_char y) "") = N.compare x y.
Proof.
  intros Hx Hy. simpl. unfold Ascii.compare.
  rewrite !digit_char_N by done.
  destruct (N.compare_spec (48 + x) (48 + y)), (N.compare_spec x y); lia || done.
Qed.

Lemma compare_lex_digit (B X Y x y : N) :
  x < B -> y < B ->
  N.compare (X * B + x) (Y * B + y) =
  match N.compare X Y with Eq => N.compare x y | c => c end.
Proof.
  intros Hx Hy.
  destruct (N.compare_spec X Y), (N.compare_spec x y);
    rewrite ?N.compare_eq_iff, ?N.compare_lt_iff, ?N.compare_gt_iff; nia.
Qed.

Lemma compare_dec_pad w a b :
  String.compare (dec_pad w a) (dec_pad w b) =
  N.compare (a mod 10 ^ N.of_nat w) (b mod 10 ^ N.of_nat w).
Proof.
  revert a b; induction w as [|w IH]; intros a b; simpl.
  - by rewrite !N.mod_1_r.
  - rewrite compare_app_same_length by (rewrite !length_dec_pad; done).
    rewrite IH, compare_digit_char by (apply N.mod_lt; lia).
    assert (Hd : ∀ n, n mod 10 ^ N.of_nat (S w) =
              ((n / 10) mod 10 ^ N.of_nat w) * 10 + n mod 10).
    { intros n. rewrite <- mod_pow10_S_div, <- (mod_pow10_S_mod w n).
      pose proof (N.div_mod (n mod 10 ^ N.of_nat (S w)) 10). lia. }
    rewrite (Hd a), (Hd b), compare_lex_digit by (apply N.mod_lt; lia).
    done.
Qed.

(** ** Parse/print round trip *)

Lemma digit_val_char d : d < 10 -> digit_val (digit_char d) = Some d.
Proof.
  intros Hd. unfold digit_val. rewrite digit_char_N by done.
  replace (N.leb 48 (48 + d) && N.leb (48 + d) 57) with true
    by (symmetry; apply andb_true_intro; split; apply N.leb_le; lia).
  f_equal. lia.
Qed.

Lemma parse_digits_acc_app acc s1 s2 :
  parse_digits_acc acc (s1 ++ s2) =
  match parse_digits_acc acc s1 with
  | Some acc' => parse_digits_acc acc' s2
  | None => None
  end.
Proof.
  revert acc; induction s1 as [|c s1 IH]; intros acc; simpl; [done|].
  destruct (digit_val c); auto.
Qed.

Lemma parse_digits_acc_dec_pad w acc n :
  parse_digits_acc acc (dec_pad w n) =
  Some (acc * 10 ^ N.of_nat w + n mod 10 ^ N.of_nat w).
Proof.
  revert acc n; induction w as [|w IH]; intros acc n; simpl.
  - rewrite N.mod_1_r. f_equal. lia.
  - rewrite parse_digits_acc_app, IH. simpl.
    rewrite digit_val_char by (apply N.mod_lt; lia). simpl. f_equal.
    rewrite <- (mod_pow10_S_div w n), <- (mod_pow10_S_mod w n).
    rewrite pow10_S. pose proof (N.div_mod (n mod (10 ^ N.of_nat w * 10)) 10). lia.
Qed.

Lemma parse_N_dec_pad w n :
  parse_N (dec_pad (S w) n) = Some (n mod 10 ^ N.of_nat (S w)).
Proof.
  assert (Hne : dec_pad (S w) n <> EmptyString).
  { intros E. apply (f_equal String.length) in E. rewrite length_dec_pad in E. done. }
  unfold parse_N. destruct (dec_pad (S w) n) eqn:E; [done|].
  rewrite <- E, parse_digits_acc_dec_pad; f_equal; lia.
Qed.

(** ** [str(n)] is the fixed-width printing at the number of digits *)

Lemma str_digits_pad (k f : nat) n :
  n < 10 ^ N.of_nat (S k) -> (k = 0%nat \/ 10 ^ N.of_nat k <= n) -> (k < f)%nat ->
  str_digits f n = dec_pad (S k) n.
Proof.
  revert f n; induction k as [|k IH]; intros [|f] n Hlt Hge Hf; try lia.
  - simpl in *. replace (N.ltb n 10) with true by (symmetry; apply N.ltb_lt; lia).
    done.
  - rewrite pow10_S in Hlt. destruct Hge as [|Hge]; [lia|].
    rewrite pow10_S in Hge.
    assert (10 ^ N.of_nat k <> 0) by (apply N.pow_nonzero; lia).
    simpl. replace (N.ltb n 10) with false
      by (symmetry; apply N.ltb_ge; lia).
    rewrite (IH f (n / 10)); [done | | | lia].
    + apply N.Div0.div_lt_upper_bound. lia.
    + destruct k; [by left | right]. apply N.div_le_lower_bound; lia.
Qed.

Lemma dec_digits_exist n :
  exists k : nat, n < 10 ^ N.of_nat (S k) /\ (k = 0%nat \/ 10 ^ N.of_nat k <= n).
Proof.
  induction n as [n IH] using (well_founded_induction N.lt_wf_0).
  destruct (N.lt_ge_cases n 10) as [Hn|Hn]; [exists 0%nat; simpl; lia|].
  destruct (IH (n / 10)) as (k & Hlt & Hge).
  { apply N.div_lt; lia. }
  exists (S k). rewrite !pow10_S. rewrite pow10_S in Hlt. split.
  - pose proof (N.div_mod n 10 ltac:(lia)). pose proof (N.mod_lt n 10 ltac:(lia)). lia.
  - right. destruct Hge as [->|Hge].
    + pose proof (N.div_mod n 10 ltac:(lia)). pose proof (N.mod_lt n 10 ltac:(lia)). lia.
    + pose proof (N.Div0.mul_div_le n 10). lia.
Qed.

Lemma pow10_log2 (k : nat) n :
  10 ^ N.of_nat k <= n -> (k < S (N.to_nat (N.log2 n)))%nat.
Proof.
  intros Hk. assert (Hpos : 0 < n) by (pose proof (N.pow_nonzero 10 (N.of_nat k)); lia).
  assert (2 ^ N.of_nat k <= n)
    by (pose proof (N.pow_le_mono_l 2 10 (N.of_nat k)); lia).
  apply N.log2_le_pow2 in H; lia.
Qed.

Lemma str_N_dec_pad (k : nat) n :
  n < 10 ^ N.of_nat (S k) -> (k = 0%nat \/ 10 ^ N.of_nat k <= n) ->
  str_N n = dec_pad (S k) n.
Proof.
  intros Hlt Hge. apply str_digits_pad; [done | done |].
  destruct Hge as [->|Hge]; [lia | by apply pow10_log2].
Qed.

(** ** The printing of Python's [str] on integers *)

Lemma parse_str_N n : parse_N (str_N n) = Some n.
Proof.
  destruct (dec_digits_exist n) as (k & Hlt & Hge).
  rewrite (str_N_dec_pad k n Hlt Hge), parse_N_dec_pad, N.mod_small; done.
Qed.

Lemma str_N_four_digits y : 1000 <= y < 10000 -> str_N y = dec_pad 4 y.
Proof. intros Hy. apply (str_N_dec_pad 3); simpl; lia. Qed.

Lemma str_N_two_digits n : 10 <= n < 100 -> str_N n = dec_pad 2 n.
Proof. intros Hn. apply (str_N_dec_pad 1); simpl; lia. Qed.
