(* ===== verification/PyStr.v ===== *)
(** * Python [str] methods on ASCII text

    The code calls [str.lower] ([patient_data.py] line 86, [main.py]
    line 177 through pandas' [.str.lower()]), [str.strip] and [str.title]
    (line 85) and [str.join] (line 78).  Each is modelled after CPython's
    implementation restricted to characters below 128: [str.isspace] holds
    of the ASCII characters 9-13, 28-31 and 32; the cased characters are the
    letters A-Z and a-z.  [str.join] raises [TypeError] on the first item
    that is not a [str]; the items that reach it in this program are
    pandas cells, a [str] or a float NaN for an empty CSV cell ([cell]). *)

From S2P Require Import Prelude Decimal.
From Stdlib Require Import Ascii String.
Local Open Scope string_scope.

(** ** Characters *)

Definition is_space (c : ascii) : bool :=
  let n := nat_of_ascii c in
  ((Nat.leb 9 n) && (Nat.leb n 13)) || ((Nat.leb 28 n) && (Nat.leb n 32)).

Definition is_upper (c : ascii) : bool :=
  let n := nat_of_ascii c in (Nat.leb 65 n) && (Nat.leb n 90).

Definition is_lower (c : ascii) : bool :=
  let n := nat_of_ascii c in (Nat.leb 97 n) && (Nat.leb n 122).

Definition is_cased (c : ascii) : bool := is_upper c || is_lower c.

Definition char_lower (c : ascii) : ascii :=
  if is_upper c then ascii_of_nat (nat_of_ascii c + 32) else c.

Definition char_upper (c : ascii) : ascii :=
  if is_lower c then ascii_of_nat (nat_of_ascii c - 32) else c.

(** ** [str.lower] *)

Fixpoint lower (s : string) : string :=
  match s with
  | EmptyString => EmptyString
  | String c s' => String (char_lower c) (lower s')
  end.

(** ** [str.strip()]: drop the leading and the trailing whitespace *)

Fixpoint lstrip (s : string) : string :=
  match s with
  | EmptyString => EmptyString
  | String c s' => if is_space c then lstrip s' else s
  end.

Fixpoint rstrip (s : string) : string :=
  match s with
  | EmptyString => EmptyString
  | String c s' =>
      let r := rstrip s' in
      match r with
      | EmptyString => if is_space c then EmptyString else String c EmptyString
      | _ => String c r
      end
  end.

Definition strip (s : string) : string := rstrip (lstrip s).

(** ** [str.title()]: CPython's [do_title] keeps the flag
    [previous_is_cased] of the previous input character; a character
    after a cased one is lowered, any other is title-cased (upper-cased
    for ASCII). *)

Fixpoint title_from (previous_is_cased : bool) (s : string) : string :=
  match s with
  | EmptyString => EmptyString
  | String c s' =>
      String (if previous_is_cased then char_lower c else char_upper c)
             (title_from (is_cased c) s')
  end.

Definition title (s : string) : string := title_from false s.

(** ** [sep.join(items)] *)

(** A pandas cell read from a CSV file: a [str], or NaN for an empty cell. *)
Inductive cell :=
| CStr (s : string)
| CNaN.

#[export] Instance cell_eq_dec : EqDecision cell.
Proof. solve_decision. Defined.

Fixpoint join (sep : string) (items : list string) : string :=
  match items with
  | [] => ""
  | [x] => x
  | x :: rest => x ++ sep ++ join sep rest
  end.

(** The items as strings, or the [TypeError] CPython raises for the first
    item that is not a [str] (its index [i] in the message). *)
Fixpoint cells_as_str (i : nat) (items : list cell) : result (list string) :=
  match items with
  | [] => Ok []
  | CStr s :: rest => let! r := cells_as_str (S i) rest in Ok (s :: r)
  | CNaN :: _ =>
      Err (TypeError ("sequence item " ++ str_nat i ++
                      ": expected str instance, float found"))
  end.

Definition py_join (sep : string) (items : list cell) : result string :=
  let! strs := cells_as_str 0 items in Ok (join sep strs).

(** ** Character lemmas, by evaluation on the 256 characters *)

Ltac all_chars c := destruct c as [[] [] [] [] [] [] [] []]; reflexivity.

Lemma char_lower_idem c : char_lower (char_lower c) = char_lower c.
Proof. all_chars c. Qed.
Lemma char_upper_idem c : char_upper (char_upper c) = char_upper c.
Proof. all_chars c. Qed.
Lemma is_cased_char_lower c : is_cased (char_lower c) = is_cased c.
Proof. all_chars c. Qed.
Lemma is_cased_char_upper c : is_cased (char_upper c) = is_cased c.
Proof. all_chars c. Qed.
Lemma is_space_char_lower c : is_space (char_lower c) = is_space c.
Proof. all_chars c. Qed.
Lemma is_space_char_upper c : is_space (char_upper c) = is_space c.
Proof. all_chars c. Qed.

#[export] Hint Rewrite char_lower_idem char_upper_idem is_cased_char_lower
  is_cased_char_upper is_space_char_lower is_space_char_upper : mv.

(** ** [lower], [strip] and [title] *)

Lemma lower_idem s : lower (lower s) = lower s.
Proof. induction s; simpl; rewrite ?char_lower_idem; congruence. Qed.

Lemma lstrip_idem s : lstrip (lstrip s) = lstrip s.
Proof.
  induction s as [|c s IH]; simpl; [done|].
  destruct (is_space c) eqn:E; simpl; [done | by rewrite E].
Qed.

Lemma rstrip_cons c s :
  rstrip (String c s) =
  if String.eqb (rstrip s) "" then (if is_space c then "" else String c "")
  else String c (rstrip s).
Proof. simpl. by destruct (rstrip s). Qed.

Lemma rstrip_idem s : rstrip (rstrip s) = rstrip s.
Proof.
  induction s as [|c s IH]; [done|].
  rewrite !rstrip_cons. destruct (String.eqb_spec (rstrip s) "") as [E|E].
  - destruct (is_space c) eqn:Ec; [done|]. rewrite rstrip_cons, Ec. done.
  - rewrite rstrip_cons, IH. by destruct (String.eqb_spec (rstrip s) "").
Qed.

Lemma lstrip_rstrip s : lstrip (rstrip s) = rstrip (lstrip s).
Proof.
  induction s as [|c s IH]; [done|].
  rewrite rstrip_cons. simpl lstrip at 2. destruct (is_space c) eqn:Ec.
  - rewrite <- IH. destruct (String.eqb_spec (rstrip s) "") as [E|E].
    + by rewrite E.
    + simpl. by rewrite Ec.
  - rewrite rstrip_cons. destruct (String.eqb (rstrip s) ""); simpl; by rewrite Ec.
Qed.

Lemma strip_idem s : strip (strip s) = strip s.
Proof.
  unfold strip. rewrite lstrip_rstrip, lstrip_idem, rstrip_idem. done.
Qed.

Lemma title_from_idem f s : title_from f (title_from f s) = title_from f s.
Proof.
  revert f; induction s as [|c s IH]; intros f; simpl; [done|].
  destruct f; res_simp; rewrite IH; done.
Qed.

Lemma title_from_empty f s : title_from f s = EmptyString <-> s = EmptyString.
Proof. destruct s; simpl; split; congruence. Qed.

Lemma lstrip_title s : lstrip (title s) = title (lstrip s).
Proof.
  unfold title. induction s as [|c s IH]; simpl; [done|].
  rewrite is_space_char_upper. destruct (is_space c) eqn:Ec; [|done].
  (* a space is uncased, so the flag after it is [false] again *)
  assert (Hc : is_cased c = false) by (clear - Ec; destruct c as [[] [] [] [] [] [] [] []]; done).
  rewrite Hc. exact IH.
Qed.

Lemma rstrip_title_from f s : rstrip (title_from f s) = title_from f (rstrip s).
Proof.
  revert f; induction s as [|c s IH]; intros f; [done|].
  change (title_from f (String c s)) with
    (String (if f then char_lower c else char_upper c) (title_from (is_cased c) s)).
  rewrite rstrip_cons, IH, (rstrip_cons c s).
  destruct (rstrip s) as [|c0 r]; simpl; [|done].
  destruct f; rewrite ?is_space_char_lower, ?is_space_char_upper;
    by destruct (is_space c).
Qed.

Lemma strip_title s : strip (title s) = title (strip s).
Proof. unfold strip. rewrite lstrip_title. apply rstrip_title_from. Qed.

(** The normalisation [city.strip().title()] is idempotent. *)
Lemma title_strip_idem s : title (strip (title (strip s))) = title (strip s).
Proof. rewrite strip_title, strip_idem. apply title_from_idem. Qed.

(** ** [str.join] on pandas cells *)

Lemma cells_as_str_map i l : cells_as_str i (map CStr l) = Ok l.
Proof. revert i; induction l as [|x l IH]; intros i; simpl; [done|]. by rewrite IH. Qed.

Lemma py_join_strs sep l : py_join sep (map CStr l) = Ok (join sep l).
Proof. unfold py_join. by rewrite cells_as_str_map. Qed.

Lemma cells_as_str_ok i items strs :
  cells_as_str i items = Ok strs -> items = map CStr strs.
Proof.
  revert i strs; induction items as [|[s|] items IH]; intros i strs H; simpl in H.
  - by injection H as <-.
  - res_inv H. injection H as <-. simpl. f_equal. eauto.
  - discriminate.
Qed.

Lemma cells_as_str_nan i items :
  CNaN ∈ items -> exists msg, cells_as_str i items = Err (TypeError msg).
Proof.
  revert i; induction items as [|[s|] items IH]; intros i Hin; simpl.
  - by apply elem_of_nil in Hin.
  - apply elem_of_cons in Hin as [?|Hin]; [discriminate|].
    destruct (IH (S i) Hin) as [msg ->]. eauto.
  - eauto.
Qed.

Lemma py_join_Ok sep items s :
  py_join sep items = Ok s -> exists strs, items = map CStr strs /\ s = join sep strs.
Proof.
  unfold py_join. intros H. res_inv H. injection H as <-.
  eauto using cells_as_str_ok.
Qed.

Lemma py_join_nan sep items :
  CNaN ∈ items -> exists msg, py_join sep items = Err (TypeError msg).
Proof.
  intros Hin. destruct (cells_as_str_nan 0 items Hin) as [msg Hm].
  exists msg. unfold py_join. by rewrite Hm.
Qed.

Lemma cells_as_str_no_nan i items :
  CNaN ∉ items -> cells_as_str i items = Ok (map (fun c => match c with CStr s => s | CNaN => "" end) items).
Proof.
  revert i; induction items as [|[s|] items IH]; intros i Hnan; simpl; [done| |].
  - rewrite IH; [done|]. intros Hin. apply Hnan. by apply elem_of_cons; right.
  - exfalso. apply Hnan. by apply elem_of_cons; left.
Qed.

Lemma py_join_no_nan sep items : CNaN ∉ items -> is_ok (py_join sep items) = true.
Proof. intros H. unfold py_join. by rewrite (cells_as_str_no_nan 0 items H). Qed.

(** ** [str.split(", ")]: the reader of the joined columns

    The code never reads the joined columns back; the specification asks
    that a structured read split them consistently.  [split_sep] is
    Python's [s.split(", ")]: the separator cannot overlap itself, so
    matching it from the left, as CPython does, is matching it at the
    first position where it occurs.  [''.split(", ")] is [['']]. *)

(** Put [c] in front of the first piece. *)
Definition cons_head (c : ascii) (pieces : list string) : list string :=
  match pieces with
  | [] => [String c EmptyString]
  | w :: ws => String c w :: ws
  end.

Fixpoint split_sep (s : string) : list string :=
  match s with
  | EmptyString => [""]
  | String c tl =>
      match tl with
      | String d rest =>
          if Ascii.eqb c "," && Ascii.eqb d " " then "" :: split_sep rest
          else cons_head c (split_sep tl)
      | EmptyString => [String c EmptyString]
      end
  end.

(** [", " in s] *)
Fixpoint has_sep (s : string) : bool :=
  match s with
  | String c ((String d _) as tl) => (Ascii.eqb c "," && Ascii.eqb d " ") || has_sep tl
  | _ => false
  end.

Lemma split_sep_app x r :
  has_sep x = false -> split_sep (x ++ ", " ++ r) = x :: split_sep r.
Proof.
  induction x as [|c x IH]; intros Hx; [reflexivity|].
  rewrite string_app_String. destruct x as [|d x].
  - rewrite string_app_nil_l. cbn [split_sep]. by destruct (Ascii.eqb c ",").
  - rewrite string_app_String. cbn [has_sep] in Hx. apply orb_false_iff in Hx as [Hcd Hx].
    specialize (IH Hx). rewrite string_app_String in IH.
    change (split_sep (String c (String d ((x ++ ", " ++ r)%string)))) with
      (if Ascii.eqb c "," && Ascii.eqb d " " then "" :: split_sep (x ++ ", " ++ r)%string
       else cons_head c (split_sep (String d (x ++ ", " ++ r)%string))).
    by rewrite Hcd, IH.
Qed.

Lemma split_sep_single x : has_sep x = false -> split_sep x = [x].
Proof.
  induction x as [|c x IH]; intros Hx; [reflexivity|]. destruct x as [|d x]; [reflexivity|].
  cbn [has_sep] in Hx. apply orb_false_iff in Hx as [Hcd Hx].
  change (split_sep (String c (String d x))) with
    (if Ascii.eqb c "," && Ascii.eqb d " " then "" :: split_sep x
     else cons_head c (split_sep (String d x))).
  by rewrite Hcd, IH.
Qed.

(** Splitting undoes [", ".join] on a non-empty list of items that do
    not contain the separator. *)
Lemma split_sep_join items :
  items <> [] -> Forall (fun x => has_sep x = false) items -> split_sep (join ", " items) = items.
Proof.
  induction items as [|x [|y items] IH]; intros Hne Hall; [done| |].
  - apply Forall_cons in Hall as [Hx _]. by apply split_sep_single.
  - apply Forall_cons in Hall as [Hx Hall].
    change (join ", " (x :: y :: items)) with (x ++ ", " ++ join ", " (y :: items))%string.
    rewrite split_sep_app by done. by rewrite IH.
Qed.
