(* ===== verification/Datetime.v ===== *)
(** * Timestamps: [datetime] and the two [strftime] formats of the code

    [store_patient_history] stamps a row with
    [datetime.datetime.now().strftime("%Y-%m-%d %H:%M")]
    ([patient_data.py] line 79) and [generate_pdf] prints
    [datetime.today().strftime('%d %B, %Y')] ([main.py] line 91).  The
    clock is an input of the model: a [datetime] record with Python's
    field ranges ([valid_datetime]).  The main theorem says that for
    four-digit years the stored text compares, character by character as
    SQLite's [ORDER BY date] does, exactly like the instants truncated to
    the minute ([minute_stamp]). *)

From S2P Require Import Prelude Decimal.
From Stdlib Require Import Ascii String.
Local Open Scope N_scope.

Record datetime := mk_datetime {
  year : N; month : N; day : N; hour : N; minute : N; second : N
}.

Definition is_leap (y : N) : bool :=
  (N.eqb (y mod 4) 0 && negb (N.eqb (y mod 100) 0)) || N.eqb (y mod 400) 0.

Definition days_in_month (y m : N) : N :=
  match m with
  | 2 => if is_leap y then 29 else 28
  | 4 | 6 | 9 | 11 => 30
  | _ => 31
  end.

(** The ranges [datetime] enforces ([MINYEAR] = 1, [MAXYEAR] = 9999). *)
Definition valid_datetime (t : datetime) : Prop :=
  1 <= year t <= 9999 /\ 1 <= month t <= 12 /\ 1 <= day t <= days_in_month (year t) (month t) /\
  hour t < 24 /\ minute t < 60 /\ second t < 60.

(** ["%Y-%m-%d %H:%M"]: [%Y] is the year in decimal ([str]), the other
    fields are zero-padded to two digits. *)
Definition strftime_history (t : datetime) : string :=
  (str_N (year t) ++ "-" ++ dec_pad 2 (month t) ++ "-" ++ dec_pad 2 (day t) ++ " " ++
   dec_pad 2 (hour t) ++ ":" ++ dec_pad 2 (minute t))%string.

Definition month_name (m : N) : string :=
  match m with
  | 1 => "January" | 2 => "February" | 3 => "March" | 4 => "April"
  | 5 => "May" | 6 => "June" | 7 => "July" | 8 => "August"
  | 9 => "September" | 10 => "October" | 11 => "November" | _ => "December"
  end.

(** ["%d %B, %Y"] in the C locale. *)
Definition strftime_report (t : datetime) : string :=
  (dec_pad 2 (day t) ++ " " ++ month_name (month t) ++ ", " ++ str_N (year t))%string.

(** The instant truncated to the minute, as one number whose decimal
    digits are the fields. *)
Definition minute_stamp (t : datetime) : N :=
  (((year t * 100 + month t) * 100 + day t) * 100 + hour t) * 100 + minute t.

(** ** The stored text orders like the instant at the minute *)

Lemma compare_String_same c (s1 s2 : string) :
  String.compare (String c s1) (String c s2) = String.compare s1 s2.
Proof. simpl. unfold Ascii.compare. by rewrite N.compare_refl. Qed.

Lemma compare_dec_pad_small w a b :
  a < 10 ^ N.of_nat w -> b < 10 ^ N.of_nat w ->
  String.compare (dec_pad w a) (dec_pad w b) = N.compare a b.
Proof. intros Ha Hb. by rewrite compare_dec_pad, !N.mod_small. Qed.

Lemma days_in_month_le y m : days_in_month y m <= 31.
Proof. unfold days_in_month. repeat case_match; lia. Qed.

Lemma four_digit_year_pad t :
  1000 <= year t -> valid_datetime t -> str_N (year t) = dec_pad 4 (year t).
Proof. intros H1 (Hy & _). apply str_N_four_digits. lia. Qed.

(** One zero-padded field followed by a separator: the comparison is
    lexicographic, the field first. *)
Lemma compare_field w sep a b (s1 s2 : string) :
  a < 10 ^ N.of_nat w -> b < 10 ^ N.of_nat w ->
  String.compare (dec_pad w a ++ String sep s1) (dec_pad w b ++ String sep s2) =
  match N.compare a b with Eq => String.compare s1 s2 | c => c end.
Proof.
  intros Ha Hb.
  rewrite compare_app_same_length by (rewrite !length_dec_pad; done).
  by rewrite compare_dec_pad_small, compare_String_same.
Qed.

(** C19: for four-digit years, the text [strftime("%Y-%m-%d %H:%M")]
    stores compares byte by byte exactly as the instants compare at the
    minute: [ORDER BY date] sorts chronologically, to the minute. *)
Theorem strftime_history_compare a b :
  valid_datetime a -> valid_datetime b -> 1000 <= year a -> 1000 <= year b ->
  String.compare (strftime_history a) (strftime_history b) =
  N.compare (minute_stamp a) (minute_stamp b).
Proof.
  intros Ha Hb Hya Hyb. unfold strftime_history, minute_stamp.
  rewrite (four_digit_year_pad a), (four_digit_year_pad b) by done.
  pose proof (days_in_month_le (year a) (month a)).
  pose proof (days_in_month_le (year b) (month b)).
  destruct Ha as (? & ? & ? & ? & ? & _), Hb as (? & ? & ? & ? & ? & _).
  rewrite !string_app_String, !string_app_nil_l.
  rewrite !compare_field by (simpl; lia).
  rewrite compare_dec_pad_small by (simpl; lia).
  rewrite !(compare_lex_digit 100) by lia.
  destruct (N.compare (year a) (year b)), (N.compare (month a) (month b)),
    (N.compare (day a) (day b)), (N.compare (hour a) (hour b)); reflexivity.
Qed.

Lemma strftime_history_compare_witness :
  let a := mk_datetime 2025 7 4 9 59 30 in
  let b := mk_datetime 2025 7 4 10 0 5 in
  valid_datetime a /\ valid_datetime b /\ 1000 <= year a /\ 1000 <= year b /\
  String.compare (strftime_history a) (strftime_history b) =
  N.compare (minute_stamp a) (minute_stamp b).
Proof.
  intros a b.
  assert (Ha : valid_datetime a) by (repeat split; simpl; lia).
  assert (Hb : valid_datetime b) by (repeat split; simpl; lia).
  assert (Hya : 1000 <= year a) by (simpl; lia).
  assert (Hyb : 1000 <= year b) by (simpl; lia).
  split_and!; [exact Ha | exact Hb | exact Hya | exact Hyb |].
  exact (strftime_history_compare a b Ha Hb Hya Hyb).
Defined.
