(* ===== verification/Doctor.v ===== *)
(** * Doctor recommender ([src/backend/patient_data.py] lines 5-92)

    [doctors_by_city] maps a city to a dict from specialty to a doctor
    description; [specialist_map] maps a lower-case disease name to a
    specialty.  [recommend_doctor] normalises the city with
    [strip().title()], looks the specialty up under [disease_name.lower()]
    with default "General", and answers from the city's dict when the
    city's entry is truthy (present and non-empty), with a fixed message
    otherwise.  Both dicts are stdpp [gmap]s built as the dict literals
    are; the theorems show which answer each branch gives and that the
    tables make the "No specialist available" answer unreachable. *)

From S2P Require Import Prelude PyStr.
From Stdlib Require Import String Ascii.
Local Open Scope string_scope.

(** ** The static tables (lines 6-50) *)

Definition doctors_by_city : gmap string (gmap string string) := py_dict [
  ("Lahore", py_dict [
    ("Cardiology", "Dr. Usman Tariq - Punjab Institute of Cardiology");
    ("Dermatology", "Dr. Sarah Malik - Cosmo Clinic");
    ("Neurology", "Dr. Ahsan Raza - Hameed Latif Hospital");
    ("General", "Dr. Huma Khan - Lahore General Hospital")]);
  ("Gujranwala", py_dict [
    ("Cardiology", "Dr. Shabbir Ahmed - City Hospital");
    ("Dermatology", "Dr. Neelam Bashir - Skin Clinic Gujranwala");
    ("Neurology", "Dr. Haris Javed - DHQ Gujranwala");
    ("General", "Dr. Faiza Anwar - Civil Hospital Gujranwala")]);
  ("Islamabad", py_dict [
    ("Cardiology", "Dr. Imran Nisar - PIMS");
    ("Dermatology", "Dr. Nadia Anwar - SkinTech Islamabad");
    ("Neurology", "Dr. Talha Malik - Shifa International Hospital");
    ("General", "Dr. Saima Zubair - Polyclinic Islamabad")]);
  ("Rawalpindi", py_dict [
    ("Cardiology", "Dr. Rizwan Aziz - Rawalpindi Institute of Cardiology");
    ("Dermatology", "Dr. Mahnoor Khan - Skin Wellness Center");
    ("Neurology", "Dr. Muneeb Khan - Benazir Bhutto Hospital");
    ("General", "Dr. Maria Qureshi - Holy Family Hospital")]);
  ("Karachi", py_dict [
    ("Cardiology", "Dr. Sameer Ansari - NICVD");
    ("Dermatology", "Dr. Hina Khan - Agha Khan Dermatology");
    ("Neurology", "Dr. Sohail Yousuf - Liaquat National Hospital");
    ("General", "Dr. Farah Hussain - Jinnah Hospital")])].

Definition specialist_map : gmap string string := py_dict [
  ("heart attack", "Cardiology");
  ("hypertension", "Cardiology");
  ("skin infection", "Dermatology");
  ("acne", "Dermatology");
  ("migraine", "Neurology");
  ("epilepsy", "Neurology");
  ("flu", "General");
  ("fever", "General");
  ("cold", "General")].

(** ** [recommend_doctor] (lines 84-92) *)

Definition no_specialist_msg : string := "No specialist available in your city.".

(** line 85 *)
Definition normalize_city (city : string) : string := title (strip city).

(** line 86 *)
Definition specialist_area (disease_name : string) : string :=
  dict_get specialist_map (lower disease_name) "General".

Definition no_doctor_msg (area city : string) : string :=
  "No doctor found for " ++ area ++ " in " ++ city ++ ". Try selecting a nearby city.".

Definition recommend_doctor (disease_name city : string) : string :=
  let city := normalize_city city in
  let area := specialist_area disease_name in
  let city_doctors := doctors_by_city !! city in
  (* [if city_doctors:] is false for None and for an empty dict *)
  match city_doctors with
  | Some cd =>
      if bool_decide (cd ≠ ∅) then dict_get cd area no_specialist_msg
      else no_doctor_msg area city
  | None => no_doctor_msg area city
  end.

(** ** Facts of the static tables, decided by evaluation *)

Definition specialties : list string := ["Cardiology"; "Dermatology"; "Neurology"; "General"].

Lemma specialist_map_img : map_Forall (fun _ a => a ∈ specialties) specialist_map.
Proof. eval_map_Forall. Qed.

(** Every city of the directory has a non-empty dict with a doctor for
    every specialty, and no doctor description is the "No specialist"
    message. *)
Lemma doctors_by_city_complete :
  map_Forall (fun _ cd =>
    cd ≠ ∅ /\ Forall (fun a => is_Some (cd !! a)) specialties /\
    map_Forall (fun _ doc => doc ≠ no_specialist_msg) cd) doctors_by_city.
Proof. eval_map_Forall. Qed.

Lemma specialist_area_in d : specialist_area d ∈ specialties.
Proof.
  unfold specialist_area, dict_get.
  destruct (specialist_map !! lower d) as [a|] eqn:E; simpl.
  - exact (specialist_map_img _ _ E).
  - repeat constructor.
Qed.

Lemma recommend_doctor_known d c cd :
  doctors_by_city !! normalize_city c = Some cd ->
  recommend_doctor d c = dict_get cd (specialist_area d) no_specialist_msg.
Proof.
  intros H. unfold recommend_doctor. rewrite H.
  destruct (doctors_by_city_complete _ _ H) as (Hne & _).
  by rewrite bool_decide_eq_true_2.
Qed.

Lemma recommend_doctor_unknown d c :
  doctors_by_city !! normalize_city c = None ->
  recommend_doctor d c = no_doctor_msg (specialist_area d) (normalize_city c).
Proof. intros H. unfold recommend_doctor. by rewrite H. Qed.

Lemma no_doctor_msg_ne area city : no_doctor_msg area city <> no_specialist_msg.
Proof. unfold no_doctor_msg. rewrite !string_app_String. discriminate. Qed.

(** ** Properties of [recommend_doctor] *)

(** C20: in a city of the directory the answer is that city's doctor for
    the disease's specialty. *)
Theorem recommend_known_city d c cd :
  doctors_by_city !! normalize_city c = Some cd ->
  cd !! specialist_area d = Some (recommend_doctor d c).
Proof.
  intros H. rewrite (recommend_doctor_known d c cd H).
  destruct (doctors_by_city_complete _ _ H) as (_ & Hall & _).
  rewrite Forall_forall in Hall.
  destruct (Hall _ (specialist_area_in d)) as [doc Hdoc].
  unfold dict_get. by rewrite Hdoc.
Qed.

Lemma recommend_known_city_witness :
  doctors_by_city !! normalize_city "lahore " = Some (default ∅ (doctors_by_city !! "Lahore")) /\
  default ∅ (doctors_by_city !! "Lahore") !! specialist_area "Acne" =
  Some (recommend_doctor "Acne" "lahore ").
Proof.
  assert (H : doctors_by_city !! normalize_city "lahore " =
              Some (default ∅ (doctors_by_city !! "Lahore"))) by (vm_compute; reflexivity).
  split; [exact H | exact (recommend_known_city "Acne" "lahore " _ H)].
Defined.

(** C21: the answer "No specialist available in your city." of line 90 is
    unreachable: every city of the directory has every specialty that
    [specialist_map] or the default can name. *)
Theorem recommend_never_no_specialist d c : recommend_doctor d c <> no_specialist_msg.
Proof.
  destruct (doctors_by_city !! normalize_city c) as [cd|] eqn:H.
  - rewrite (recommend_doctor_known d c cd H).
    destruct (doctors_by_city_complete _ _ H) as (_ & Hall & Hdocs).
    rewrite Forall_forall in Hall.
    destruct (Hall _ (specialist_area_in d)) as [doc Hdoc].
    unfold dict_get. rewrite Hdoc. exact (Hdocs _ _ Hdoc).
  - rewrite (recommend_doctor_unknown d c H). apply no_doctor_msg_ne.
Qed.

(** C22: for a city that is not in the directory after normalisation, the
    answer is the fallback message naming the specialty and the
    normalised city. *)
Theorem recommend_unknown_city d c :
  doctors_by_city !! normalize_city c = None ->
  recommend_doctor d c =
  "No doctor found for " ++ specialist_area d ++ " in " ++ title (strip c) ++
  ". Try selecting a nearby city.".
Proof. intros H. rewrite (recommend_doctor_unknown d c H). reflexivity. Qed.

Lemma recommend_unknown_city_witness :
  doctors_by_city !! normalize_city " multan" = None /\
  recommend_doctor "flu" " multan" =
  "No doctor found for " ++ specialist_area "flu" ++ " in " ++ title (strip " multan") ++
  ". Try selecting a nearby city.".
Proof.
  assert (H : doctors_by_city !! normalize_city " multan" = None) by (vm_compute; reflexivity).
  split; [exact H | exact (recommend_unknown_city "flu" " multan" H)].
Defined.

(** Two labels in the same specialty get the same answer in every city. *)
Lemma recommend_doctor_same_area d1 d2 c :
  specialist_area d1 = specialist_area d2 -> recommend_doctor d1 c = recommend_doctor d2 c.
Proof. intros Ha. unfold recommend_doctor. by rewrite Ha. Qed.

Lemma specialist_area_unmapped d :
  specialist_map !! lower d = None -> specialist_area d = specialist_area "flu".
Proof. intros H. unfold specialist_area, dict_get. by rewrite H. Qed.

(** C23: a disease that [specialist_map] does not name is treated as a
    "General" case: the answer is the one for "flu", in every city. *)
Theorem recommend_unmapped_disease d c :
  specialist_map !! lower d = None -> recommend_doctor d c = recommend_doctor "flu" c.
Proof. intros H. by apply recommend_doctor_same_area, specialist_area_unmapped. Qed.

Lemma recommend_unmapped_disease_witness :
  specialist_map !! lower "Malaria" = None /\
  recommend_doctor "Malaria" "Karachi" = recommend_doctor "flu" "Karachi".
Proof.
  assert (H : specialist_map !! lower "Malaria" = None) by (vm_compute; reflexivity).
  split; [exact H | exact (recommend_unmapped_disease "Malaria" "Karachi" H)].
Defined.

(** the city normalisation [strip().title()] is idempotent, so
    passing an already normalised city gives the same answer. *)
Theorem recommend_normalized_city d c :
  recommend_doctor d (normalize_city c) = recommend_doctor d c.
Proof. unfold recommend_doctor, normalize_city. by rewrite title_strip_idem. Qed.

(** the examples of the specification: "Acne" in "lahore " is the
    Lahore dermatologist; "flu" in "Multan" is the fallback message. *)
Example recommend_spec_examples :
  recommend_doctor "Acne" "lahore " = "Dr. Sarah Malik - Cosmo Clinic" /\
  recommend_doctor "flu" "Multan" =
  "No doctor found for General in Multan. Try selecting a nearby city.".
Proof. split; vm_compute; reflexivity. Qed.

(** The last character of a string. *)
Fixpoint last_char (s : string) : option ascii :=
  match s with
  | EmptyString => None
  | String c EmptyString => Some c
  | String _ s' => last_char s'
  end.

Lemma last_char_padded x : last_char (x ++ " ") = Some " "%char.
Proof. induction x as [|c x IH]; [done|]. cbn [append]. by destruct x. Qed.

Lemma lower_app a b : lower (a ++ b) = lower a ++ lower b.
Proof.
  induction a as [|c a IH]; [by rewrite !string_app_nil_l|].
  rewrite string_app_String. simpl. rewrite string_app_String. by f_equal.
Qed.

(** No key of [specialist_map] ends with a space. *)
Lemma specialist_map_keys_unpadded :
  map_Forall (fun k _ => last_char k <> Some " "%char) specialist_map.
Proof. eval_map_Forall. Qed.

Lemma specialist_map_padded x : specialist_map !! (x ++ " ") = None.
Proof.
  destruct (specialist_map !! (x ++ " ")) as [a|] eqn:E; [|done].
  destruct (specialist_map_keys_unpadded _ _ E). apply last_char_padded.
Qed.

(** C24: the disease label is lowered but not stripped: whatever the
    label, the same label with a trailing space misses [specialist_map]
    and gets the general practitioner's answer, in every city, even when
    the label itself names a specialty ("Hypertension " is not sent to
    cardiology). *)
Theorem recommend_padded_label d c :
  recommend_doctor (d ++ " ") c = recommend_doctor "flu" c.
Proof.
  apply recommend_doctor_same_area, specialist_area_unmapped.
  rewrite lower_app. apply specialist_map_padded.
Qed.
