(* ===== verification/Precautions.v ===== *)
(** * Precaution resolver: [get_precautions] ([src/main.py] lines 176-178)

    [precautions_df] is the CSV [data/symptom_precaution.csv] read by
    pandas (line 22): one row per disease with the columns [Disease] and
    [Precaution_1] .. [Precaution_4]; an empty cell is a float NaN
    ([CNaN]).  [get_precautions] keeps the rows whose [Disease], lowered,
    equals the lowered label, and returns the four precaution cells of
    the first of them, or [[]] when there is none.  The file proves the
    shape of the answer (zero or exactly four cells) and that the lookup
    refines a dictionary from lowered disease names to the first matching
    row's cells. *)

From S2P Require Import Prelude PyStr.
From Stdlib Require Import String.
Local Open Scope string_scope.

Record prec_row := mk_prec_row {
  disease_col : cell;
  precaution_1 : cell;
  precaution_2 : cell;
  precaution_3 : cell;
  precaution_4 : cell
}.

(** [[row[f'Precaution_{i}'].values[0] for i in range(1, 5)]] *)
Definition precaution_cells (r : prec_row) : list cell :=
  [precaution_1 r; precaution_2 r; precaution_3 r; precaution_4 r].

(** [precautions_df['Disease'].str.lower() == disease_name.lower()]:
    [.str.lower()] maps NaN to NaN, and NaN equals no string. *)
Definition disease_matches (disease_name : string) (r : prec_row) : bool :=
  match disease_col r with
  | CStr d => String.eqb (lower d) (lower disease_name)
  | CNaN => false
  end.

Definition get_precautions (precautions_df : list prec_row) (disease_name : string) : list cell :=
  match List.filter (disease_matches disease_name) precautions_df with
  | [] => []
  | r :: _ => precaution_cells r
  end.

(** ** The abstract view: a dict from lowered disease names to cells, in
    which the first row of a name wins *)

Definition precaution_map (precautions_df : list prec_row) : gmap string (list cell) :=
  foldr (fun r m =>
           match disease_col r with
           | CStr d => <[lower d := precaution_cells r]> m
           | CNaN => m
           end) ∅ precautions_df.

Lemma get_precautions_cons df n r :
  get_precautions (r :: df) n =
  if disease_matches n r then precaution_cells r else get_precautions df n.
Proof. unfold get_precautions. simpl. by destruct (disease_matches n r). Qed.

Lemma get_precautions_lookup df n :
  get_precautions df n = default [] (precaution_map df !! lower n).
Proof.
  induction df as [|r df IH]; [done|].
  rewrite get_precautions_cons. unfold disease_matches. simpl.
  destruct (disease_col r) as [d|]; [|exact IH].
  destruct (String.eqb_spec (lower d) (lower n)) as [E|E].
  - by rewrite E, lookup_insert_eq.
  - by rewrite lookup_insert_ne.
Qed.

(** C26: [get_precautions] is a dictionary lookup: it returns the cells
    that [precaution_map] holds under the lowered label, and [[]] when
    the label is absent. *)
Theorem get_precautions_refines df n :
  get_precautions df n = default [] (precaution_map df !! lower n).
Proof. intros; eapply get_precautions_lookup; eassumption. Qed.

(** the answer has exactly four cells when some row matches and
    none otherwise; it is never a list of one to three precautions. *)
Theorem get_precautions_length df n :
  List.length (get_precautions df n) = if existsb (disease_matches n) df then 4%nat else 0%nat.
Proof.
  induction df as [|r df IH]; [done|].
  rewrite get_precautions_cons. simpl. by destruct (disease_matches n r).
Qed.

Lemma get_precautions_case df n1 n2 :
  lower n1 = lower n2 -> get_precautions df n1 = get_precautions df n2.
Proof. intros E. by rewrite !get_precautions_lookup, E. Qed.

(** C27: NaN cells are returned as they are: the answer holds a NaN
    exactly when the first row that matches the lowered label has an
    empty precaution cell (a disease with fewer than four precautions in
    the CSV), so the caller receives NaN rather than a shorter list. *)
Theorem get_precautions_nan_cells df n :
  CNaN ∈ get_precautions df n <->
  exists df1 r df2, df = (df1 ++ r :: df2)%list /\
    Forall (fun r' => disease_matches n r' = false) df1 /\
    disease_matches n r = true /\ CNaN ∈ precaution_cells r.
Proof.
  induction df as [|r df IH].
  - split; [by intros ?%elem_of_nil | intros ([|] & ? & ? & ? & _); discriminate].
  - rewrite get_precautions_cons. destruct (disease_matches n r) eqn:Hm.
    + split; [intros Hin; by exists [], r, df|].
      intros (df1 & r' & df2 & Heq & Hf & _ & Hin).
      destruct df1 as [|r1 df1]; simpl in Heq; injection Heq as -> ->; [done|].
      apply Forall_cons in Hf as [Hf _]. congruence.
    + rewrite IH. split.
      * intros (df1 & r' & df2 & Heq & Hf & ? & ?). subst df.
        exists (r :: df1), r', df2. split_and!; [done | by constructor | done | done].
      * intros (df1 & r' & df2 & Heq & Hf & Hm' & Hin).
        destruct df1 as [|r1 df1]; simpl in Heq; injection Heq as -> ->; [congruence|].
        exists df1, r', df2. apply Forall_cons in Hf as [_ Hf]. done.
Qed.

Lemma get_precautions_nan_cells_witness :
  let r := mk_prec_row (CStr "Fungal infection") (CStr "bath twice")
             (CStr "use detol or neem in bathing water") (CStr "keep infected area dry") CNaN in
  let df := [mk_prec_row (CStr "Drug Reaction") (CStr "stop irritation")
               (CStr "consult nearest hospital") (CStr "stop taking drug") (CStr "follow up"); r] in
  (exists df1 r' df2, df = (df1 ++ r' :: df2)%list /\
     Forall (fun r'' => disease_matches "fungal INFECTION" r'' = false) df1 /\
     disease_matches "fungal INFECTION" r' = true /\ CNaN ∈ precaution_cells r') /\
  CNaN ∈ get_precautions df "fungal INFECTION".
Proof.
  intros r df.
  assert (H : exists df1 r' df2, df = (df1 ++ r' :: df2)%list /\
     Forall (fun r'' => disease_matches "fungal INFECTION" r'' = false) df1 /\
     disease_matches "fungal INFECTION" r' = true /\ CNaN ∈ precaution_cells r').
  { exists [List.hd r df], r, []. split_and!; [reflexivity | repeat constructor | reflexivity |].
    unfold precaution_cells. simpl. set_solver. }
  split; [exact H | exact (proj2 (get_precautions_nan_cells df "fungal INFECTION") H)].
Defined.

Lemma get_precautions_row df n :
  get_precautions df n = [] \/ exists r, r ∈ df /\ get_precautions df n = precaution_cells r.
Proof.
  induction df as [|r df IH]; [by left|]. rewrite get_precautions_cons.
  destruct (disease_matches n r).
  - right. exists r. split; [by left | done].
  - destruct IH as [->|(r' & Hr' & ->)]; [by left|]. right. exists r'. split; [by right | done].
Qed.
