(* ===== verification/Encoder.v ===== *)
(** * Symptom encoder: [encoder.transform([selected_symptoms])]
    ([src/main.py] line 168)

    The encoder is a pre-trained scikit-learn [MultiLabelBinarizer]
    loaded from [models/symptom_encoder.pkl]; its code is not in the
    repository, so [transform] follows the specification's contract (4.1):
    the vocabulary [classes] ([encoder.classes_], line 24) in its fixed
    order, an indicator per class, and [UnknownSymptom] for a symptom
    outside the vocabulary.  The selection comes from
    [st.multiselect(..., sorted(all_symptoms))] (line 161): its items are
    options of the widget and pairwise distinct ([multiselect_ok]). *)

From S2P Require Import Prelude.
From Stdlib Require Import String.
Local Open Scope string_scope.

Definition transform (classes selected : list string) : result (list nat) :=
  match List.find (fun s => negb (bool_decide (s ∈ classes))) selected with
  | Some s => Err (UnknownSymptom s)
  | None => Ok (map (fun c => if bool_decide (c ∈ selected) then 1%nat else 0%nat) classes)
  end.

(** What [st.multiselect] returns: distinct options of the widget. *)
Definition multiselect_ok (options selected : list string) : Prop :=
  NoDup selected /\ selected ⊆ options.

(** ** Lemmas *)

Lemma find_unknown_None (classes selected : list string) :
  selected ⊆ classes ->
  List.find (fun s => negb (bool_decide (s ∈ classes))) selected = None.
Proof.
  induction selected as [|s ss IH]; intros Hsub; [done|]. simpl.
  rewrite bool_decide_eq_true_2 by (apply Hsub; by left).
  apply IH. intros x Hx. apply Hsub. by right.
Qed.

Lemma transform_ok classes selected :
  selected ⊆ classes ->
  transform classes selected =
  Ok (map (fun c => if bool_decide (c ∈ selected) then 1%nat else 0%nat) classes).
Proof. intros Hsub. unfold transform. by rewrite find_unknown_None. Qed.

Lemma sum_indicator (classes selected : list string) :
  sum_list (map (fun c => if bool_decide (c ∈ selected) then 1%nat else 0%nat) classes) =
  List.length (filter (fun c => c ∈ selected) classes).
Proof.
  induction classes as [|c cs IH]; [done|]. simpl. rewrite filter_cons.
  case_bool_decide; case_decide; simpl; try lia; contradiction.
Qed.

(** ** Properties of [transform] *)

(** C29: a selection of distinct vocabulary symptoms is encoded as a
    vector of the vocabulary's length with exactly one 1 per selected
    symptom. *)
Theorem transform_counts classes selected :
  NoDup classes -> multiselect_ok classes selected ->
  exists v, transform classes selected = Ok v /\
    List.length v = List.length classes /\ sum_list v = List.length selected.
Proof.
  intros Hc [Hs Hsub]. eexists. split; [exact (transform_ok _ _ Hsub)|].
  rewrite length_map. split; [done|]. rewrite sum_indicator.
  apply Permutation_length. apply NoDup_Permutation.
  - by apply NoDup_filter.
  - done.
  - intros x. rewrite list_elem_of_filter. split; [by intros []|]. intros Hx.
    split; [done | by apply Hsub].
Qed.

Lemma transform_counts_witness :
  NoDup ["cough"; "fever"; "headache"] /\
  multiselect_ok ["cough"; "fever"; "headache"] ["fever"; "cough"] /\
  exists v, transform ["cough"; "fever"; "headache"] ["fever"; "cough"] = Ok v /\
    List.length v = List.length ["cough"; "fever"; "headache"] /\
    sum_list v = List.length ["fever"; "cough"].
Proof.
  assert (Hc : NoDup ["cough"; "fever"; "headache"]) by decide_by_eval.
  assert (Hs : multiselect_ok ["cough"; "fever"; "headache"] ["fever"; "cough"])
    by (split; decide_by_eval).
  split_and!; [exact Hc | exact Hs | exact (transform_counts _ _ Hc Hs)].
Defined.

(** the example of the specification: with the vocabulary
    [cough; fever; headache], the selection [fever; cough] is [1; 1; 0]. *)
Example transform_spec_example :
  transform ["cough"; "fever"; "headache"] ["fever"; "cough"] = Ok [1; 1; 0]%nat.
Proof. vm_compute. reflexivity. Qed.

(** the encoding does not depend on the order in which the symptoms
    were selected. *)
Theorem transform_order_irrelevant classes s1 s2 :
  s1 ≡ₚ s2 -> s1 ⊆ classes -> transform classes s1 = transform classes s2.
Proof.
  intros P Hsub. rewrite !transform_ok; [| by rewrite <- P | done].
  f_equal. apply map_ext. intros c.
  by rewrite (bool_decide_ext (c ∈ s1) (c ∈ s2)) by (by rewrite P).
Qed.

(** C30: a symptom outside the vocabulary makes [transform] fail with
    [UnknownSymptom]. *)
Theorem transform_unknown classes selected s :
  s ∈ selected -> s ∉ classes -> exists u, transform classes selected = Err (UnknownSymptom u).
Proof.
  intros Hin Hout. unfold transform.
  destruct (List.find _ selected) as [u|] eqn:E; [by eexists|].
  exfalso. apply list_elem_of_In in Hin.
  pose proof (List.find_none _ _ E s Hin) as Hs. simpl in Hs.
  rewrite bool_decide_eq_false_2 in Hs; done.
Qed.

Lemma transform_order_irrelevant_witness :
  ["fever"; "cough"] ≡ₚ ["cough"; "fever"] /\
  ["fever"; "cough"] ⊆ ["cough"; "fever"; "headache"] /\
  transform ["cough"; "fever"; "headache"] ["fever"; "cough"] =
  transform ["cough"; "fever"; "headache"] ["cough"; "fever"].
Proof.
  assert (P : ["fever"; "cough"] ≡ₚ ["cough"; "fever"]) by apply Permutation_swap.
  assert (Hs : ["fever"; "cough"] ⊆ ["cough"; "fever"; "headache"]) by decide_by_eval.
  split_and!; [exact P | exact Hs | exact (transform_order_irrelevant _ _ _ P Hs)].
Defined.

Lemma transform_unknown_witness :
  "sneezing" ∈ ["fever"; "sneezing"] /\ ("sneezing" ∉ ["cough"; "fever"; "headache"]) /\
  exists u, transform ["cough"; "fever"; "headache"] ["fever"; "sneezing"] = Err (UnknownSymptom u).
Proof.
  assert (H1 : "sneezing" ∈ ["fever"; "sneezing"]) by decide_by_eval.
  assert (H2 : "sneezing" ∉ ["cough"; "fever"; "headache"]) by decide_by_eval.
  split_and!; [exact H1 | exact H2 | exact (transform_unknown _ _ _ H1 H2)].
Defined.
