(* ===== verification/Classifier.v ===== *)
(** * Disease classifier and the confidence score ([src/main.py] lines
    169-171)

    The classifier is a pre-trained scikit-learn estimator loaded from
    [models/disease_model.pkl] (line 20); the repository only calls it.
    It is modelled as a class [Predictor] (its fitted state: the number of
    features, the class labels, and the row-wise [predict] and
    [predict_proba]) with the laws every probabilistic classifier keeps
    ([PredictorLaws]: one probability per class, each in [0, 1], summing
    to 1).  [predict] and [predict_proba] raise on an input of the wrong
    width, as scikit-learn does.  [confidence_score] is line 171,
    [model.predict_proba(input_vector).max() * 100], with [.max()] as
    numpy's reduction that raises on an empty array.  Probabilities are
    rationals: the rounding of the float product is not modelled. *)

From S2P Require Import Prelude.
From Stdlib Require Import QArith Qminmax Lqa String.

Class Predictor := {
  n_features : nat;
  model_classes : list string;
  predict_row : list nat -> string;
  predict_proba_row : list nat -> list Q
}.

Class PredictorLaws `{Predictor} := {
  classes_nonempty : model_classes <> [];
  proba_length : forall x, List.length x = n_features ->
    List.length (predict_proba_row x) = List.length model_classes;
  proba_bounds : forall x p, List.length x = n_features ->
    p ∈ predict_proba_row x -> 0 <= p <= 1;
  proba_sum : forall x, List.length x = n_features ->
    fold_right Qplus 0 (predict_proba_row x) == 1;
  predict_in_classes : forall x, List.length x = n_features ->
    predict_row x ∈ model_classes
}.

Section WithPredictor.
Context `{Predictor}.

(** [model.predict(input_vector)[0]] (lines 169-170) *)
Definition predict (x : list nat) : result string :=
  if Nat.eqb (List.length x) n_features then Ok (predict_row x) else Err InvalidInputShape.

(** [model.predict_proba(input_vector)] for the single input row *)
Definition predict_proba (x : list nat) : result (list Q) :=
  if Nat.eqb (List.length x) n_features then Ok (predict_proba_row x) else Err InvalidInputShape.

(** numpy's [.max()] *)
Definition np_max (l : list Q) : result Q :=
  match l with
  | [] => Err (ValueError "zero-size array to reduction operation maximum which has no identity")
  | p :: ps => Ok (fold_left Qmax ps p)
  end.

(** line 171 *)
Definition confidence_score (x : list nat) : result Q :=
  let! ps := predict_proba x in
  let! m := np_max ps in
  Ok (m * 100).

End WithPredictor.

(** ** Lemmas on [.max()] and sums of probabilities *)

Lemma fold_Qmax_ge_init l a : a <= fold_left Qmax l a.
Proof.
  revert a; induction l as [|b l IH]; intros a; simpl; [apply Qle_refl|].
  eapply Qle_trans; [apply Q.le_max_l | apply IH].
Qed.

Lemma fold_Qmax_ge l a x : x ∈ l -> x <= fold_left Qmax l a.
Proof.
  revert a; induction l as [|b l IH]; intros a Hx; [by apply elem_of_nil in Hx|]. simpl.
  apply elem_of_cons in Hx as [->|Hx]; [|by apply IH].
  eapply Qle_trans; [apply Q.le_max_r | apply fold_Qmax_ge_init].
Qed.

Lemma fold_Qmax_le l a B : a <= B -> (forall x, x ∈ l -> x <= B) -> fold_left Qmax l a <= B.
Proof.
  revert a; induction l as [|b l IH]; intros a Ha Hl; simpl; [done|].
  apply IH; [apply Q.max_lub; [done | apply Hl; by left]|].
  intros x Hx. apply Hl. by right.
Qed.

Lemma sum_le_length_mul l m :
  (forall x, x ∈ l -> x <= m) -> fold_right Qplus 0 l <= inject_Z (Z.of_nat (List.length l)) * m.
Proof.
  induction l as [|x l IH]; intros Hl; simpl.
  - rewrite Qmult_0_l. apply Qle_refl.
  - replace (Z.of_nat (S (List.length l))) with (Z.of_nat (List.length l) + 1)%Z by lia.
    rewrite inject_Z_plus.
    assert (Hx : x <= m) by (apply Hl; by left).
    assert (IH' : fold_right Qplus 0 l <= inject_Z (Z.of_nat (List.length l)) * m)
      by (apply IH; intros y Hy; apply Hl; by right).
    change (inject_Z 1) with 1. lra.
Qed.

(** ** The confidence score *)

Section Confidence.
Context `{PredictorLaws}.

Lemma confidence_score_in_range x :
  List.length x = n_features ->
  exists c, confidence_score x = Ok c /\ 0 <= c <= 100 /\
    100 <= inject_Z (Z.of_nat (List.length model_classes)) * c.
Proof.
  intros Hx. unfold confidence_score, predict_proba.
  rewrite (proj2 (Nat.eqb_eq _ _) Hx). simpl.
  pose proof (proba_length x Hx) as Hlen. pose proof (proba_sum x Hx) as Hsum.
  pose proof (proba_bounds x) as Hb.
  destruct (predict_proba_row x) as [|p ps] eqn:E.
  { simpl in Hlen. destruct model_classes; [by pose proof classes_nonempty | done]. }
  simpl. eexists. split; [reflexivity|].
  assert (Hmax_ge : forall q, q ∈ p :: ps -> q <= fold_left Qmax ps p).
  { intros q Hq. apply elem_of_cons in Hq as [->|Hq];
      [apply fold_Qmax_ge_init | by apply fold_Qmax_ge]. }
  assert (Hp : 0 <= p <= 1) by (apply Hb; [done | by left]).
  assert (Hle1 : fold_left Qmax ps p <= 1).
  { apply fold_Qmax_le; [lra|]. intros q Hq. apply Hb; [done | by right]. }
  pose proof (fold_Qmax_ge_init ps p) as Hge.
  pose proof (sum_le_length_mul (p :: ps) _ Hmax_ge) as Hs.
  rewrite <- Hlen. split; [lra|].
  set (K := inject_Z (Z.of_nat (List.length (p :: ps)))) in *.
  set (M := fold_left Qmax ps p) in *. nra.
Qed.

(** C31: on an input of the expected width the confidence score is
    defined, lies in [0, 100], and is at least [100 / K] for [K] classes
    (the largest of [K] probabilities summing to 1 is at least [1 / K]). *)
Theorem confidence_bounds x :
  List.length x = n_features ->
  exists c, confidence_score x = Ok c /\ 0 <= c <= 100 /\
    100 <= inject_Z (Z.of_nat (List.length model_classes)) * c.
Proof. intros; eapply confidence_score_in_range; eassumption. Qed.

(** an input of the wrong width is rejected: [predict] and the
    confidence score raise [InvalidInputShape]. *)
Theorem wrong_width_rejected x :
  List.length x <> n_features ->
  predict x = Err InvalidInputShape /\ confidence_score x = Err InvalidInputShape.
Proof.
  intros Hx. unfold confidence_score, predict, predict_proba.
  by rewrite (proj2 (Nat.eqb_neq _ _) Hx).
Qed.

End Confidence.

(** ** A two-class predictor satisfying the laws: the hypotheses of the
    theorems above are satisfiable, and the witnesses run on it. *)

Definition example_predictor : Predictor := {|
  n_features := 3;
  model_classes := ["Common Cold"; "Migraine"]%string;
  predict_row x := if Nat.eqb (nth 0 x 0%nat) 1 then "Common Cold"%string else "Migraine"%string;
  predict_proba_row x := if Nat.eqb (nth 0 x 0%nat) 1 then [3#4; 1#4] else [1#4; 3#4]
|}.

#[export] Instance example_predictor_laws : @PredictorLaws example_predictor.
Proof.
  split; simpl.
  - discriminate.
  - intros x _. by destruct (Nat.eqb _ _).
  - intros x p _. destruct (Nat.eqb _ _); intros Hp;
      repeat (apply elem_of_cons in Hp as [->|Hp]; [split; vm_compute; discriminate|]);
      by apply elem_of_nil in Hp.
  - intros x _. destruct (Nat.eqb _ _); reflexivity.
  - intros x _. destruct (Nat.eqb _ _); decide_by_eval.
Qed.

Lemma confidence_bounds_witness :
  List.length [1; 0; 0]%nat = @n_features example_predictor /\
  exists c, @confidence_score example_predictor [1; 0; 0]%nat = Ok c /\ 0 <= c <= 100 /\
    100 <= inject_Z (Z.of_nat (List.length (@model_classes example_predictor))) * c.
Proof.
  split; [reflexivity|].
  exact (@confidence_bounds example_predictor example_predictor_laws [1; 0; 0]%nat eq_refl).
Defined.

Lemma wrong_width_rejected_witness :
  List.length [1; 0]%nat <> @n_features example_predictor /\
  @predict example_predictor [1; 0]%nat = Err InvalidInputShape /\
  @confidence_score example_predictor [1; 0]%nat = Err InvalidInputShape.
Proof.
  assert (H : List.length [1; 0]%nat <> @n_features example_predictor) by (simpl; lia).
  split; [exact H | exact (@wrong_width_rejected example_predictor [1; 0]%nat H)].
Defined.
