(* ===== verification/History.v ===== *)
(** * History store: the SQLite table [history] ([patient_data.py] lines 52-102)

    The database file holds one table, [history], with an
    [INTEGER PRIMARY KEY AUTOINCREMENT] id.  The state of the model is the
    file as the three functions see it: whether its directory can be
    opened ([db_dir_ok]; the path is hard-coded, line 54), and the table
    when it exists, with its rows in rowid order and the AUTOINCREMENT
    counter SQLite keeps in [sqlite_sequence] ([seq]).  Each function is a
    state transformer in [result]: a raised exception leaves the file as it
    was, since the code commits only after the [INSERT] succeeded.

    [get_patient_history] runs [SELECT * FROM history ORDER BY date DESC].
    SQL fixes the order only up to rows with equal dates, so the query is
    specified by the relation [order_by_date_desc] (a permutation sorted
    by date, descending); [select_order_by_date_desc], stdpp's merge
    sort, is one implementation of it, the one the theorems about ties
    exhibit. *)

From S2P Require Import Prelude Decimal PyStr Datetime.
From Stdlib Require Import String.
Local Open Scope Z_scope.

(** ** The table and the file *)

Record row := mk_row {
  row_id : Z;
  name : string;
  gender : string;
  city : string;
  symptoms : string;
  predicted_disease : string;
  precautions : string;
  doctor : string;
  date : string
}.

Record table := mk_table {
  rows : list row;
  seq : Z   (** the largest rowid ever used, from [sqlite_sequence] *)
}.

Record db := mk_db {
  db_dir_ok : bool;
  history : option table
}.

(** The largest rowid SQLite accepts. *)
Definition sqlite_max_rowid : Z := 2 ^ 63 - 1.

Definition empty_table : table := mk_table [] 0.

(** [sqlite3.connect(path)] opens the file, creating it when only the
    file is missing; it raises when the directory cannot be opened. *)
Definition connect (d : db) : result unit :=
  if db_dir_ok d then Ok tt
  else Err (OperationalError "unable to open database file").

(** ** [initialize_db] (lines 53-70): [CREATE TABLE IF NOT EXISTS] *)

Definition initialize_db (d : db) : result db :=
  let! _ := connect d in
  Ok (mk_db (db_dir_ok d) (Some (default empty_table (history d)))).

(** ** [INSERT] with [AUTOINCREMENT]: the new rowid is one more than the
    largest rowid the table ever had; once that is the largest possible
    rowid, an insert fails with [SQLITE_FULL]. *)

Definition max_rowid (rs : list row) : Z := foldr (fun r m => Z.max (row_id r) m) 0 rs.

Definition next_rowid (t : table) : Z := Z.max (seq t) (max_rowid (rows t)) + 1.

Definition insert_history (mk : Z -> row) (d : db) : result db :=
  match history d with
  | None => Err (OperationalError "no such table: history")
  | Some t =>
      let id := next_rowid t in
      if Z.ltb sqlite_max_rowid id then Err (OperationalError "database or disk is full")
      else Ok (mk_db (db_dir_ok d) (Some (mk_table (rows t ++ [mk id]) id)))
  end.

(** ** [store_patient_history] (lines 73-81).  The tuple of parameters is
    built after [connect]: [', '.join(precautions)] raises [TypeError] on a
    NaN precaution before the [INSERT] runs; the date is the clock [now]
    formatted by [strftime("%Y-%m-%d %H:%M")]. *)

Definition store_patient_history (now : datetime) (name gender : string)
    (symptoms : list string) (predicted_disease : string) (precautions : list cell)
    (doctor city : string) (d : db) : result db :=
  let! _ := connect d in
  let symptoms_txt := join ", " symptoms in
  let! precautions_txt := py_join ", " precautions in
  let date := strftime_history now in
  insert_history (fun id => mk_row id name gender city symptoms_txt predicted_disease
                                   precautions_txt doctor date) d.

(** ** [get_patient_history] (lines 95-99) *)

(** [r1] may come before [r2] in a [date DESC] order. *)
Definition date_desc (r1 r2 : row) : Prop := string_le (date r2) (date r1).

#[export] Instance date_desc_dec : RelDecision date_desc.
Proof. intros r1 r2. unfold date_desc. apply _. Defined.

(** What SQL promises of [ORDER BY date DESC]. *)
Definition order_by_date_desc (rs out : list row) : Prop :=
  out ≡ₚ rs /\ Sorted date_desc out.

Definition select_order_by_date_desc (rs : list row) : list row := merge_sort date_desc rs.

Definition get_patient_history (d : db) : result (list row) :=
  let! _ := connect d in
  match history d with
  | None => Err (DatabaseError "no such table: history")
  | Some t => Ok (select_order_by_date_desc (rows t))
  end.

(** ** The invariant of the table *)

(** Rowids increase along the table, lie in [1, seq], and [seq] is a
    rowid SQLite can store. *)
Definition table_wf (t : table) : Prop :=
  StronglySorted (fun r1 r2 => row_id r1 < row_id r2) (rows t) /\
  Forall (fun r => 1 <= row_id r <= seq t) (rows t) /\
  0 <= seq t <= sqlite_max_rowid.

Definition db_wf (d : db) : Prop :=
  match history d with None => True | Some t => table_wf t end.

Lemma sqlite_max_rowid_eq : sqlite_max_rowid = 9223372036854775807.
Proof. reflexivity. Qed.

Lemma empty_table_wf : table_wf empty_table.
Proof. repeat split; simpl; try constructor; rewrite ?sqlite_max_rowid_eq; lia. Qed.

Lemma max_rowid_le rs s :
  0 <= s -> Forall (fun r => 1 <= row_id r <= s) rs -> max_rowid rs <= s.
Proof. intros Hs Hall. induction Hall; simpl; lia. Qed.

Lemma next_rowid_wf t : table_wf t -> next_rowid t = seq t + 1.
Proof.
  intros (_ & Hall & Hseq). unfold next_rowid.
  pose proof (max_rowid_le _ _ (proj1 Hseq) Hall). lia.
Qed.

Lemma insert_history_ok mk d t :
  history d = Some t -> table_wf t -> seq t < sqlite_max_rowid ->
  insert_history mk d =
  Ok (mk_db (db_dir_ok d) (Some (mk_table (rows t ++ [mk (seq t + 1)]) (seq t + 1)))).
Proof.
  intros Hh Hwf Hlt. unfold insert_history. rewrite Hh, next_rowid_wf by done.
  destruct (Z.ltb_spec sqlite_max_rowid (seq t + 1)); [lia | done].
Qed.

Lemma insert_history_full mk d t :
  history d = Some t -> table_wf t -> seq t = sqlite_max_rowid ->
  insert_history mk d = Err (OperationalError "database or disk is full").
Proof.
  intros Hh Hwf Heq. unfold insert_history. rewrite Hh, next_rowid_wf by done.
  destruct (Z.ltb_spec sqlite_max_rowid (seq t + 1)); [done | lia].
Qed.

Lemma insert_history_Ok_inv mk d d' :
  insert_history mk d = Ok d' ->
  exists t, history d = Some t /\ next_rowid t <= sqlite_max_rowid /\
    d' = mk_db (db_dir_ok d) (Some (mk_table (rows t ++ [mk (next_rowid t)]) (next_rowid t))).
Proof.
  unfold insert_history. destruct (history d) as [t|]; [|discriminate].
  destruct (Z.ltb_spec sqlite_max_rowid (next_rowid t)); [discriminate|].
  intros [= <-]. eauto.
Qed.

Lemma table_wf_snoc t r :
  table_wf t -> row_id r = seq t + 1 -> seq t + 1 <= sqlite_max_rowid ->
  table_wf (mk_table (rows t ++ [r]) (seq t + 1)).
Proof.
  intros (Hsort & Hall & Hseq) Hid Hmax. repeat split; simpl.
  - apply StronglySorted_app_2; [| done | repeat constructor].
    intros x y Hx Hy. apply list_elem_of_singleton in Hy as ->.
    rewrite Forall_forall in Hall. specialize (Hall x Hx). lia.
  - apply Forall_app; split; [|constructor; [lia | done]].
    eapply Forall_impl; [exact Hall|]. intros x Hx; simpl in *; lia.
  - lia.
  - lia.
Qed.

Lemma insert_history_wf mk d d' :
  db_wf d -> (forall id, row_id (mk id) = id) -> insert_history mk d = Ok d' -> db_wf d'.
Proof.
  intros Hwf Hmk H. apply insert_history_Ok_inv in H as (t & Hh & Hle & ->).
  unfold db_wf in *. rewrite Hh in Hwf. simpl.
  rewrite next_rowid_wf in * by done. apply table_wf_snoc; auto.
Qed.

(** ** Properties of [initialize_db] and [store_patient_history] *)

Lemma connect_ok d : db_dir_ok d = true -> connect d = Ok tt.
Proof. unfold connect. by intros ->. Qed.

(** [initialize_db] keeps a well-formed table as it is and is
    idempotent: importing the backend twice changes nothing more. *)
Theorem initialize_db_idem d d' :
  db_wf d -> initialize_db d = Ok d' ->
  db_wf d' /\ initialize_db d' = Ok d' /\
  (forall t, history d = Some t -> history d' = Some t).
Proof.
  unfold initialize_db, connect. intros Hwf H.
  destruct (db_dir_ok d) eqn:Hok; [|discriminate]. injection H as <-.
  unfold db_wf in *; simpl. split_and!.
  - destruct (history d); simpl; [done|]. exact empty_table_wf.
  - done.
  - intros t ->. done.
Qed.

Lemma initialize_db_idem_witness :
  let d := mk_db true None in
  db_wf d /\ initialize_db d = Ok (mk_db true (Some empty_table)) /\
  (db_wf (mk_db true (Some empty_table)) /\
   initialize_db (mk_db true (Some empty_table)) = Ok (mk_db true (Some empty_table)) /\
   (forall t, history d = Some t -> history (mk_db true (Some empty_table)) = Some t)).
Proof.
  simpl. assert (Hi : initialize_db (mk_db true None) = Ok (mk_db true (Some empty_table)))
    by reflexivity.
  split; [exact I|]. split; [exact Hi|].
  exact (initialize_db_idem (mk_db true None) _ I Hi).
Defined.

Lemma store_patient_history_Ok_inv now n g s p pr doc c d d' :
  db_wf d -> store_patient_history now n g s p pr doc c d = Ok d' ->
  exists t strs, history d = Some t /\ pr = map CStr strs /\
    history d' = Some (mk_table
      (rows t ++ [mk_row (seq t + 1) n g c (join ", " s) p (join ", " strs) doc
                    (strftime_history now)]) (seq t + 1)).
Proof.
  unfold store_patient_history. intros Hwf H.
  res_inv H. res_inv H. apply py_join_Ok in Ha0 as (strs & -> & ->).
  apply insert_history_Ok_inv in H as (t & Hh & Hle & ->).
  unfold db_wf in Hwf. rewrite Hh in Hwf. rewrite next_rowid_wf by done.
  exists t, strs. done.
Qed.

(** C9: a successful [store_patient_history] appends exactly one row at
    the end of the table, with rowid [seq + 1] and the fields the code
    passes: the symptoms and precautions joined with ", " and the date
    formatted from the clock. *)
Theorem store_appends_row now n g s p pr doc c d d' :
  db_wf d -> store_patient_history now n g s p pr doc c d = Ok d' ->
  exists t strs, history d = Some t /\ pr = map CStr strs /\
    history d' = Some (mk_table
      (rows t ++ [mk_row (seq t + 1) n g c (join ", " s) p (join ", " strs) doc
                    (strftime_history now)]) (seq t + 1)).
Proof. intros; eapply store_patient_history_Ok_inv; eassumption. Qed.

Lemma store_appends_row_witness :
  let now := mk_datetime 2025 7 4 9 5 0 in
  let d := mk_db true (Some empty_table) in
  match store_patient_history now "Ali" "Male" ["itching"; "skin_rash"] "Acne"
          [CStr "bath twice"] "Dr. Sarah Malik - Cosmo Clinic" "Lahore" d with
  | Ok d' =>
      exists t strs, history d = Some t /\ [CStr "bath twice"] = map CStr strs /\
        history d' = Some (mk_table
          (rows t ++ [mk_row (seq t + 1) "Ali" "Male" "Lahore" (join ", " ["itching"; "skin_rash"])
                        "Acne" (join ", " strs) "Dr. Sarah Malik - Cosmo Clinic"
                        (strftime_history now)]) (seq t + 1))
  | Err _ => False
  end.
Proof.
  intros now d.
  destruct (store_patient_history now "Ali" "Male" ["itching"; "skin_rash"] "Acne"
              [CStr "bath twice"] "Dr. Sarah Malik - Cosmo Clinic" "Lahore" d) as [d'|e] eqn:E.
  - exact (store_appends_row _ _ _ _ _ _ _ _ d d' empty_table_wf E).
  - vm_compute in E. discriminate.
Defined.

Lemma store_patient_history_wf now n g s p pr doc c d d' :
  db_wf d -> store_patient_history now n g s p pr doc c d = Ok d' -> db_wf d'.
Proof.
  unfold store_patient_history. intros Hwf H.
  res_inv H. res_inv H. refine (insert_history_wf _ d d' Hwf _ H). reflexivity.
Qed.

(** C10: [store_patient_history] preserves the invariant of the table. *)
Theorem store_preserves_wf now n g s p pr doc c d d' :
  db_wf d -> store_patient_history now n g s p pr doc c d = Ok d' -> db_wf d'.
Proof. intros; eapply store_patient_history_wf; eassumption. Qed.

Lemma store_preserves_wf_witness :
  let d := mk_db true (Some empty_table) in
  match store_patient_history (mk_datetime 2025 7 4 9 5 0) "Ali" "Male" ["itching"] "Acne"
          [CStr "bath twice"] "Dr. Sarah Malik - Cosmo Clinic" "Lahore" d with
  | Ok d' => db_wf d /\ db_wf d'
  | Err _ => False
  end.
Proof.
  intros d.
  destruct (store_patient_history (mk_datetime 2025 7 4 9 5 0) "Ali" "Male" ["itching"] "Acne"
              [CStr "bath twice"] "Dr. Sarah Malik - Cosmo Clinic" "Lahore" d) as [d'|e] eqn:E.
  - split; [exact empty_table_wf | exact (store_preserves_wf _ _ _ _ _ _ _ _ d d' empty_table_wf E)].
  - vm_compute in E. discriminate.
Defined.

Lemma store_patient_history_ok now n g s p pr doc c d t :
  db_dir_ok d = true -> history d = Some t -> table_wf t -> seq t < sqlite_max_rowid ->
  CNaN ∉ pr -> exists d', store_patient_history now n g s p pr doc c d = Ok d'.
Proof.
  intros Hok Hh Hwf Hlt Hnan. unfold store_patient_history. rewrite connect_ok by done.
  pose proof (py_join_no_nan ", " pr Hnan) as Hj.
  destruct (py_join ", " pr) as [ptxt|e]; [|discriminate]. simpl.
  rewrite (insert_history_ok _ d t Hh Hwf Hlt). eauto.
Qed.

(** C14: with the database reachable, the table created and rowids left,
    an insert whose precautions are all strings succeeds. *)
Theorem store_succeeds now n g s p pr doc c d t :
  db_dir_ok d = true -> history d = Some t -> table_wf t -> seq t < sqlite_max_rowid ->
  CNaN ∉ pr -> exists d', store_patient_history now n g s p pr doc c d = Ok d'.
Proof. intros; eapply store_patient_history_ok; eassumption. Qed.

Lemma store_succeeds_witness :
  exists d', store_patient_history (mk_datetime 2025 7 4 9 5 0) "Ali" "Male"
    ["cough"; "high_fever"] "Bronchial Asthma" [CStr "switch to loose cloothing"]
    "Dr. Huma Khan - Lahore General Hospital" "Lahore" (mk_db true (Some empty_table)) = Ok d'.
Proof.
  apply (store_succeeds _ _ _ _ _ _ _ _ _ empty_table); try reflexivity.
  - exact empty_table_wf.
  - intros Hin. apply list_elem_of_singleton in Hin. discriminate.
Defined.

(** C15: a precaution cell that pandas read as NaN makes
    [', '.join(precautions)] raise [TypeError]: the row is not stored. *)
Theorem store_nan_precaution_raises now n g s p pr doc c d :
  db_dir_ok d = true -> CNaN ∈ pr ->
  exists msg, store_patient_history now n g s p pr doc c d = Err (TypeError msg).
Proof.
  intros Hok Hin. destruct (py_join_nan ", " pr Hin) as [msg Hm].
  exists msg. unfold store_patient_history. by rewrite connect_ok, Hm.
Qed.

Lemma store_nan_precaution_raises_witness :
  exists msg, store_patient_history (mk_datetime 2025 7 4 9 5 0) "Ali" "Male" ["itching"]
    "Fungal infection" [CStr "bath twice"; CStr "use detol or neem in bathing water"; CNaN; CNaN]
    "Dr. Huma Khan - Lahore General Hospital" "Lahore" (mk_db true (Some empty_table)) =
    Err (TypeError msg).
Proof.
  apply store_nan_precaution_raises; [reflexivity|].
  apply elem_of_cons. right. apply elem_of_cons. right. apply elem_of_cons. by left.
Defined.

(** C16: once the AUTOINCREMENT counter has reached the largest rowid
    [2^63 - 1], every insert fails with "database or disk is full". *)
Theorem store_rowid_exhausted now n g s p strs doc c d t :
  db_dir_ok d = true -> history d = Some t -> table_wf t -> seq t = sqlite_max_rowid ->
  store_patient_history now n g s p (map CStr strs) doc c d =
  Err (OperationalError "database or disk is full").
Proof.
  intros Hok Hh Hwf Heq. unfold store_patient_history.
  rewrite connect_ok, py_join_strs by done. simpl.
  exact (insert_history_full _ d t Hh Hwf Heq).
Qed.

Lemma store_rowid_exhausted_witness :
  store_patient_history (mk_datetime 2025 7 4 9 5 0) "Ali" "Male" ["itching"] "Acne"
    (map CStr ["bath twice"]) "Dr. Sarah Malik - Cosmo Clinic" "Lahore"
    (mk_db true (Some (mk_table [] sqlite_max_rowid))) =
  Err (OperationalError "database or disk is full").
Proof.
  apply (store_rowid_exhausted _ _ _ _ _ _ _ _ _ (mk_table [] sqlite_max_rowid));
    try reflexivity.
  repeat split; simpl; try constructor; rewrite ?sqlite_max_rowid_eq; lia.
Defined.

(** in a well-formed table the rowids are distinct and within
    SQLite's range [1, 2^63 - 1]. *)
Theorem table_wf_rowids t :
  table_wf t ->
  NoDup (map row_id (rows t)) /\
  Forall (fun r => 1 <= row_id r <= sqlite_max_rowid) (rows t).
Proof.
  intros (Hsort & Hall & Hseq). split.
  - induction Hsort as [|r rs Hs IH Hr]; simpl; constructor.
    + intros Hin. apply list_elem_of_fmap in Hin as (r' & Hid & Hin').
      rewrite Forall_forall in Hr. specialize (Hr r' Hin'). lia.
    + apply IH. by apply Forall_cons in Hall as [_ ?].
  - eapply Forall_impl; [exact Hall|]. simpl. lia.
Qed.

Lemma table_wf_rowids_witness :
  let t := mk_table [mk_row 1 "Ali" "Male" "Lahore" "itching" "Acne" "" "" "2025-07-04 09:05"] 1 in
  table_wf t /\ NoDup (map row_id (rows t)) /\
  Forall (fun r => 1 <= row_id r <= sqlite_max_rowid) (rows t).
Proof.
  simpl. assert (Hwf : table_wf (mk_table
    [mk_row 1 "Ali" "Male" "Lahore" "itching" "Acne" "" "" "2025-07-04 09:05"] 1)).
  { split; [|split].
    - repeat constructor.
    - repeat constructor; simpl; lia.
    - rewrite sqlite_max_rowid_eq. simpl. lia. }
  split; [exact Hwf | exact (table_wf_rowids _ Hwf)].
Defined.

(** ** [ORDER BY date DESC] *)

#[export] Instance date_desc_trans : Transitive date_desc.
Proof. intros a b c H1 H2. unfold date_desc in *. by transitivity (date b). Qed.

#[export] Instance date_desc_total : Total date_desc.
Proof. intros a b. unfold date_desc. destruct (total string_le (date b) (date a)); auto. Qed.

#[local] Instance string_ge_antisym : AntiSymm (=) (flip string_le).
Proof. intros a b H1 H2. by apply string_le_antisym. Qed.

Lemma merge_sort_orders_by_date rs :
  order_by_date_desc rs (select_order_by_date_desc rs).
Proof. split; [apply merge_sort_Permutation | apply Sorted_merge_sort; apply _]. Qed.

(** [ORDER BY date DESC] determines the answer up to the order of
    rows with equal dates: any two answers list the same dates. *)
Theorem order_by_date_desc_dates rs o1 o2 :
  order_by_date_desc rs o1 -> order_by_date_desc rs o2 -> date <$> o1 = date <$> o2.
Proof.
  intros [P1 S1] [P2 S2]. apply (Sorted_unique (flip string_le)).
  - apply (Sorted_fmap _ date_desc); [done | exact S1].
  - apply (Sorted_fmap _ date_desc); [done | exact S2].
  - apply fmap_Permutation. by rewrite P1, P2.
Qed.

Lemma order_by_date_desc_dates_witness :
  let r1 := mk_row 1 "Ali" "Male" "Lahore" "" "Acne" "" "" "2025-07-04 09:05" in
  let r2 := mk_row 2 "Sara" "Female" "Karachi" "" "Flu" "" "" "2025-07-04 09:05" in
  order_by_date_desc [r1; r2] [r1; r2] /\ order_by_date_desc [r1; r2] [r2; r1] /\
  date <$> [r1; r2] = date <$> [r2; r1].
Proof.
  simpl. set (r1 := mk_row 1 "Ali" "Male" "Lahore" "" "Acne" "" "" "2025-07-04 09:05").
  set (r2 := mk_row 2 "Sara" "Female" "Karachi" "" "Flu" "" "" "2025-07-04 09:05").
  assert (H1 : order_by_date_desc [r1; r2] [r1; r2]).
  { split; [done|]. repeat constructor; unfold date_desc, string_le; simpl; discriminate. }
  assert (H2 : order_by_date_desc [r1; r2] [r2; r1]).
  { split; [apply Permutation_swap|].
    repeat constructor; unfold date_desc, string_le; simpl; discriminate. }
  split_and!; [exact H1 | exact H2 | exact (order_by_date_desc_dates _ _ _ H1 H2)].
Defined.

Lemma sorted_head_max h out x :
  Sorted date_desc (h :: out) -> x ∈ h :: out -> string_le (date x) (date h).
Proof.
  intros S Hx. apply Sorted_StronglySorted in S; [|apply _].
  apply StronglySorted_cons in S as [Hall _].
  apply elem_of_cons in Hx as [->|Hx]; [unfold string_le; by rewrite string_compare_refl|].
  rewrite Forall_forall in Hall. exact (Hall x Hx).
Qed.

(** A row dated strictly later than every other row comes first in every
    answer. *)
Lemma order_by_date_desc_newest rs r out :
  Forall (fun r' => String.compare (date r') (date r) = Lt) rs ->
  order_by_date_desc (rs ++ [r]) out -> head out = Some r.
Proof.
  intros Hlt [P S]. destruct out as [|h out'].
  { symmetry in P. apply Permutation_nil_r in P. by destruct rs. }
  assert (Hr : r ∈ h :: out') by (rewrite P; apply elem_of_app; right; by left).
  assert (Hh : h ∈ rs ++ [r]) by (rewrite <- P; by left).
  apply elem_of_app in Hh as [Hh|Hh]; [|by apply list_elem_of_singleton in Hh as ->].
  exfalso. rewrite Forall_forall in Hlt.
  exact (string_lt_not_le _ _ (Hlt h Hh) (sorted_head_max h out' r S Hr)).
Qed.

(** C11: after a row is stored at a later minute than every row of the
    table, every answer of [ORDER BY date DESC] starts with the new row,
    and so does [get_patient_history]. *)
Theorem store_then_newest_first now n g s p pr doc c d d' t :
  db_wf d -> history d = Some t ->
  Forall (fun r => String.compare (date r) (strftime_history now) = Lt) (rows t) ->
  store_patient_history now n g s p pr doc c d = Ok d' ->
  exists t', history d' = Some t' /\
    (forall out, order_by_date_desc (rows t') out ->
       exists r, head out = Some r /\ row_id r = seq t + 1 /\ date r = strftime_history now) /\
    (exists out r, get_patient_history d' = Ok out /\ head out = Some r /\ row_id r = seq t + 1).
Proof.
  intros Hwf Hh Hlt Hs.
  destruct (store_patient_history_Ok_inv _ _ _ _ _ _ _ _ _ _ Hwf Hs) as (t0 & strs & Hh0 & _ & Hh').
  rewrite Hh in Hh0. injection Hh0 as <-.
  set (r := mk_row (seq t + 1) n g c (join ", " s) p (join ", " strs) doc
                   (strftime_history now)) in Hh'.
  eexists; split; [exact Hh'|]. simpl. split.
  - intros out Hout. exists r. split; [|done].
    exact (order_by_date_desc_newest (rows t) r out Hlt Hout).
  - exists (select_order_by_date_desc (rows t ++ [r])), r. split.
    + unfold get_patient_history. rewrite Hh'.
      assert (Hok : db_dir_ok d' = true).
      { unfold store_patient_history, connect in Hs. destruct (db_dir_ok d) eqn:E;
          [|discriminate]. res_inv Hs. res_inv Hs.
        apply insert_history_Ok_inv in Hs as (? & ? & ? & ->). exact E. }
      rewrite connect_ok by exact Hok. reflexivity.
    + split; [|done]. apply (order_by_date_desc_newest (rows t) r _ Hlt).
      apply merge_sort_orders_by_date.
Qed.

Lemma store_then_newest_first_witness :
  let t0 := mk_table [mk_row 1 "Sara" "Female" "Karachi" "high_fever" "Flu" "" ""
                        "2025-07-04 09:00"] 1 in
  let d := mk_db true (Some t0) in
  let now := mk_datetime 2025 7 4 9 5 0 in
  db_wf d /\ Forall (fun r => String.compare (date r) (strftime_history now) = Lt) (rows t0) /\
  match store_patient_history now "Ali" "Male" ["itching"] "Acne" [CStr "bath twice"]
          "Dr. Sarah Malik - Cosmo Clinic" "Lahore" d with
  | Ok d' =>
      exists t', history d' = Some t' /\
        (forall out, order_by_date_desc (rows t') out ->
           exists r, head out = Some r /\ row_id r = seq t0 + 1 /\
                     date r = strftime_history now) /\
        (exists out r, get_patient_history d' = Ok out /\ head out = Some r /\
                       row_id r = seq t0 + 1)
  | Err _ => False
  end.
Proof.
  intros t0 d now.
  assert (Hwf : db_wf d).
  { split; [|split]; [repeat constructor | repeat constructor; simpl; lia |].
    rewrite sqlite_max_rowid_eq. simpl. lia. }
  assert (Hlt : Forall (fun r => String.compare (date r) (strftime_history now) = Lt) (rows t0))
    by (repeat constructor).
  split_and!; [exact Hwf | exact Hlt |].
  destruct (store_patient_history now "Ali" "Male" ["itching"] "Acne" [CStr "bath twice"]
              "Dr. Sarah Malik - Cosmo Clinic" "Lahore" d) as [d'|e] eqn:E.
  - exact (store_then_newest_first now _ _ _ _ _ _ _ d d' t0 Hwf eq_refl Hlt E).
  - vm_compute in E. discriminate.
Defined.

(** C13: when every stored row is dated strictly later than the rows
    before it, [ORDER BY date DESC] returns the rows in reverse insertion
    order, whatever the tie-breaking. *)
Theorem order_by_date_desc_reverse rs out :
  StronglySorted (fun a b => String.compare (date a) (date b) = Lt) rs ->
  order_by_date_desc rs out -> out = reverse rs.
Proof.
  intros Hinc [P S]. apply (Sorted_unique_strong date_desc).
  - intros x1 x2 Hx1 Hx2 H12 H21.
    rewrite P in Hx1. rewrite elem_of_reverse in Hx2.
    assert (Hd : date x1 = date x2) by (apply string_le_antisym; done).
    clear P S H12 H21. induction Hinc as [|a rs Hs IH Ha]; [by apply elem_of_nil in Hx1|].
    rewrite Forall_forall in Ha.
    apply elem_of_cons in Hx1 as [->|Hx1], Hx2 as [->|Hx2]; auto.
    + specialize (Ha x2 Hx2). rewrite Hd, string_compare_refl in Ha. discriminate.
    + specialize (Ha x1 Hx1). rewrite <- Hd, string_compare_refl in Ha. discriminate.
  - exact S.
  - apply Sorted_reverse. apply StronglySorted_Sorted.
    refine (StronglySorted_weaken _ _ _ _ Hinc).
    intros a b Hab. unfold flip, date_desc, string_le. rewrite Hab. discriminate.
  - by rewrite P, reverse_Permutation.
Qed.

Lemma order_by_date_desc_reverse_witness :
  let r1 := mk_row 1 "Ali" "Male" "Lahore" "" "Acne" "" "" "2025-07-04 09:05" in
  let r2 := mk_row 2 "Sara" "Female" "Karachi" "" "Flu" "" "" "2025-07-04 09:06" in
  StronglySorted (fun a b => String.compare (date a) (date b) = Lt) [r1; r2] /\
  order_by_date_desc [r1; r2] [r2; r1] /\ [r2; r1] = reverse [r1; r2].
Proof.
  intros r1 r2.
  assert (H1 : StronglySorted (fun a b => String.compare (date a) (date b) = Lt) [r1; r2])
    by (repeat constructor).
  assert (H2 : order_by_date_desc [r1; r2] [r2; r1]).
  { split; [apply Permutation_swap|].
    repeat constructor; unfold date_desc, string_le; simpl; discriminate. }
  split_and!; [exact H1 | exact H2 | exact (order_by_date_desc_reverse _ _ H1 H2)].
Defined.

(** [strftime("%Y-%m-%d %H:%M")] ignores the seconds. *)
Lemma strftime_history_same_minute a b :
  (year a, month a, day a, hour a, minute a) = (year b, month b, day b, hour b, minute b) ->
  strftime_history a = strftime_history b.
Proof. intros [= E1 E2 E3 E4 E5]. unfold strftime_history. by rewrite E1, E2, E3, E4, E5. Qed.

Lemma order_by_date_desc_perm rs rs' out :
  rs ≡ₚ rs' -> order_by_date_desc rs out -> order_by_date_desc rs' out.
Proof. intros P [P' S]. split; [by rewrite P', P | exact S]. Qed.

(** Two rows with the same date, no earlier than any other row, may come
    first in either order. *)
Lemma order_by_date_desc_tie rs r1 r2 :
  date r1 = date r2 -> Forall (fun r => string_le (date r) (date r1)) rs ->
  order_by_date_desc (rs ++ [r1; r2]) (r1 :: r2 :: select_order_by_date_desc rs).
Proof.
  intros Hd Hle. unfold select_order_by_date_desc. split.
  - rewrite merge_sort_Permutation. by rewrite (Permutation_app_comm rs).
  - assert (Hs : Sorted date_desc (merge_sort date_desc rs)) by (apply Sorted_merge_sort; apply _).
    assert (Hhd : HdRel date_desc r2 (merge_sort date_desc rs)).
    { destruct (merge_sort date_desc rs) as [|h ms] eqn:E; constructor.
      assert (Hh : h ∈ rs) by (rewrite <- (merge_sort_Permutation date_desc rs), E; by left).
      rewrite Forall_forall in Hle. unfold date_desc. rewrite <- Hd. exact (Hle h Hh). }
    repeat constructor; [exact Hs | exact Hhd |].
    unfold date_desc, string_le. rewrite Hd, string_compare_refl. discriminate.
Qed.

(** C12: the timestamp has minute resolution, so two rows stored in the
    same minute, after every row of the table, tie under
    [ORDER BY date DESC]: SQL allows an answer that lists the older row
    first, as well as one that lists the newer row first.  The newest
    record is not guaranteed to be the first entry of the history. *)
Theorem same_minute_order_open now1 now2 n1 g1 s1 p1 pr1 doc1 c1 n2 g2 s2 p2 pr2 doc2 c2
    d d1 d2 t :
  db_wf d -> history d = Some t ->
  Forall (fun r => string_le (date r) (strftime_history now1)) (rows t) ->
  (year now1, month now1, day now1, hour now1, minute now1) =
    (year now2, month now2, day now2, hour now2, minute now2) ->
  store_patient_history now1 n1 g1 s1 p1 pr1 doc1 c1 d = Ok d1 ->
  store_patient_history now2 n2 g2 s2 p2 pr2 doc2 c2 d1 = Ok d2 ->
  exists t2 r1 r2, history d2 = Some t2 /\ rows t2 = rows t ++ [r1; r2] /\
    row_id r1 < row_id r2 /\
    (exists out, order_by_date_desc (rows t2) out /\ head out = Some r1) /\
    (exists out, order_by_date_desc (rows t2) out /\ head out = Some r2).
Proof.
  intros Hwf Hh Hle Hmin H1 H2.
  destruct (store_patient_history_Ok_inv _ _ _ _ _ _ _ _ _ _ Hwf H1) as (t0 & ? & Ht0 & _ & Ht1).
  rewrite Hh in Ht0. injection Ht0 as <-.
  pose proof (store_patient_history_wf _ _ _ _ _ _ _ _ _ _ Hwf H1) as Hwf1.
  destruct (store_patient_history_Ok_inv _ _ _ _ _ _ _ _ _ _ Hwf1 H2) as (t1 & ? & Ht1' & _ & Ht2).
  rewrite Ht1 in Ht1'. injection Ht1' as <-.
  eexists _, _, _. split; [exact Ht2|]. cbn [rows seq]. rewrite <- app_assoc.
  split_and!; [done | cbn; lia | |].
  - eexists. split; [apply order_by_date_desc_tie; [|exact Hle] | reflexivity].
    exact (strftime_history_same_minute _ _ Hmin).
  - lazymatch goal with
    | |- exists out, order_by_date_desc (_ ++ [?a] ++ [?b]) out /\ _ =>
        exists (b :: a :: select_order_by_date_desc (rows t))
    end.
    split; [|reflexivity]. eapply order_by_date_desc_perm.
    { apply Permutation_app_head, Permutation_swap. }
    apply order_by_date_desc_tie; cbn [date].
    + exact (eq_sym (strftime_history_same_minute _ _ Hmin)).
    + by rewrite <- (strftime_history_same_minute _ _ Hmin).
Qed.

Lemma same_minute_order_open_witness :
  let d := mk_db true (Some empty_table) in
  let st now := store_patient_history now "Ali" "Male" ["itching"] "Acne"
                  [CStr "bath twice"] "Dr. Sarah Malik - Cosmo Clinic" "Lahore" in
  let now1 := mk_datetime 2025 7 4 9 5 10 in
  let now2 := mk_datetime 2025 7 4 9 5 50 in
  match st now1 d with
  | Ok d1 =>
      match st now2 d1 with
      | Ok d2 =>
          exists t2 r1 r2, history d2 = Some t2 /\ rows t2 = rows empty_table ++ [r1; r2] /\
            row_id r1 < row_id r2 /\
            (exists out, order_by_date_desc (rows t2) out /\ head out = Some r1) /\
            (exists out, order_by_date_desc (rows t2) out /\ head out = Some r2)
      | Err _ => False
      end
  | Err _ => False
  end.
Proof.
  intros d st now1 now2. destruct (st now1 d) as [d1|e] eqn:E1; [|vm_compute in E1; discriminate].
  destruct (st now2 d1) as [d2|e] eqn:E2.
  - exact (same_minute_order_open now1 now2 _ _ _ _ _ _ _ _ _ _ _ _ _ _ d d1 d2 empty_table
             empty_table_wf eq_refl (List.Forall_nil _) eq_refl E1 E2).
  - vm_compute in E1. injection E1 as <-. vm_compute in E2. discriminate.
Defined.

(** ** How the file evolves: the invariant holds and no row is removed *)

(** [d] is a later state of the file [d0]: well formed, and the table of
    [d0], when it existed, is a prefix of the table of [d]. *)
Definition db_evolves (d0 d : db) : Prop :=
  db_wf d /\
  forall t0, history d0 = Some t0 -> exists t, history d = Some t /\ rows t0 `prefix_of` rows t.

Lemma db_evolves_refl d : db_wf d -> db_evolves d d.
Proof. intros Hwf. split; [done|]. intros t0 ->. by exists t0. Qed.

Lemma db_evolves_trans d0 d1 d2 : db_evolves d0 d1 -> db_evolves d1 d2 -> db_evolves d0 d2.
Proof.
  intros [_ H01] [Hwf2 H12]. split; [done|]. intros t0 H0.
  destruct (H01 t0 H0) as (t1 & H1 & P01). destruct (H12 t1 H1) as (t2 & H2 & P12).
  exists t2. split; [done|]. by trans (rows t1).
Qed.

Lemma initialize_db_evolves d d' : db_wf d -> initialize_db d = Ok d' -> db_evolves d d'.
Proof.
  intros Hwf H. destruct (initialize_db_idem d d' Hwf H) as (Hwf' & _ & Hkeep).
  split; [done|]. intros t0 H0. exists t0. by split; [apply Hkeep|].
Qed.

Lemma store_patient_history_evolves now n g s p pr doc c d d' :
  db_wf d -> store_patient_history now n g s p pr doc c d = Ok d' -> db_evolves d d'.
Proof.
  intros Hwf H. split; [exact (store_patient_history_wf _ _ _ _ _ _ _ _ _ _ Hwf H)|].
  destruct (store_patient_history_Ok_inv _ _ _ _ _ _ _ _ _ _ Hwf H) as (t & strs & Ht & _ & Ht').
  intros t0 H0. rewrite Ht in H0. injection H0 as <-. eexists. split; [exact Ht'|].
  cbn. by apply prefix_app_r.
Qed.

(** ** Reading the joined columns back *)

(** C17: a row read back with [str.split(", ")] gives the symptom list
    that was stored, and the precautions when they are a non-empty list
    of strings, provided no item contains ", ". *)
Theorem stored_lists_roundtrip now n g s p pr doc c d d' :
  db_wf d -> store_patient_history now n g s p pr doc c d = Ok d' ->
  s <> [] -> Forall (fun x => has_sep x = false) s ->
  exists t r strs, history d' = Some t /\ last (rows t) = Some r /\ pr = map CStr strs /\
    split_sep (symptoms r) = s /\
    (strs <> [] -> Forall (fun x => has_sep x = false) strs -> split_sep (precautions r) = strs).
Proof.
  intros Hwf Hs Hne Hall.
  destruct (store_patient_history_Ok_inv _ _ _ _ _ _ _ _ _ _ Hwf Hs) as (t & strs & _ & -> & Ht).
  eexists _, _, strs. split_and!;
    [exact Ht | cbn [rows]; by rewrite last_snoc | done | by apply split_sep_join |].
  intros; by apply split_sep_join.
Qed.

Lemma stored_lists_roundtrip_witness :
  let d := mk_db true (Some empty_table) in
  let st := store_patient_history (mk_datetime 2025 7 4 9 5 0) "Ali" "Male" ["cough"; "high_fever"]
              "Common Cold" [CStr "drink vitamin c rich drinks"; CStr "take vapour"]
              "Dr. Huma Khan - Lahore General Hospital" "Lahore" d in
  match st with
  | Ok d' =>
      exists t r strs, history d' = Some t /\ last (rows t) = Some r /\
        [CStr "drink vitamin c rich drinks"; CStr "take vapour"] = map CStr strs /\
        split_sep (symptoms r) = ["cough"; "high_fever"] /\
        (strs <> [] -> Forall (fun x => has_sep x = false) strs -> split_sep (precautions r) = strs)
  | Err _ => False
  end.
Proof.
  intros d st. unfold st.
  destruct (store_patient_history (mk_datetime 2025 7 4 9 5 0) "Ali" "Male" ["cough"; "high_fever"]
              "Common Cold" [CStr "drink vitamin c rich drinks"; CStr "take vapour"]
              "Dr. Huma Khan - Lahore General Hospital" "Lahore" d) as [d'|e] eqn:E.
  - refine (stored_lists_roundtrip _ _ _ _ _ _ _ _ d d' empty_table_wf E _ _);
      [discriminate | decide_by_eval].
  - vm_compute in E. discriminate.
Defined.

(** C18: the stored text does not determine the lists: whatever the
    patient, no precautions (a disease missing from the precaution table)
    and one empty precaution are stored alike, as "", and a precaution
    containing ", " is stored exactly like the two precautions around it;
    a reader of the row cannot tell these cases apart. *)
Theorem stored_lists_ambiguous now n g s p doc c d a b :
  store_patient_history now n g s p [] doc c d =
    store_patient_history now n g s p [CStr ""] doc c d /\
  store_patient_history now n g s p [CStr (a ++ ", " ++ b)] doc c d =
    store_patient_history now n g s p [CStr a; CStr b] doc c d.
Proof. split; reflexivity. Qed.
