(* ===== verification/Base64.v ===== *)
(** * Base64, as [base64.b64encode] applies it to the report
    ([src/main.py] line 130)

    The PDF bytes read back from the temporary file are encoded with the
    standard alphabet of RFC 4648 and [=] padding, and the text is put in
    a [data:] URI.  [b64encode] follows the RFC group by group (three
    bytes to four characters); [b64decode] is the inverse a browser
    applies to the link.  The round trip theorem says the downloaded file
    has exactly the bytes [pdf.output] wrote. *)

From S2P Require Import Prelude.
From Stdlib Require Import Ascii String.
From Stdlib Require Import Strings.Byte.
Local Open Scope N_scope.

Definition b64_char (i : N) : ascii :=
  if i <? 26 then ascii_of_N (65 + i)
  else if i <? 52 then ascii_of_N (97 + (i - 26))
  else if i <? 62 then ascii_of_N (48 + (i - 52))
  else if i =? 62 then "+"%char else "/"%char.

Definition b64_index (c : ascii) : option N :=
  let k := N_of_ascii c in
  if (65 <=? k) && (k <=? 90) then Some (k - 65)
  else if (97 <=? k) && (k <=? 122) then Some (k - 97 + 26)
  else if (48 <=? k) && (k <=? 57) then Some (k - 48 + 52)
  else if k =? 43 then Some 62
  else if k =? 47 then Some 63
  else None.

Definition pad : ascii := "="%char.

Fixpoint b64encode (bs : list byte) : string :=
  match bs with
  | [] => EmptyString
  | [b1] =>
      let x := Byte.to_N b1 in
      String (b64_char (x / 4)) (String (b64_char ((x mod 4) * 16))
        (String pad (String pad EmptyString)))
  | [b1; b2] =>
      let x := Byte.to_N b1 in let y := Byte.to_N b2 in
      String (b64_char (x / 4)) (String (b64_char ((x mod 4) * 16 + y / 16))
        (String (b64_char ((y mod 16) * 4)) (String pad EmptyString)))
  | b1 :: b2 :: b3 :: rest =>
      let x := Byte.to_N b1 in let y := Byte.to_N b2 in let z := Byte.to_N b3 in
      String (b64_char (x / 4)) (String (b64_char ((x mod 4) * 16 + y / 16))
        (String (b64_char ((y mod 16) * 4 + z / 64)) (String (b64_char (z mod 64))
          (b64encode rest))))
  end.

Definition byte_of (n : N) : option byte := Byte.of_N n.

Fixpoint b64decode (s : string) : option (list byte) :=
  match s with
  | EmptyString => Some []
  | String c1 (String c2 (String c3 (String c4 rest))) =>
      match b64_index c1, b64_index c2 with
      | Some i1, Some i2 =>
          let b1 := i1 * 4 + i2 / 16 in
          if Ascii.eqb c3 pad then
            if Ascii.eqb c4 pad then
              match rest, byte_of b1 with
              | EmptyString, Some x => Some [x]
              | _, _ => None
              end
            else None
          else
            match b64_index c3 with
            | None => None
            | Some i3 =>
                let b2 := (i2 mod 16) * 16 + i3 / 4 in
                if Ascii.eqb c4 pad then
                  match rest, byte_of b1, byte_of b2 with
                  | EmptyString, Some x, Some y => Some [x; y]
                  | _, _, _ => None
                  end
                else
                  match b64_index c4 with
                  | None => None
                  | Some i4 =>
                      let b3 := (i3 mod 4) * 64 + i4 in
                      match byte_of b1, byte_of b2, byte_of b3, b64decode rest with
                      | Some x, Some y, Some z, Some tl => Some (x :: y :: z :: tl)
                      | _, _, _, _ => None
                      end
                  end
            end
      | _, _ => None
      end
  | _ => None
  end.

(** ** The alphabet, checked on its 64 positions *)

Lemma below_64_enum (i : N) :
  i < 64 -> i ∈ N.of_nat <$> seq 0 64.
Proof.
  intros Hi. apply list_elem_of_fmap. exists (N.to_nat i). split; [lia|].
  apply list_elem_of_In, in_seq. lia.
Qed.

Lemma b64_alphabet_ok :
  Forall (fun i => b64_index (b64_char i) = Some i /\ Ascii.eqb (b64_char i) pad = false)
    (N.of_nat <$> seq 0 64).
Proof. decide_by_eval. Qed.

Lemma b64_char_spec i :
  i < 64 -> b64_index (b64_char i) = Some i /\ Ascii.eqb (b64_char i) pad = false.
Proof.
  intros Hi. pose proof b64_alphabet_ok as H. rewrite Forall_forall in H.
  exact (H i (below_64_enum i Hi)).
Qed.

(** ** The arithmetic of one group *)

(** Name the quotients and remainders of the three bytes by 4, 16 and 64,
    so that [lia] sees a linear problem. *)
Ltac name_digits x y z :=
  pose proof (N.div_mod x 4 ltac:(lia)); pose proof (N.mod_lt x 4 ltac:(lia));
  pose proof (N.div_mod y 16 ltac:(lia)); pose proof (N.mod_lt y 16 ltac:(lia));
  pose proof (N.div_mod z 64 ltac:(lia)); pose proof (N.mod_lt z 64 ltac:(lia));
  set (a := x / 4) in *; set (r := x mod 4) in *; set (b := y / 16) in *;
  set (s := y mod 16) in *; set (c := z / 64) in *; set (t := z mod 64) in *;
  clearbody a r b s c t.

Lemma group_digits_lt (x y z : N) :
  x < 256 -> y < 256 -> z < 256 ->
  x / 4 < 64 /\ (x mod 4) * 16 + y / 16 < 64 /\ (y mod 16) * 4 + z / 64 < 64 /\
  z mod 64 < 64 /\ (x mod 4) * 16 < 64 /\ (y mod 16) * 4 < 64.
Proof. intros Hx Hy Hz. name_digits x y z. repeat split; lia. Qed.

Lemma divmod_eq k q r : 0 < k -> r < k -> (q * k + r) / k = q /\ (q * k + r) mod k = r.
Proof.
  intros Hk Hr. split.
  - rewrite N.div_add_l by lia. rewrite N.div_small by lia. lia.
  - rewrite N.add_comm, N.Div0.mod_add. by apply N.mod_small.
Qed.

Lemma group_inverse (x y z : N) :
  x < 256 -> y < 256 -> z < 256 ->
  (x / 4) * 4 + ((x mod 4) * 16 + y / 16) / 16 = x /\
  (((x mod 4) * 16 + y / 16) mod 16) * 16 + ((y mod 16) * 4 + z / 64) / 4 = y /\
  (((y mod 16) * 4 + z / 64) mod 4) * 64 + z mod 64 = z.
Proof.
  intros Hx Hy Hz. name_digits x y z.
  assert (b < 16) by lia. assert (c < 4) by lia.
  destruct (divmod_eq 16 r b) as [E1 E2]; [lia | lia |].
  destruct (divmod_eq 4 s c) as [E3 E4]; [lia | lia |].
  rewrite E1, E2, E3, E4. lia.
Qed.

(** ** The round trip *)

Lemma byte_lt_256 b : Byte.to_N b < 256.
Proof. pose proof (Byte.to_N_bounded b). lia. Qed.

Lemma byte_of_to_N b : byte_of (Byte.to_N b) = Some b.
Proof. apply Byte.of_to_N. Qed.

Ltac b64_alphabet :=
  repeat match goal with
  | |- context [b64_index (b64_char ?i)] =>
      rewrite (proj1 (b64_char_spec i ltac:(assumption)))
  | |- context [Ascii.eqb (b64_char ?i) pad] =>
      rewrite (proj2 (b64_char_spec i ltac:(assumption)))
  end.

Lemma b64decode_b64encode bs : b64decode (b64encode bs) = Some bs.
Proof.
  assert (Hn : forall n bs, (List.length bs <= n)%nat -> b64decode (b64encode bs) = Some bs).
  2: exact (Hn _ bs (le_n _)).
  induction n as [|n IH]; intros [|b1 [|b2 [|b3 rest]]] Hlen; simpl in Hlen;
    try reflexivity; try lia.
  - pose proof (byte_lt_256 b1) as Hx. set (x := Byte.to_N b1) in *.
    destruct (group_digits_lt x 0 0 Hx ltac:(lia) ltac:(lia)) as (H1 & _ & _ & _ & H5 & _).
    cbn [b64encode b64decode]. fold x. b64_alphabet. cbn.
    replace (x / 4 * 4 + x mod 4 * 16 / 16) with x
      by (destruct (group_inverse x 0 0 Hx ltac:(lia) ltac:(lia)) as [E _];
          rewrite N.Div0.div_0_l, N.add_0_r in E; symmetry; exact E).
    unfold x. by rewrite byte_of_to_N.
  - pose proof (byte_lt_256 b1) as Hx. pose proof (byte_lt_256 b2) as Hy.
    set (x := Byte.to_N b1) in *. set (y := Byte.to_N b2) in *.
    destruct (group_digits_lt x y 0 Hx Hy ltac:(lia)) as (H1 & H2 & _ & _ & _ & H6).
    cbn [b64encode b64decode]. fold x y. b64_alphabet. cbn.
    destruct (group_inverse x y 0 Hx Hy ltac:(lia)) as (E1 & E2 & _).
    rewrite N.Div0.div_0_l, N.add_0_r in E2. rewrite E1, E2.
    unfold x, y. by rewrite !byte_of_to_N.
  - pose proof (byte_lt_256 b1) as Hx. pose proof (byte_lt_256 b2) as Hy.
    pose proof (byte_lt_256 b3) as Hz.
    set (x := Byte.to_N b1) in *. set (y := Byte.to_N b2) in *. set (z := Byte.to_N b3) in *.
    destruct (group_digits_lt x y z Hx Hy Hz) as (H1 & H2 & H3 & H4 & _ & _).
    cbn [b64encode b64decode]. fold x y z. b64_alphabet. cbn.
    destruct (group_inverse x y z Hx Hy Hz) as (E1 & E2 & E3).
    rewrite E1, E2, E3. unfold x, y, z. rewrite !byte_of_to_N, IH by lia. reflexivity.
Qed.

(** C33: decoding the text [b64encode] produces gives back the bytes: the
    report a user downloads from the link is exactly the file
    [pdf.output] wrote. *)
Theorem b64_roundtrip bs : b64decode (b64encode bs) = Some bs.
Proof. intros; eapply b64decode_b64encode; eassumption. Qed.
