(* ===== verification/Report.v ===== *)
(** * Report generator: [generate_pdf] ([src/main.py] lines 76-137)

    [generate_pdf] builds an FPDF document by a fixed sequence of calls,
    writes it to a [NamedTemporaryFile(delete=False)], reads the file back
    and returns an HTML link carrying the bytes in base64.  The document is
    modelled as the list of FPDF calls ([pdf_cmd]) in the order the code
    makes them; what [pdf.output] turns them into is the library's
    business and is a parameter ([render]).  The file system is the list
    of temporary files; a report adds one and nothing removes it.
    Numbers are printed as Python prints them: [str(age)] and
    [f"{confidence:.2f}"] (round half to even at two decimals, on the
    exact value). *)

From S2P Require Import Prelude Decimal PyStr Datetime Base64.
From Stdlib Require Import QArith Qround Lqa String Ascii.
From Stdlib Require Import Strings.Byte.
Local Open Scope string_scope.

(** ** [f"{x:.2f}"] *)

Definition round_half_even (r : Q) : Z :=
  let f := Qfloor r in
  let frac := r - inject_Z f in
  if Qlt_le_dec frac (1 # 2) then f
  else if Qeq_bool frac (1 # 2) then (if Z.even f then f else f + 1)
  else f + 1.

Definition format_2f_nonneg (q : Q) : string :=
  let n := round_half_even (q * 100) in
  str_N (Z.to_N (n / 100)) ++ "." ++ dec_pad 2 (Z.to_N (n mod 100)).

Definition format_2f (q : Q) : string :=
  if Qlt_le_dec q 0 then "-" ++ format_2f_nonneg (- q) else format_2f_nonneg q.

Lemma round_half_even_close r :
  - (1 # 2) <= inject_Z (round_half_even r) - r <= 1 # 2.
Proof.
  unfold round_half_even. pose proof (Qfloor_le r) as H1. pose proof (Qlt_floor r) as H2.
  rewrite inject_Z_plus in H2. change (inject_Z 1) with 1 in H2.
  destruct (Qlt_le_dec (r - inject_Z (Qfloor r)) (1 # 2)); [split; lra|].
  destruct (Qeq_bool _ _) eqn:E.
  - apply Qeq_bool_eq in E. destruct (Z.even (Qfloor r));
      rewrite ?inject_Z_plus; change (inject_Z 1) with 1; split; lra.
  - rewrite inject_Z_plus. change (inject_Z 1) with 1. split; lra.
Qed.

Lemma round_half_even_nonneg r : 0 <= r -> (0 <= round_half_even r)%Z.
Proof.
  intros Hr. pose proof (round_half_even_close r) as [H1 _].
  destruct (Z.le_gt_cases 0 (round_half_even r)) as [|Hlt]; [done|].
  exfalso. assert (inject_Z (round_half_even r) <= -1).
  { change (-1) with (inject_Z (-1)). rewrite <- Zle_Qle. lia. }
  lra.
Qed.

(** for a non-negative value, [f"{x:.2f}"] prints an integer [n >= 0]
    as [n // 100], a dot and the two digits of [n % 100], and [n / 100] is
    within [0.005] of [x]. *)
Theorem format_2f_close q :
  0 <= q ->
  exists n : Z, (0 <= n)%Z /\
    format_2f q = str_N (Z.to_N (n / 100)) ++ "." ++ dec_pad 2 (Z.to_N (n mod 100)) /\
    - (1 # 200) <= inject_Z n * (1 # 100) - q <= 1 # 200.
Proof.
  intros Hq. exists (round_half_even (q * 100)). split.
  { apply round_half_even_nonneg. lra. }
  split.
  - unfold format_2f. destruct (Qlt_le_dec q 0); [lra | reflexivity].
  - pose proof (round_half_even_close (q * 100)) as [H1 H2]. split; lra.
Qed.

Lemma format_2f_close_witness :
  0 <= 9967 # 100 /\
  exists n : Z, (0 <= n)%Z /\
    format_2f (9967 # 100) = str_N (Z.to_N (n / 100)) ++ "." ++ dec_pad 2 (Z.to_N (n mod 100)) /\
    - (1 # 200) <= inject_Z n * (1 # 100) - (9967 # 100) <= 1 # 200.
Proof.
  assert (H : 0 <= 9967 # 100) by (vm_compute; discriminate).
  split; [exact H | exact (format_2f_close _ H)].
Defined.

Example format_2f_examples :
  format_2f (9967 # 100) = "99.67" /\ format_2f (1 # 8) = "0.12" /\
  format_2f (3 # 8) = "0.38" /\ format_2f 100 = "100.00" /\ format_2f (- (1 # 1000)) = "-0.00".
Proof. vm_compute. repeat split. Qed.

(** ** The FPDF calls (lines 77-125) *)

Inductive pdf_cmd :=
| AddPage
| Image (path : string) (x y w : Z)
| Ln (h : Z)
| SetFont (family style : string) (size : Z)
| SetTextColor (r g b : Z)
| Cell (w h : Z) (txt : string) (ln : bool) (align : string)
| MultiCell (w h : Z) (txt : string).

Definition logo_path : string := "app/logo.png".

(** [f"- {p}"] of a pandas cell: a float NaN prints as "nan". *)
Definition cell_text (c : cell) : string :=
  match c with CStr s => s | CNaN => "nan" end.

Definition report_doc (logo_exists : bool) (today : datetime) (name : string) (age : N)
    (gender city disease : string) (confidence : Q) (symptoms : list string)
    (precautions : list cell) (doctor : string) : list pdf_cmd :=
  [AddPage] ++
  (if logo_exists then [Image logo_path 80 10 50] else []) ++
  [Ln 50;
   SetFont "Arial" "B" 16; SetTextColor 0 51 102;
   Cell 0 10 "MediVision AI - Health Report" true "C";
   SetFont "Arial" "" 11; SetTextColor 100 100 100;
   Cell 0 10 ("Date: " ++ strftime_report today) true "C";
   Ln 10;
   SetFont "Arial" "B" 12; SetTextColor 0 0 0;
   Cell 0 10 ("Patient Name: " ++ name) true "";
   Cell 0 10 ("Age: " ++ str_N age) true "";
   Cell 0 10 ("Gender: " ++ gender) true "";
   Cell 0 10 ("City: " ++ city) true "";
   Ln 5;
   SetFont "Arial" "B" 13;
   Cell 0 10 ("Predicted Disease: " ++ disease) true "";
   SetFont "Arial" "" 11;
   Cell 0 10 ("Confidence: " ++ format_2f confidence ++ "%") true "";
   Ln 5;
   SetFont "Arial" "B" 12;
   Cell 0 10 "Symptoms:" true "";
   SetFont "Arial" "" 11] ++
  map (fun s => Cell 0 8 ("- " ++ s) true "") symptoms ++
  [Ln 5;
   SetFont "Arial" "B" 12;
   Cell 0 10 "Precautions:" true "";
   SetFont "Arial" "" 11] ++
  map (fun p => Cell 0 8 ("- " ++ cell_text p) true "") precautions ++
  [Ln 5;
   SetFont "Arial" "B" 12;
   Cell 0 10 "Recommended Doctor:" true "";
   SetFont "Arial" "" 11;
   MultiCell 0 8 doctor].

(** ** The temporary file and the link (lines 127-137) *)

(** The temporary directory: the files on disk with their contents, and
    a counter standing for the random part of the names
    [NamedTemporaryFile] picks. *)
Record tmpdir := mk_tmpdir { tmp_files : list (string * list byte); tmp_counter : N }.

Definition tmp_name (k : N) : string := "/tmp/tmp" ++ str_N k ++ ".pdf".

(** [open(name, "rb").read()] *)
Definition read_file (name : string) (fs : tmpdir) : option (list byte) :=
  snd <$> List.find (fun f => String.eqb (fst f) name) (rev (tmp_files fs)).

Definition dq : string := String "034"%char EmptyString.
Definition nl : string := String "010"%char EmptyString.
(** the UTF-8 bytes of U+1F4E5, the emoji of line 135 *)
Definition inbox_emoji : string :=
  String "240"%char (String "159"%char (String "147"%char (String "165"%char EmptyString))).

(** The f-string of lines 131-137. *)
Definition download_link (payload : string) : string :=
  nl ++ "        <a href=" ++ dq ++ "data:application/octet-stream;base64," ++ payload ++ dq ++
  " " ++ nl ++
  "           download=" ++ dq ++ "MediVision_Report.pdf" ++ dq ++ " " ++ nl ++
  "           class=" ++ dq ++ "download-button" ++ dq ++ ">" ++ nl ++
  "           " ++ inbox_emoji ++ " Download Health Report" ++ nl ++
  "        </a>" ++ nl ++ "        ".

Section Render.

(** [pdf.output]: FPDF's serialisation of the calls into the bytes of a
    PDF file, a function of the library. *)
Variable render : list pdf_cmd -> list byte.

(** [generate_pdf] (lines 76-137): build the document, create a fresh
    temporary file ([delete=False]), write the PDF into it, read it back
    and return the link with the base64 text.  Nothing deletes the file. *)
Definition generate_pdf (logo_exists : bool) (today : datetime) (name : string) (age : N)
    (gender city disease : string) (confidence : Q) (symptoms : list string)
    (precautions : list cell) (doctor : string) (fs : tmpdir) : result (string * tmpdir) :=
  let doc := report_doc logo_exists today name age gender city disease confidence
                        symptoms precautions doctor in
  let path := tmp_name (tmp_counter fs) in
  let fs' := mk_tmpdir (tmp_files fs ++ [(path, render doc)]) (tmp_counter fs + 1) in
  match read_file path fs' with
  | Some data => Ok (download_link (b64encode data), fs')
  | None => Err (OSError "No such file or directory")
  end.

End Render.

(** ** Properties of the report *)

Lemma read_file_last name data files k :
  read_file name (mk_tmpdir (files ++ [(name, data)]) k) = Some data.
Proof.
  unfold read_file. simpl. rewrite rev_app_distr. simpl.
  by rewrite String.eqb_refl.
Qed.

Section RenderProps.
Variable render : list pdf_cmd -> list byte.

Lemma generate_pdf_ok logo today name age gender city disease conf
    symptoms precautions doctor fs :
  let doc := report_doc logo today name age gender city disease conf symptoms precautions doctor in
  exists payload fs',
    generate_pdf render logo today name age gender city disease conf symptoms precautions
      doctor fs = Ok (download_link payload, fs') /\
    b64decode payload = Some (render doc) /\
    read_file (tmp_name (tmp_counter fs)) fs' = Some (render doc).
Proof.
  intros doc. unfold generate_pdf. fold doc. rewrite read_file_last.
  do 2 eexists. split_and!; [reflexivity | apply b64decode_b64encode | apply read_file_last].
Qed.

(** C32: [generate_pdf] always returns the link, and the base64 text of
    the link decodes to the bytes FPDF wrote for the report's calls, which
    are also the content of the temporary file. *)
Theorem generate_pdf_link_roundtrip logo today name age gender city disease conf
    symptoms precautions doctor fs :
  let doc := report_doc logo today name age gender city disease conf symptoms precautions doctor in
  exists payload fs',
    generate_pdf render logo today name age gender city disease conf symptoms precautions
      doctor fs = Ok (download_link payload, fs') /\
    b64decode payload = Some (render doc) /\
    read_file (tmp_name (tmp_counter fs)) fs' = Some (render doc).
Proof. intros; eapply generate_pdf_ok; eassumption. Qed.

(** C34: the temporary file is never removed: each report leaves one more
    file, with the PDF in it, in the temporary directory. *)
Theorem generate_pdf_leaves_tmpfile logo today name age gender city disease conf
    symptoms precautions doctor fs html fs' :
  generate_pdf render logo today name age gender city disease conf symptoms precautions
    doctor fs = Ok (html, fs') ->
  tmp_files fs' = (tmp_files fs ++
    [(tmp_name (tmp_counter fs),
      render (report_doc logo today name age gender city disease conf symptoms precautions
                doctor))])%list /\
  List.length (tmp_files fs') = S (List.length (tmp_files fs)).
Proof.
  unfold generate_pdf. rewrite read_file_last. intros [= _ <-]. simpl.
  split; [done|]. rewrite length_app. simpl. lia.
Qed.

End RenderProps.

(** a missing logo only drops the [pdf.image] call: the rest of the
    document is the same, so the report never fails for the logo. *)
Theorem report_doc_logo today name age gender city disease conf symptoms precautions doctor :
  exists rest,
    report_doc false today name age gender city disease conf symptoms precautions doctor =
    AddPage :: rest /\
    report_doc true today name age gender city disease conf symptoms precautions doctor =
    AddPage :: Image logo_path 80 10 50 :: rest.
Proof. eexists. split; reflexivity. Qed.

(** C35: an empty list of precautions does not omit its section: the
    heading "Precautions:" is printed all the same. *)
Theorem report_doc_empty_precautions logo today name age gender city disease conf symptoms
    doctor :
  Cell 0 10 "Precautions:" true "" ∈
    report_doc logo today name age gender city disease conf symptoms [] doctor.
Proof.
  unfold report_doc. rewrite !elem_of_app. right. right. right. right. left.
  apply elem_of_cons. right. apply elem_of_cons. right. by left.
Qed.

Lemma generate_pdf_leaves_tmpfile_witness :
  let fs := mk_tmpdir [] 0 in
  match generate_pdf (fun _ => []) false (mk_datetime 2025 7 4 9 5 0) "Ali" 25 "Male" "Lahore"
          "Acne" (9967 # 100) ["itching"] [CStr "bath twice"] "Dr. Sarah Malik - Cosmo Clinic" fs with
  | Ok (html, fs') =>
      tmp_files fs' = (tmp_files fs ++
        [(tmp_name (tmp_counter fs),
          (fun _ => []) (report_doc false (mk_datetime 2025 7 4 9 5 0) "Ali" 25 "Male" "Lahore"
             "Acne" (9967 # 100) ["itching"] [CStr "bath twice"]
             "Dr. Sarah Malik - Cosmo Clinic"))])%list /\
      List.length (tmp_files fs') = S (List.length (tmp_files fs))
  | Err _ => False
  end.
Proof.
  intros fs.
  destruct (generate_pdf (fun _ => []) false (mk_datetime 2025 7 4 9 5 0) "Ali" 25 "Male" "Lahore"
          "Acne" (9967 # 100) ["itching"] [CStr "bath twice"] "Dr. Sarah Malik - Cosmo Clinic" fs)
    as [[html fs']|e] eqn:E.
  - exact (generate_pdf_leaves_tmpfile _ _ _ _ _ _ _ _ _ _ _ _ _ _ _ E).
  - vm_compute in E. discriminate.
Defined.
