(* ===== verification/App.v ===== *)
(** * Orchestrator: the "Predict Disease" handler ([src/main.py] lines
    164-198)

    Streamlit reruns the script on each click; the handler is the body of
    [if st.button(...)].  Its state is what outlives the click: the SQLite
    file ([History.db]) and the temporary directory ([Report.tmpdir]),
    together with the elements the page shows ([ui]).  The handler is a
    computation in a state and exception monad [M]: each step may raise;
    an exception stops the script, the page keeps what was already shown
    and adds the exception, and the file keeps the last committed state.

    The form (lines 150-161) gives the name, age, gender, city and the
    selected symptoms; the environment gives the clocks read by
    [datetime.now()] and [datetime.today()] and whether the logo exists.
    The encoder's vocabulary, the classifier (a [Predictor]), the
    precaution table and FPDF's [render] are parameters of the section. *)

From S2P Require Import Prelude Decimal PyStr Datetime Doctor Precautions Encoder Classifier History Base64 Report.
From Stdlib Require Import String QArith.
From Stdlib Require Import Strings.Byte.
Local Open Scope string_scope.

(** ** What the page shows *)

Inductive heading := HPrecautions | HDoctor | HReport.

Inductive ui_elem :=
| UIWarning (msg : string)                       (** [st.warning] *)
| UISuccess (disease confidence_text : string)   (** [st.success], line 173 *)
| UIHeading (h : heading)                        (** [st.markdown] of a fixed heading *)
| UIWrite (txt : string)                         (** [st.write], line 184 *)
| UIInfo (txt : string)                          (** [st.info], line 189 *)
| UIRule                                         (** [st.markdown("---")] *)
| UIHtml (html : string)                         (** [st.markdown(pdf_button, ...)] *)
| UIException (e : py_exc).                      (** an uncaught exception *)

Record app_state := mk_app_state {
  st_db : db;
  st_tmp : tmpdir;
  st_ui : list ui_elem
}.

Record form := mk_form {
  patient_name : string;
  age : N;
  gender : string;
  form_city : string;
  selected_symptoms : list string
}.

Record env := mk_env {
  clock_now : datetime;     (** [datetime.datetime.now()] in the backend *)
  clock_today : datetime;   (** [datetime.today()] in [generate_pdf] *)
  logo_exists : bool        (** [os.path.exists("app/logo.png")] *)
}.

(** ** The state and exception monad *)

Definition M (A : Type) := app_state -> result A * app_state.

Definition m_ret {A} (a : A) : M A := fun s => (Ok a, s).

Definition m_bind {A B} (m : M A) (k : A -> M B) : M B :=
  fun s => match m s with
           | (Ok a, s') => k a s'
           | (Err e, s') => (Err e, s')
           end.

Notation "'let*' x ':=' m 'in' k" := (m_bind m (fun x => k))
  (at level 10, x name, m at level 100, k at level 200) : mv_scope.

Definition emit (u : ui_elem) : M unit :=
  fun s => (Ok tt, mk_app_state (st_db s) (st_tmp s) (st_ui s ++ [u])).

Definition emit_all (us : list ui_elem) : M unit :=
  fun s => (Ok tt, mk_app_state (st_db s) (st_tmp s) (st_ui s ++ us)).

(** A pure step that may raise. *)
Definition lift {A} (r : result A) : M A := fun s => (r, s).

(** A step on the database file: committed when it returns. *)
Definition on_db (f : db -> result db) : M unit :=
  fun s => match f (st_db s) with
           | Ok d => (Ok tt, mk_app_state d (st_tmp s) (st_ui s))
           | Err e => (Err e, s)
           end.

(** A step on the temporary directory. *)
Definition on_tmp {A} (f : tmpdir -> result (A * tmpdir)) : M A :=
  fun s => match f (st_tmp s) with
           | Ok (a, t) => (Ok a, mk_app_state (st_db s) t (st_ui s))
           | Err e => (Err e, s)
           end.

(** An uncaught exception ends the script and is shown on the page. *)
Definition run (m : M unit) (s : app_state) : app_state :=
  match m s with
  | (Ok _, s') => s'
  | (Err e, s') => mk_app_state (st_db s') (st_tmp s') (st_ui s' ++ [UIException e])
  end.

(** ** Computation rules of the monad *)

Section MonadRules.
Context {A B : Type} (k : A -> M B) (s : app_state).

Lemma bind_lift_Ok a : m_bind (lift (Ok a)) k s = k a s.
Proof. reflexivity. Qed.

Lemma bind_lift_Err e : m_bind (lift (Err e)) k s = (Err e, s).
Proof. reflexivity. Qed.

Lemma bind_on_tmp_Ok (f : tmpdir -> result (A * tmpdir)) a t :
  f (st_tmp s) = Ok (a, t) -> m_bind (on_tmp f) k s = k a (mk_app_state (st_db s) t (st_ui s)).
Proof. intros E. unfold m_bind, on_tmp. by rewrite E. Qed.

End MonadRules.

Lemma bind_on_db_Ok {B} (k : unit -> M B) s (f : db -> result db) d :
  f (st_db s) = Ok d -> m_bind (on_db f) k s = k tt (mk_app_state d (st_tmp s) (st_ui s)).
Proof. intros E. unfold m_bind, on_db. by rewrite E. Qed.

Lemma bind_on_db_Err {B} (k : unit -> M B) s (f : db -> result db) e :
  f (st_db s) = Err e -> m_bind (on_db f) k s = (Err e, s).
Proof. intros E. unfold m_bind, on_db. by rewrite E. Qed.

Lemma bind_emit {B} (k : unit -> M B) u s :
  m_bind (emit u) k s = k tt (mk_app_state (st_db s) (st_tmp s) (st_ui s ++ [u])).
Proof. reflexivity. Qed.

Lemma bind_emit_all {B} (k : unit -> M B) us s :
  m_bind (emit_all us) k s = k tt (mk_app_state (st_db s) (st_tmp s) (st_ui s ++ us)).
Proof. reflexivity. Qed.

Lemma run_Ok m s s' a : m s = (Ok a, s') -> run m s = s'.
Proof. intros E. unfold run. by rewrite E. Qed.

Lemma run_Err m s s' e :
  m s = (Err e, s') -> run m s = mk_app_state (st_db s') (st_tmp s') (st_ui s' ++ [UIException e]).
Proof. intros E. unfold run. by rewrite E. Qed.

(** ** The handler *)

Section Handler.
Context `{Predictor}.
(** [encoder.classes_]: the symptom vocabulary, also the options of the
    multiselect (line 161). *)
Variable classes : list string.
(** [precautions_df], read from [data/symptom_precaution.csv] (line 22). *)
Variable precautions_df : list prec_row.
(** FPDF's [pdf.output]. *)
Variable render : list pdf_cmd -> list byte.

Definition warning_msg : string := "Please enter your name and select symptoms.".

(** [for i, p in enumerate(precautions, 1): st.write(f"{i}. {p}")] *)
Fixpoint precaution_lines (i : nat) (ps : list cell) : list ui_elem :=
  match ps with
  | [] => []
  | p :: rest => UIWrite (str_nat i ++ ". " ++ cell_text p) :: precaution_lines (S i) rest
  end.

(** Lines 168-198. *)
Definition predict_pipeline (e : env) (f : form) : M unit :=
  let* input_vector := lift (transform classes (selected_symptoms f)) in
  let* predicted_disease := lift (predict input_vector) in
  let* confidence := lift (confidence_score input_vector) in
  let* _ := emit (UISuccess predicted_disease (format_2f confidence)) in
  let precautions := get_precautions precautions_df predicted_disease in
  let* _ := emit (UIHeading HPrecautions) in
  let* _ := emit_all (precaution_lines 1 precautions) in
  let doctor := recommend_doctor predicted_disease (form_city f) in
  let* _ := emit (UIHeading HDoctor) in
  let* _ := emit (UIInfo doctor) in
  let* _ := on_db (store_patient_history (clock_now e) (patient_name f) (gender f)
                     (selected_symptoms f) predicted_disease precautions doctor (form_city f)) in
  let* _ := emit UIRule in
  let* _ := emit (UIHeading HReport) in
  let* pdf_button := on_tmp (generate_pdf render (logo_exists e) (clock_today e)
                       (patient_name f) (age f) (gender f) (form_city f) predicted_disease
                       confidence (selected_symptoms f) precautions doctor) in
  emit (UIHtml pdf_button).

(** Lines 164-167: the guard, then the pipeline. *)
Definition on_predict (e : env) (f : form) (s : app_state) : app_state :=
  if String.eqb (patient_name f) "" || bool_decide (selected_symptoms f = []) then
    mk_app_state (st_db s) (st_tmp s) (st_ui s ++ [UIWarning warning_msg])
  else run (predict_pipeline e f) s.

End Handler.

(** ** Properties of the handler *)

Lemma precaution_lines_no_html i ps :
  Forall (fun u => forall h, u <> UIHtml h) (precaution_lines i ps).
Proof.
  revert i; induction ps as [|p ps IH]; intros i; simpl; constructor; [discriminate | apply IH].
Qed.

Section HandlerProps.
Context `{Predictor}.
Variable classes : list string.
Variable precautions_df : list prec_row.
Variable render : list pdf_cmd -> list byte.

Ltac unfold_pipeline :=
  unfold predict_pipeline, m_bind, lift, emit, emit_all, on_db, on_tmp.

(** C2: with an empty name or no symptom selected, the handler only
    shows the warning: nothing is predicted, stored or rendered. *)
Theorem on_predict_guard e f s :
  patient_name f = "" \/ selected_symptoms f = [] ->
  on_predict classes precautions_df render e f s =
  mk_app_state (st_db s) (st_tmp s) (st_ui s ++ [UIWarning warning_msg]).
Proof.
  intros Hg. unfold on_predict.
  replace (String.eqb (patient_name f) "" || bool_decide (selected_symptoms f = [])) with true;
    [done|].
  destruct Hg as [-> | ->]; [done|]. by rewrite orb_true_r.
Qed.

(** C3: when encoding or classification raises, the exception is shown
    and neither the history nor the temporary directory changes. *)
Theorem on_predict_classification_error e f s ex :
  patient_name f <> "" -> selected_symptoms f <> [] ->
  (transform classes (selected_symptoms f) = Err ex \/
   exists x, transform classes (selected_symptoms f) = Ok x /\
     (predict x = Err ex \/
      exists dis, predict x = Ok dis /\ confidence_score x = Err ex)) ->
  on_predict classes precautions_df render e f s =
  mk_app_state (st_db s) (st_tmp s) (st_ui s ++ [UIException ex]).
Proof.
  intros Hn Hs Herr. unfold on_predict.
  rewrite (proj2 (String.eqb_neq _ _) Hn), bool_decide_eq_false_2 by done. simpl.
  unfold run. unfold_pipeline.
  destruct Herr as [-> | (x & -> & [-> | (dis & -> & ->)])]; reflexivity.
Qed.

(** C4: when [store_patient_history] raises (for instance on a NaN
    precaution), the report is not generated: the temporary directory
    and the history are unchanged and no download link is shown. *)
Theorem on_predict_store_error e f s ex x dis conf :
  patient_name f <> "" -> selected_symptoms f <> [] ->
  transform classes (selected_symptoms f) = Ok x -> predict x = Ok dis ->
  confidence_score x = Ok conf ->
  store_patient_history (clock_now e) (patient_name f) (gender f) (selected_symptoms f) dis
    (get_precautions precautions_df dis) (recommend_doctor dis (form_city f)) (form_city f)
    (st_db s) = Err ex ->
  exists shown,
    on_predict classes precautions_df render e f s =
    mk_app_state (st_db s) (st_tmp s) (st_ui s ++ shown ++ [UIException ex]) /\
    Forall (fun u => forall h, u <> UIHtml h) shown.
Proof.
  intros Hn Hs Ht Hp Hc Hst.
  set (shown := ([UISuccess dis (format_2f conf); UIHeading HPrecautions] ++
                precaution_lines 1 (get_precautions precautions_df dis) ++
                [UIHeading HDoctor; UIInfo (recommend_doctor dis (form_city f))])%list).
  assert (E : predict_pipeline classes precautions_df render e f s =
              (Err ex, mk_app_state (st_db s) (st_tmp s) (st_ui s ++ shown))).
  { unfold predict_pipeline.
    rewrite Ht, bind_lift_Ok, Hp, bind_lift_Ok, Hc, bind_lift_Ok, !bind_emit, bind_emit_all,
      !bind_emit.
    erewrite bind_on_db_Err; [|exact Hst]. unfold shown. cbn [st_db st_tmp st_ui].
    by rewrite <- !app_assoc. }
  exists shown. split.
  - unfold on_predict.
    rewrite (proj2 (String.eqb_neq _ _) Hn), bool_decide_eq_false_2 by done. cbn [orb].
    rewrite (run_Err _ _ _ _ E). cbn [st_db st_tmp st_ui]. by rewrite <- app_assoc.
  - unfold shown. repeat (apply Forall_app; split);
      [repeat constructor; discriminate | apply precaution_lines_no_html |
       repeat constructor; discriminate].
Qed.

(** C1: on the normal path (a name, a selection from the widget, a
    classifier whose input width is the vocabulary's size, the database
    reachable with rowids left, and a precaution table without empty
    cells) the handler runs to the end: the history gains the row that
    [store_patient_history] builds, one temporary file is written, and
    the page ends with the download link. *)
Theorem on_predict_success `{!PredictorLaws} e f s t :
  patient_name f <> "" -> selected_symptoms f <> [] ->
  multiselect_ok classes (selected_symptoms f) ->
  n_features = List.length classes ->
  db_dir_ok (st_db s) = true -> history (st_db s) = Some t -> table_wf t ->
  (seq t < sqlite_max_rowid)%Z ->
  (forall r, r ∈ precautions_df -> CNaN ∉ precaution_cells r) ->
  exists x dis conf d' link fs',
    transform classes (selected_symptoms f) = Ok x /\ predict x = Ok dis /\
    confidence_score x = Ok conf /\
    store_patient_history (clock_now e) (patient_name f) (gender f) (selected_symptoms f) dis
      (get_precautions precautions_df dis) (recommend_doctor dis (form_city f)) (form_city f)
      (st_db s) = Ok d' /\
    generate_pdf render (logo_exists e) (clock_today e) (patient_name f) (age f) (gender f)
      (form_city f) dis conf (selected_symptoms f) (get_precautions precautions_df dis)
      (recommend_doctor dis (form_city f)) (st_tmp s) = Ok (link, fs') /\
    on_predict classes precautions_df render e f s =
    mk_app_state d' fs' (st_ui s ++
      [UISuccess dis (format_2f conf); UIHeading HPrecautions] ++
      precaution_lines 1 (get_precautions precautions_df dis) ++
      [UIHeading HDoctor; UIInfo (recommend_doctor dis (form_city f)); UIRule;
       UIHeading HReport; UIHtml link])%list.
Proof.
  intros Hn Hs [Hnd Hsub] Hw Hok Hh Hwf Hlt Hnan.
  pose proof (transform_ok _ _ Hsub) as Ht.
  set (x := map _ classes) in Ht.
  assert (Hx : List.length x = n_features) by (unfold x; rewrite length_map; done).
  destruct (confidence_score_in_range x Hx) as (conf & Hc & _).
  assert (Hp : predict x = Ok (predict_row x)).
  { unfold predict. by rewrite (proj2 (Nat.eqb_eq _ _) Hx). }
  set (dis := predict_row x) in Hp.
  set (pr := get_precautions precautions_df dis).
  assert (Hpr : CNaN ∉ pr).
  { unfold pr. destruct (get_precautions_row precautions_df dis) as [->|(r & Hr & ->)].
    - apply not_elem_of_nil.
    - by apply Hnan. }
  destruct (store_patient_history_ok (clock_now e) (patient_name f) (gender f) (selected_symptoms f) dis
              pr (recommend_doctor dis (form_city f)) (form_city f) (st_db s) t Hok Hh Hwf Hlt Hpr)
    as [d' Hst].
  destruct (generate_pdf_ok render (logo_exists e) (clock_today e) (patient_name f)
              (age f) (gender f) (form_city f) dis conf (selected_symptoms f) pr
              (recommend_doctor dis (form_city f)) (st_tmp s)) as (payload & fs' & Hg & _).
  exists x, dis, conf, d', (download_link payload), fs'. split_and!; try done.
  unfold on_predict.
  rewrite (proj2 (String.eqb_neq _ _) Hn), bool_decide_eq_false_2 by done. cbn [orb].
  eapply run_Ok. unfold predict_pipeline.
  rewrite Ht, bind_lift_Ok, Hp, bind_lift_Ok, Hc, bind_lift_Ok, !bind_emit, bind_emit_all,
    !bind_emit.
  fold pr. erewrite bind_on_db_Ok; [|exact Hst]. rewrite !bind_emit.
  erewrite bind_on_tmp_Ok; [|exact Hg]. unfold emit. cbn [st_db st_tmp st_ui].
  by rewrite <- !app_assoc.
Qed.

End HandlerProps.

(** ** A concrete run: the witnesses of the handler's theorems *)

Definition ex_classes : list string := ["cough"; "headache"; "itching"].
Definition ex_df : list prec_row :=
  [mk_prec_row (CStr "Common Cold") (CStr "drink vitamin c rich drinks") (CStr "take vapour")
     (CStr "avoid cold food") (CStr "keep fever in check")].
Definition ex_df_nan : list prec_row :=
  [mk_prec_row (CStr "Common Cold") (CStr "drink vitamin c rich drinks") (CStr "take vapour")
     CNaN CNaN].
Definition ex_env : env := mk_env (mk_datetime 2025 7 4 9 5 0) (mk_datetime 2025 7 4 9 5 0) true.
Definition ex_form (name : string) (sel : list string) : form := mk_form name 25 "Male" "Lahore" sel.
Definition ex_state : app_state := mk_app_state (mk_db true (Some empty_table)) (mk_tmpdir [] 0) [].
Definition ex_render (doc : list pdf_cmd) : list byte := [].

Lemma on_predict_guard_witness :
  (patient_name (ex_form "" ["cough"]) = "" \/ selected_symptoms (ex_form "" ["cough"]) = []) /\
  @on_predict example_predictor ex_classes ex_df ex_render ex_env (ex_form "" ["cough"]) ex_state =
  mk_app_state (st_db ex_state) (st_tmp ex_state) (st_ui ex_state ++ [UIWarning warning_msg]).
Proof.
  assert (Hg : patient_name (ex_form "" ["cough"]) = "" \/
               selected_symptoms (ex_form "" ["cough"]) = []) by (left; reflexivity).
  split; [exact Hg | exact (@on_predict_guard example_predictor _ _ _ _ _ _ Hg)].
Defined.

Lemma on_predict_classification_error_witness :
  patient_name (ex_form "Ali" ["sneezing"]) <> "" /\
  selected_symptoms (ex_form "Ali" ["sneezing"]) <> [] /\
  transform ex_classes (selected_symptoms (ex_form "Ali" ["sneezing"])) =
    Err (UnknownSymptom "sneezing") /\
  @on_predict example_predictor ex_classes ex_df ex_render ex_env (ex_form "Ali" ["sneezing"])
    ex_state =
  mk_app_state (st_db ex_state) (st_tmp ex_state)
    (st_ui ex_state ++ [UIException (UnknownSymptom "sneezing")]).
Proof.
  assert (H1 : patient_name (ex_form "Ali" ["sneezing"]) <> "") by discriminate.
  assert (H2 : selected_symptoms (ex_form "Ali" ["sneezing"]) <> []) by discriminate.
  assert (H3 : transform ex_classes (selected_symptoms (ex_form "Ali" ["sneezing"])) =
               Err (UnknownSymptom "sneezing")) by (vm_compute; reflexivity).
  split_and!; [exact H1 | exact H2 | exact H3 |].
  exact (@on_predict_classification_error example_predictor _ _ _ _ _ _ _ H1 H2 (or_introl H3)).
Defined.

Lemma on_predict_store_error_witness :
  let f := ex_form "Ali" ["cough"] in
  patient_name f <> "" /\ selected_symptoms f <> [] /\
  transform ex_classes (selected_symptoms f) = Ok [1; 0; 0]%nat /\
  @predict example_predictor [1; 0; 0]%nat = Ok "Common Cold" /\
  @confidence_score example_predictor [1; 0; 0]%nat = Ok (300 # 4)%Q /\
  (exists msg,
    store_patient_history (clock_now ex_env) (patient_name f) (gender f) (selected_symptoms f)
      "Common Cold" (get_precautions ex_df_nan "Common Cold")
      (recommend_doctor "Common Cold" (form_city f)) (form_city f) (st_db ex_state) =
    Err (TypeError msg) /\
    exists shown,
      @on_predict example_predictor ex_classes ex_df_nan ex_render ex_env f ex_state =
      mk_app_state (st_db ex_state) (st_tmp ex_state)
        (st_ui ex_state ++ shown ++ [UIException (TypeError msg)]) /\
      Forall (fun u => forall h, u <> UIHtml h) shown).
Proof.
  intros f.
  assert (H1 : patient_name f <> "") by discriminate.
  assert (H2 : selected_symptoms f <> []) by discriminate.
  assert (H3 : transform ex_classes (selected_symptoms f) = Ok [1; 0; 0]%nat)
    by (vm_compute; reflexivity).
  assert (H4 : @predict example_predictor [1; 0; 0]%nat = Ok "Common Cold")
    by (vm_compute; reflexivity).
  assert (H5 : @confidence_score example_predictor [1; 0; 0]%nat = Ok (300 # 4)%Q)
    by (vm_compute; reflexivity).
  split_and!; [exact H1 | exact H2 | exact H3 | exact H4 | exact H5 |].
  destruct (store_patient_history (clock_now ex_env) (patient_name f) (gender f)
              (selected_symptoms f) "Common Cold" (get_precautions ex_df_nan "Common Cold")
              (recommend_doctor "Common Cold" (form_city f)) (form_city f) (st_db ex_state))
    as [d|ex] eqn:E.
  - vm_compute in E. discriminate.
  - assert (Hex : exists msg, ex = TypeError msg).
    { vm_compute in E. injection E as <-. eexists. reflexivity. }
    destruct Hex as [msg ->]. exists msg. split; [reflexivity|].
    exact (@on_predict_store_error example_predictor _ _ _ _ _ _ _ _ _ _ H1 H2 H3 H4 H5 E).
Defined.

Lemma on_predict_success_witness :
  let f := ex_form "Ali" ["cough"] in
  patient_name f <> "" /\ selected_symptoms f <> [] /\ multiselect_ok ex_classes (selected_symptoms f) /\
  @n_features example_predictor = List.length ex_classes /\
  exists x dis conf d' link fs',
    transform ex_classes (selected_symptoms f) = Ok x /\ @predict example_predictor x = Ok dis /\
    @confidence_score example_predictor x = Ok conf /\
    store_patient_history (clock_now ex_env) (patient_name f) (gender f) (selected_symptoms f) dis
      (get_precautions ex_df dis) (recommend_doctor dis (form_city f)) (form_city f)
      (st_db ex_state) = Ok d' /\
    generate_pdf ex_render (logo_exists ex_env) (clock_today ex_env) (patient_name f) (age f)
      (gender f) (form_city f) dis conf (selected_symptoms f) (get_precautions ex_df dis)
      (recommend_doctor dis (form_city f)) (st_tmp ex_state) = Ok (link, fs') /\
    @on_predict example_predictor ex_classes ex_df ex_render ex_env f ex_state =
    mk_app_state d' fs' (st_ui ex_state ++
      [UISuccess dis (format_2f conf); UIHeading HPrecautions] ++
      precaution_lines 1 (get_precautions ex_df dis) ++
      [UIHeading HDoctor; UIInfo (recommend_doctor dis (form_city f)); UIRule;
       UIHeading HReport; UIHtml link])%list.
Proof.
  intros f.
  assert (H1 : patient_name f <> "") by discriminate.
  assert (H2 : selected_symptoms f <> []) by discriminate.
  assert (H3 : multiselect_ok ex_classes (selected_symptoms f)) by (split; decide_by_eval).
  assert (H4 : @n_features example_predictor = List.length ex_classes) by reflexivity.
  split_and!; [exact H1 | exact H2 | exact H3 | exact H4 |].
  refine (@on_predict_success example_predictor ex_classes ex_df ex_render
            example_predictor_laws ex_env f ex_state empty_table H1 H2 H3 H4
            eq_refl eq_refl empty_table_wf _ _).
  - rewrite sqlite_max_rowid_eq. simpl. lia.
  - intros r Hr. apply list_elem_of_singleton in Hr as ->. decide_by_eval.
Defined.
