(* ===== verification/Phases.v ===== *)
(** * The handler as a phase machine ([src/main.py] lines 164-198)

    The specification describes the orchestrator as a state machine
    [AwaitingInput -> Encoding -> Classifying -> Resolving -> Persisting
    -> Reporting -> Done], with an [Error] state reachable from every
    step.  This file cuts the code of the button handler at those points:
    [phase_action] gives, for each phase, the statements of the handler
    that run in it (as computations of [App.M]) and the phase that follows;
    [phase_step] is one transition of the machine and [pstep] the step
    relation.  Seven transitions from [AwaitingInput] reach a stopped
    phase in the state the monadic handler [App.on_predict] computes
    ([drive_on_predict]); every run simulates the specification's machine
    [spec_step] (by induction on the steps), and every transition keeps
    the history table well formed and only appends to it, which gives the
    append-only theorem of [Script].

    The specification says that "any component failure transitions
    directly to [Error], aborting persistence and reporting".  In the code the [INSERT] is
    committed (line 192) before [generate_pdf] runs (line 197), so an
    exception of the report (FPDF refusing a character outside Latin-1,
    the temporary file failing to open) stops the script with the row
    stored.  The model's texts are Latin-1 byte strings and the temporary
    directory is always writable, so [generate_pdf] never raises here and
    this path is not a transition of the machine; it is recorded as a
    divergence from the specification rather than proved. *)

From S2P Require Import Prelude Decimal PyStr Datetime Doctor Precautions Encoder Classifier History Base64 Report App.
From Stdlib Require Import String QArith.
From Stdlib Require Import Strings.Byte.
From stdpp Require Import relations.
Local Open Scope string_scope.

(** ** Phases, with the values computed so far *)

Inductive phase :=
| AwaitingInput
| Encoding
| Classifying (input_vector : list nat)
| Resolving (predicted_disease : string) (confidence : Q)
| Persisting (predicted_disease : string) (confidence : Q) (precautions : list cell)
    (doctor : string)
| Reporting (predicted_disease : string) (confidence : Q) (precautions : list cell)
    (doctor : string)
| Done
| Warned
| Failed (e : py_exc).

Definition cfg : Type := phase * app_state.

(** The phases in which the script has stopped. *)
Definition final (ph : phase) : bool :=
  match ph with Done | Warned | Failed _ => true | _ => false end.

(** [raise]: an uncaught exception is shown and stops the script. *)
Definition show_exception (ex : py_exc) (s : app_state) : app_state :=
  mk_app_state (st_db s) (st_tmp s) (st_ui s ++ [UIException ex]).

Section Machine.
Context `{Predictor}.
Variable classes : list string.
Variable precautions_df : list prec_row.
Variable render : list pdf_cmd -> list byte.
Variable e : env.
Variable f : form.

(** The statements of each phase, in the order of the code. *)
Definition phase_action (ph : phase) : option (M phase) :=
  match ph with
  | AwaitingInput =>
      (* line 165 *)
      Some (if String.eqb (patient_name f) "" || bool_decide (selected_symptoms f = [])
            then let* _ := emit (UIWarning warning_msg) in m_ret Warned
            else m_ret Encoding)
  | Encoding =>
      (* line 168 *)
      Some (let* input_vector := lift (transform classes (selected_symptoms f)) in
            m_ret (Classifying input_vector))
  | Classifying input_vector =>
      (* lines 169-173 *)
      Some (let* predicted_disease := lift (predict input_vector) in
            let* confidence := lift (confidence_score input_vector) in
            let* _ := emit (UISuccess predicted_disease (format_2f confidence)) in
            m_ret (Resolving predicted_disease confidence))
  | Resolving predicted_disease confidence =>
      (* lines 176-189 *)
      Some (let precautions := get_precautions precautions_df predicted_disease in
            let* _ := emit (UIHeading HPrecautions) in
            let* _ := emit_all (precaution_lines 1 precautions) in
            let doctor := recommend_doctor predicted_disease (form_city f) in
            let* _ := emit (UIHeading HDoctor) in
            let* _ := emit (UIInfo doctor) in
            m_ret (Persisting predicted_disease confidence precautions doctor))
  | Persisting predicted_disease confidence precautions doctor =>
      (* lines 192-196 *)
      Some (let* _ := on_db (store_patient_history (clock_now e) (patient_name f) (gender f)
                       (selected_symptoms f) predicted_disease precautions doctor (form_city f)) in
            let* _ := emit UIRule in
            let* _ := emit (UIHeading HReport) in
            m_ret (Reporting predicted_disease confidence precautions doctor))
  | Reporting predicted_disease confidence precautions doctor =>
      (* lines 197-198 *)
      Some (let* pdf_button := on_tmp (generate_pdf render (logo_exists e) (clock_today e)
                         (patient_name f) (age f) (gender f) (form_city f) predicted_disease
                         confidence (selected_symptoms f) precautions doctor) in
            let* _ := emit (UIHtml pdf_button) in
            m_ret Done)
  | Done | Warned | Failed _ => None
  end.

(** One transition: run the phase's statements; an exception moves to
    [Failed] and is shown. *)
Definition phase_step (c : cfg) : option cfg :=
  match phase_action c.1 with
  | None => None
  | Some m =>
      match m c.2 with
      | (Ok ph', s') => Some (ph', s')
      | (Err ex, s') => Some (Failed ex, show_exception ex s')
      end
  end.

Inductive pstep : relation cfg :=
| pstep_intro c c' : phase_step c = Some c' -> pstep c c'.

(** Run the machine for at most [fuel] transitions. *)
Fixpoint drive (fuel : nat) (c : cfg) : cfg :=
  match fuel with
  | O => c
  | S n => match phase_step c with None => c | Some c' => drive n c' end
  end.

End Machine.

(** ** The specification's machine (the orchestrator's state diagram) *)

Inductive spec_state :=
| SAwaitingInput | SEncoding | SClassifying | SResolving | SPersisting | SReporting
| SDone | SError.

(** [guard_ok]: the patient name and the symptom set are non-empty. *)
Inductive spec_step (guard_ok : bool) : spec_state -> spec_state -> Prop :=
| spec_start : guard_ok = true -> spec_step guard_ok SAwaitingInput SEncoding
| spec_reject : guard_ok = false -> spec_step guard_ok SAwaitingInput SAwaitingInput
| spec_encode : spec_step guard_ok SEncoding SClassifying
| spec_classify : spec_step guard_ok SClassifying SResolving
| spec_resolve : spec_step guard_ok SResolving SPersisting
| spec_persist : spec_step guard_ok SPersisting SReporting
| spec_report : spec_step guard_ok SReporting SDone
| spec_fail st :
    st ∈ [SEncoding; SClassifying; SResolving; SPersisting; SReporting] ->
    spec_step guard_ok st SError.

(** The specification's view of a phase: a rejected form is back in
    [AwaitingInput]. *)
Definition abs_phase (ph : phase) : spec_state :=
  match ph with
  | AwaitingInput | Warned => SAwaitingInput
  | Encoding => SEncoding
  | Classifying _ => SClassifying
  | Resolving _ _ => SResolving
  | Persisting _ _ _ _ => SPersisting
  | Reporting _ _ _ _ => SReporting
  | Done => SDone
  | Failed _ => SError
  end.

Definition guard_ok (f : form) : bool :=
  negb (String.eqb (patient_name f) "" || bool_decide (selected_symptoms f = [])).

(** ** Computing with the machine *)

(** Unfold the machine and the monad, and reduce without touching the
    component functions. *)
Ltac machine_red :=
  cbv beta iota zeta delta [phase_step phase_action on_predict run predict_pipeline m_bind m_ret lift emit
       emit_all on_db on_tmp show_exception st_db st_tmp st_ui fst snd].

Ltac machine_red_in H :=
  cbv beta iota zeta delta [phase_step phase_action on_predict run predict_pipeline m_bind m_ret lift emit
       emit_all on_db on_tmp show_exception st_db st_tmp st_ui fst snd] in H.


(** Split on the next stuck result of a component: a [result], a test,
    or a pair held in a variable. *)
Ltac destruct_result :=
  match goal with
  | |- context [match ?r with _ => _ end] =>
      lazymatch type of r with
      | result _ => destruct r | bool => destruct r | prod _ _ => is_var r; destruct r
      end
  end.

Ltac destruct_result_in H :=
  match type of H with
  | context [match ?r with _ => _ end] =>
      lazymatch type of r with
      | result _ => destruct r eqn:? | bool => destruct r eqn:?
      | prod _ _ => is_var r; destruct r
      end
  end.

(** Compute a transition hypothesis [phase_step (ph, s) = Some c'] for
    a known phase, one case per outcome of the components. *)
Ltac invert_step H :=
  machine_red_in H; repeat (destruct_result_in H; machine_red_in H); simplify_eq.

Section MachineProps.
Context `{Predictor}.
Variable classes : list string.
Variable precautions_df : list prec_row.
Variable render : list pdf_cmd -> list byte.

Lemma drive_S e f n c :
  drive classes precautions_df render e f (S n) c =
  match phase_step classes precautions_df render e f c with
  | None => c
  | Some c' => drive classes precautions_df render e f n c'
  end.
Proof. reflexivity. Qed.

Lemma pstep_inv e f c c' :
  pstep classes precautions_df render e f c c' <->
  phase_step classes precautions_df render e f c = Some c'.
Proof. split; [by inversion 1 | by constructor]. Qed.

Lemma drive_bsteps e f n c :
  bsteps (pstep classes precautions_df render e f) n c (drive classes precautions_df render e f n c).
Proof.
  revert c; induction n as [|n IH]; intros c; [constructor|]. rewrite drive_S.
  destruct (phase_step classes precautions_df render e f c) as [c'|] eqn:E; [|constructor].
  eapply bsteps_l; [by constructor | apply IH].
Qed.

Lemma drive_rtc e f n c :
  rtc (pstep classes precautions_df render e f) c (drive classes precautions_df render e f n c).
Proof. eapply rtc_bsteps_2, drive_bsteps. Qed.

(** Seven transitions take the machine from [AwaitingInput] to a stopped
    phase, in the state the monadic handler computes. *)
Lemma drive_on_predict e f s :
  exists ph, drive classes precautions_df render e f 7 (AwaitingInput, s) =
             (ph, on_predict classes precautions_df render e f s) /\ final ph = true.
Proof.
  machine_red.
  repeat (first [rewrite drive_S | destruct_result]; machine_red).
  all: eexists; split; reflexivity.
Qed.

Lemma rtc_preserved {A} (R : relation A) (P : A -> Prop) x y :
  (forall a b, P a -> R a b -> P b) -> rtc R x y -> P x -> P y.
Proof. intros Hstep Hr. induction Hr; eauto. Qed.

(** Each transition is a transition of the specification's machine. *)
Lemma pstep_simulates_spec e f c c' :
  pstep classes precautions_df render e f c c' ->
  spec_step (guard_ok f) (abs_phase c.1) (abs_phase c'.1).
Proof.
  intros Hs%pstep_inv. unfold guard_ok.
  destruct c as [[] [db tmp ui]]; invert_step Hs; cbn;
    try match goal with H : (_ || _) = _ |- _ => rewrite H end;
    first [by constructor | apply spec_fail; set_solver].
Qed.

(** C5: every run of the code's phase machine is a run of the
    specification's state machine, the guard being "name and symptom set
    non-empty". *)
Theorem phases_refine_spec e f c c' :
  rtc (pstep classes precautions_df render e f) c c' ->
  rtc (spec_step (guard_ok f)) (abs_phase c.1) (abs_phase c'.1).
Proof.
  intros Hr. induction Hr as [|x y z Hxy _ IH]; [done|].
  eapply rtc_l; [exact (pstep_simulates_spec e f x y Hxy) | exact IH].
Qed.

Lemma pstep_db_evolves e f d0 c c' :
  db_evolves d0 (st_db c.2) -> pstep classes precautions_df render e f c c' ->
  db_evolves d0 (st_db c'.2).
Proof.
  intros Hev Hs%pstep_inv. destruct c as [[] [db tmp ui]]; invert_step Hs; cbn in *; try done.
  eapply db_evolves_trans; [exact Hev|].
  eapply store_patient_history_evolves; [apply Hev | eassumption].
Qed.

(** The handler only appends to the history and keeps its invariant. *)
Lemma on_predict_db_evolves e f s :
  db_wf (st_db s) -> db_evolves (st_db s) (st_db (on_predict classes precautions_df render e f s)).
Proof.
  intros Hwf. destruct (drive_on_predict e f s) as (ph & Hd & _).
  pose proof (drive_rtc e f 7 (AwaitingInput, s)) as Hr. rewrite Hd in Hr.
  exact (rtc_preserved _ (fun c => db_evolves (st_db s) (st_db c.2)) _ _
           (pstep_db_evolves e f (st_db s)) Hr (db_evolves_refl _ Hwf)).
Qed.

End MachineProps.

(** ** Runs of the machine on the example of [App] *)

Lemma phases_refine_spec_witness :
  let f := ex_form "Ali" ["cough"] in
  let c := @drive example_predictor ex_classes ex_df ex_render ex_env f 7 (AwaitingInput, ex_state) in
  rtc (@pstep example_predictor ex_classes ex_df ex_render ex_env f) (AwaitingInput, ex_state) c /\
  rtc (spec_step (guard_ok f)) SAwaitingInput (abs_phase c.1).
Proof.
  intros f c.
  assert (Hr : rtc (@pstep example_predictor ex_classes ex_df ex_render ex_env f)
                 (AwaitingInput, ex_state) c) by apply drive_rtc.
  split; [exact Hr|].
  exact (@phases_refine_spec example_predictor ex_classes ex_df ex_render ex_env f _ c Hr).
Defined.
