(* ===== verification/Sidebar.v ===== *)
(** * Sidebar: the ten most common diseases ([src/main.py] lines 144-147)

    [disease_data['Disease'].value_counts().head(10)] counts the labels of
    the training data's [Disease] column, drops NaN ([dropna=True]),
    sorts the counts in decreasing order and keeps the first ten rows,
    which [st.bar_chart] draws.  pandas counts with a hash table (labels in
    order of first appearance, [tally]) and then sorts by count; the sort
    is not stable, so the order of equal counts is unspecified: the query
    is specified by the relation [value_counts_spec], and [value_counts],
    stdpp's merge sort of the tally, is one implementation of it.  The
    theorems hold for every answer the relation allows. *)

From S2P Require Import Prelude PyStr.
From Stdlib Require Import String.
Local Open Scope string_scope.

(** How many cells of the column hold the label [d]. *)
Definition label_count (col : list cell) (d : string) : nat :=
  List.length (filter (fun c => c = CStr d) col).

(** The labels of the column, NaN dropped. *)
Fixpoint labels (col : list cell) : list string :=
  match col with
  | [] => []
  | CStr d :: rest => d :: labels rest
  | CNaN :: rest => labels rest
  end.

(** One more occurrence of [d] in the hash table. *)
Fixpoint bump (d : string) (acc : list (string * nat)) : list (string * nat) :=
  match acc with
  | [] => [(d, 1%nat)]
  | (x, n) :: rest => if String.eqb x d then (x, S n) :: rest else (x, n) :: bump d rest
  end.

(** The counting pass of [value_counts], NaN dropped. *)
Fixpoint tally (acc : list (string * nat)) (col : list cell) : list (string * nat) :=
  match col with
  | [] => acc
  | CNaN :: rest => tally acc rest
  | CStr d :: rest => tally (bump d acc) rest
  end.

(** [a] may come before [b] in [sort_values(ascending=False)]. *)
Definition count_desc (a b : string * nat) : Prop := (b.2 <= a.2)%nat.

#[export] Instance count_desc_dec : RelDecision count_desc.
Proof. intros a b. unfold count_desc. apply _. Defined.

(** What pandas promises of [value_counts()]: the counts of the distinct
    labels, in decreasing order. *)
Definition value_counts_spec (col : list cell) (out : list (string * nat)) : Prop :=
  out ≡ₚ tally [] col /\ Sorted count_desc out.

Definition value_counts (col : list cell) : list (string * nat) :=
  merge_sort count_desc (tally [] col).

(** [.head(10)] *)
Definition top_diseases (col : list cell) : list (string * nat) := take 10 (value_counts col).

(** ** The hash table *)

(** The count the table holds for [x]. *)
Definition cnt (l : list (string * nat)) (x : string) : nat :=
  sum_list (snd <$> filter (fun p => p.1 = x) l).

(** A table whose keys are distinct and whose counts are positive. *)
Definition table_ok (l : list (string * nat)) : Prop :=
  NoDup (fst <$> l) /\ Forall (fun p => 0 < p.2)%nat l.

Lemma bump_keys d acc x : x ∈ fst <$> bump d acc <-> x ∈ fst <$> acc \/ x = d.
Proof.
  induction acc as [|[y n] acc IH]; cbn; [set_solver|].
  destruct (String.eqb_spec y d) as [->|Hne]; cbn; rewrite !elem_of_cons; [|rewrite IH]; tauto.
Qed.

Lemma cnt_cons p l x : cnt (p :: l) x = ((if decide (p.1 = x) then p.2 else 0) + cnt l x)%nat.
Proof. unfold cnt. rewrite filter_cons. by case_decide. Qed.

Lemma bump_cnt d acc x : cnt (bump d acc) x = (cnt acc x + if decide (d = x) then 1 else 0)%nat.
Proof.
  induction acc as [|[y n] acc IH]; cbn [bump].
  - rewrite cnt_cons. cbn. case_decide; lia.
  - destruct (String.eqb_spec y d) as [->|Hne]; rewrite !cnt_cons; cbn [fst snd];
      [|rewrite IH]; repeat case_decide; subst; try congruence; lia.
Qed.

Lemma bump_ok d acc : table_ok acc -> table_ok (bump d acc).
Proof.
  induction acc as [|[y n] acc IH]; intros [Hnd Hpos]; cbn.
  - split; [apply NoDup_singleton | repeat constructor; cbn; lia].
  - apply NoDup_cons in Hnd as [Hy Hnd]. apply Forall_cons in Hpos as [Hn Hpos].
    destruct (String.eqb_spec y d) as [->|Hne].
    + split; [by constructor | constructor; cbn; [lia | done]].
    + destruct (IH (conj Hnd Hpos)) as [Hnd' Hpos']. split; [|by constructor].
      constructor; [|done]. rewrite bump_keys. set_solver.
Qed.

Lemma tally_keys acc col x : x ∈ fst <$> tally acc col <-> x ∈ fst <$> acc \/ x ∈ labels col.
Proof.
  revert acc; induction col as [|[d|] col IH]; intros acc; cbn; [set_solver | | apply IH].
  rewrite IH, bump_keys, elem_of_cons. tauto.
Qed.

Lemma tally_cnt acc col x : cnt (tally acc col) x = (cnt acc x + label_count col x)%nat.
Proof.
  unfold label_count. revert acc; induction col as [|[d|] col IH]; intros acc; cbn [tally].
  - rewrite filter_nil. cbn. lia.
  - rewrite IH, bump_cnt, filter_cons.
    case_decide as E1; case_decide as E2; cbn [List.length]; subst; try congruence; lia.
  - rewrite IH, filter_cons, decide_False by discriminate. lia.
Qed.

Lemma tally_ok acc col : table_ok acc -> table_ok (tally acc col).
Proof.
  revert acc; induction col as [|[d|] col IH]; intros acc Hok; cbn; [done | | by apply IH].
  apply IH, bump_ok, Hok.
Qed.

Lemma cnt_not_key l x : x ∉ fst <$> l -> cnt l x = 0%nat.
Proof.
  unfold cnt. induction l as [|[y n] l IH]; intros Hx; [done|]. rewrite filter_cons.
  rewrite decide_False by (cbn; set_solver). apply IH. set_solver.
Qed.

(** In a table with distinct keys, the pair of a key holds its count. *)
Lemma elem_cnt l d n : NoDup (fst <$> l) -> (d, n) ∈ l -> cnt l d = n.
Proof.
  induction l as [|[y m] l IH]; intros Hnd Hin; [set_solver|].
  apply NoDup_cons in Hnd as [Hy Hnd]. rewrite cnt_cons.
  apply elem_of_cons in Hin as [[= -> ->]|Hin].
  - rewrite decide_True by done. cbn. rewrite cnt_not_key by done. lia.
  - assert (y <> d) by (intros ->; apply Hy, list_elem_of_fmap; by exists (d, n)).
    rewrite decide_False by (cbn; congruence). by apply IH.
Qed.

Lemma StronglySorted_app_cross {A} (R : relation A) l1 l2 x y :
  StronglySorted R (l1 ++ l2) -> x ∈ l1 -> y ∈ l2 -> R x y.
Proof.
  induction l1 as [|z l1 IH]; intros HS Hx Hy; [set_solver|].
  apply StronglySorted_inv in HS as [HS Hall]. apply elem_of_cons in Hx as [->|Hx].
  - rewrite Forall_forall in Hall. apply Hall, elem_of_app. by right.
  - by apply IH.
Qed.

#[export] Instance count_desc_trans : Transitive count_desc.
Proof. intros a b c. unfold count_desc. lia. Qed.

#[export] Instance count_desc_total : Total count_desc.
Proof. intros a b. unfold count_desc. lia. Qed.

(** ** [value_counts().head(10)] *)

Lemma value_counts_sound col : value_counts_spec col (value_counts col).
Proof. split; [apply merge_sort_Permutation | apply Sorted_merge_sort; apply _]. Qed.

Lemma tally_table_ok col : table_ok (tally [] col).
Proof. apply tally_ok. split; constructor. Qed.

(** Each pair of an answer holds the count of its label. *)
Lemma spec_pair col out d n :
  value_counts_spec col out -> (d, n) ∈ out -> n = label_count col d /\ (0 < n)%nat.
Proof.
  intros [P _] Hin. rewrite P in Hin. destruct (tally_table_ok col) as [Hnd Hpos]. split.
  - rewrite <- (elem_cnt _ _ _ Hnd Hin), tally_cnt, cnt_not_key; [done | apply not_elem_of_nil].
  - rewrite Forall_forall in Hpos. exact (Hpos _ Hin).
Qed.

Lemma elem_of_take_l {A} (x : A) n l : x ∈ take n l -> x ∈ l.
Proof. intros H. rewrite <- (take_drop n l). apply elem_of_app. by left. Qed.

(** The labels of the answer are the distinct labels of the column. *)
Lemma spec_keys col out : value_counts_spec col out -> fst <$> out ≡ₚ remove_dups (labels col).
Proof.
  intros [P _]. destruct (tally_table_ok col) as [Hnd _]. rewrite P.
  apply NoDup_Permutation; [done | apply NoDup_remove_dups |].
  intros x. rewrite tally_keys, elem_of_remove_dups. set_solver.
Qed.

(** C28: whatever order pandas gives to equal counts, the bar chart shows
    at most ten distinct diseases, as many as there are up to ten, each
    with its number of rows, and a disease it leaves out has no more rows
    than any disease it shows. *)
Theorem value_counts_head10 col out :
  value_counts_spec col out ->
  (forall d n, (d, n) ∈ take 10 out -> n = label_count col d /\ (0 < n)%nat) /\
  NoDup (fst <$> take 10 out) /\
  List.length (take 10 out) = Nat.min 10 (List.length (remove_dups (labels col))) /\
  (forall d, d ∈ labels col -> d ∉ fst <$> take 10 out ->
     Forall (fun p => label_count col d <= p.2)%nat (take 10 out)).
Proof.
  intros Hs. pose proof (spec_keys col out Hs) as Hk. split_and!.
  - intros d n Hin. exact (spec_pair col out d n Hs (elem_of_take_l _ _ _ Hin)).
  - assert (Hnd : NoDup (fst <$> out)) by (rewrite Hk; apply NoDup_remove_dups).
    rewrite <- (take_drop 10 out), fmap_app in Hnd. by apply NoDup_app in Hnd as [? _].
  - by rewrite length_take, <- (Permutation_length Hk), length_fmap.
  - intros d Hd Hnot. apply Forall_forall. intros p Hp.
    rewrite <- elem_of_remove_dups, <- Hk in Hd. apply list_elem_of_fmap in Hd as ([d' n] & -> & Hin).
    pose proof (spec_pair col out d' n Hs Hin) as [-> _].
    destruct Hs as [_ Hsort]. apply Sorted_StronglySorted in Hsort; [|apply _].
    rewrite <- (take_drop 10 out) in Hin, Hsort. apply elem_of_app in Hin as [Hin|Hin].
    + destruct Hnot. apply list_elem_of_fmap. by exists (d', label_count col d').
    + exact (StronglySorted_app_cross _ _ _ _ _ Hsort Hp Hin).
Qed.

Lemma value_counts_head10_witness :
  let col := [CStr "Flu"; CStr "Acne"; CStr "Flu"; CNaN; CStr "Migraine"; CStr "Flu"] in
  value_counts_spec col (value_counts col) /\
  top_diseases col = [("Flu", 3%nat); ("Migraine", 1%nat); ("Acne", 1%nat)] /\
  ((forall d n, (d, n) ∈ take 10 (value_counts col) -> n = label_count col d /\ (0 < n)%nat) /\
   NoDup (fst <$> take 10 (value_counts col)) /\
   List.length (take 10 (value_counts col)) = Nat.min 10 (List.length (remove_dups (labels col))) /\
   (forall d, d ∈ labels col -> d ∉ fst <$> take 10 (value_counts col) ->
      Forall (fun p => label_count col d <= p.2)%nat (take 10 (value_counts col)))).
Proof.
  intros col. pose proof (value_counts_sound col) as Hs.
  split; [exact Hs|]. split; [vm_compute; reflexivity|].
  exact (value_counts_head10 col _ Hs).
Defined.
