(* ===== verification/Script.v ===== *)
(** * The script and the session ([src/main.py] lines 13-24, 140-164;
    [patient_data.py] lines 101-102)

    Streamlit runs [main.py] from the top on every interaction.  A run
    sets the page configuration (line 13), imports the backend (line 17),
    loads the model, the encoder and the two CSV files (lines 20-24), lays
    out the page and the widgets (lines 27-161) and, when the button was
    clicked, runs the handler (lines 164-198).  What outlives a run is the
    server's state, [session]: whether the backend module is loaded (a
    module is imported once; its last statement, [initialize_db()] at
    line 102, runs then, and a failed import leaves it unloaded), the
    database file and the temporary directory.

    The loaded artifacts are the parameters of the section: the
    vocabulary [all_symptoms] ([encoder.classes_]), the classifier, the
    precaution rows and the [Disease] column of the training data.  The
    widgets give the form; [widget_ok] is what their declarations allow
    (the [min_value]/[max_value] of the age, the options of the radio,
    the selectbox and the multiselect).  [session_step] is one run of the
    script on some interaction. *)

From S2P Require Import Prelude Decimal PyStr Datetime Doctor Precautions Encoder Classifier History Base64 Report App Phases Sidebar.
From Stdlib Require Import String QArith.
From Stdlib Require Import Strings.Byte.
From stdpp Require Import relations.
Local Open Scope string_scope.

(** ** The page *)

Inductive page_elem :=
| PPageConfig                                     (** line 13 *)
| PStyle                                          (** lines 27-73 *)
| PTitle                                          (** line 140 *)
| PIntro                                          (** line 141 *)
| PSidebarHeading                                 (** line 145 *)
| PBarChart (data : list (string * nat))          (** line 147 *)
| PDetailsHeading                                 (** line 150 *)
| PNameInput                                      (** line 153 *)
| PAgeInput (min_value max_value value : N)       (** line 154 *)
| PGenderRadio (options : list string)            (** line 156 *)
| PCitySelect (options : list string)             (** line 157 *)
| PSymptomsHeading                                (** line 160 *)
| PSymptomSelect (options : list string)          (** line 161 *)
| PPredictButton                                  (** line 164 *)
| PHandler (u : ui_elem)                          (** what the handler shows *)
| PException (ex : py_exc).                       (** an uncaught exception *)

Definition gender_options : list string := ["Male"; "Female"; "Other"].

Definition city_options : list string :=
  ["Lahore"; "Gujranwala"; "Islamabad"; "Rawalpindi"; "Karachi"; "Other"].

(** [sorted(all_symptoms)]: Python orders strings by code point, as
    [string_le] orders them byte by byte. *)
Definition symptom_options (all_symptoms : list string) : list string :=
  merge_sort string_le all_symptoms.

(** The forms the widgets of lines 153-161 can produce. *)
Definition widget_ok (all_symptoms : list string) (f : form) : Prop :=
  (1 <= age f <= 120)%N /\ gender f ∈ gender_options /\ form_city f ∈ city_options /\
  multiselect_ok (symptom_options all_symptoms) (selected_symptoms f).

(** ** The server's state and one run of the script *)

Record session := mk_session {
  backend_loaded : bool;
  sess_db : db;
  sess_tmp : tmpdir
}.

Record interaction := mk_interaction {
  it_env : env;
  it_form : form;
  it_clicked : bool     (** [st.button(...)] returned [True] *)
}.

(** Line 17: the first import runs [patient_data.py], whose last
    statement is [initialize_db()]; a failed import leaves the module
    unloaded, so the next run imports it again. *)
Definition import_backend (sn : session) : result session :=
  if backend_loaded sn then Ok sn
  else let! d := initialize_db (sess_db sn) in Ok (mk_session true d (sess_tmp sn)).

Section Script.
Context `{Predictor}.
Variable all_symptoms : list string.
Variable precautions_df : list prec_row.
Variable disease_col : list cell.
Variable render : list pdf_cmd -> list byte.

(** Lines 27-161. *)
Definition page_layout : list page_elem :=
  [PStyle; PTitle; PIntro; PSidebarHeading; PBarChart (top_diseases disease_col);
   PDetailsHeading; PNameInput; PAgeInput 1 120 25; PGenderRadio gender_options;
   PCitySelect city_options; PSymptomsHeading; PSymptomSelect (symptom_options all_symptoms);
   PPredictButton].

(** One run of [main.py]: the new server state and the page. *)
Definition script_run (sn : session) (it : interaction) : session * list page_elem :=
  match import_backend sn with
  | Err ex => (sn, [PPageConfig; PException ex])
  | Ok sn' =>
      let page := PPageConfig :: page_layout in
      if it_clicked it then
        let s := on_predict all_symptoms precautions_df render (it_env it) (it_form it)
                   (mk_app_state (sess_db sn') (sess_tmp sn') []) in
        (mk_session true (st_db s) (st_tmp s), (page ++ (PHandler <$> st_ui s))%list)
      else (sn', page)
  end.

Inductive session_step : relation session :=
| session_rerun sn it :
    widget_ok all_symptoms (it_form it) -> session_step sn (script_run sn it).1.

End Script.

(** ** Properties of a run and of a session *)

Section ScriptProps.
Context `{Predictor}.
Variable all_symptoms : list string.
Variable precautions_df : list prec_row.
Variable disease_col : list cell.
Variable render : list pdf_cmd -> list byte.

Lemma import_backend_evolves sn sn' :
  db_wf (sess_db sn) -> import_backend sn = Ok sn' -> db_evolves (sess_db sn) (sess_db sn').
Proof.
  unfold import_backend. intros Hwf Hi. destruct (backend_loaded sn).
  - injection Hi as <-. by apply db_evolves_refl.
  - res_inv Hi. injection Hi as <-. by apply initialize_db_evolves.
Qed.

Lemma script_run_evolves sn it :
  db_wf (sess_db sn) ->
  db_evolves (sess_db sn)
    (sess_db (script_run all_symptoms precautions_df disease_col render sn it).1).
Proof.
  intros Hwf. unfold script_run.
  destruct (import_backend sn) as [sn'|ex] eqn:E; [|by apply db_evolves_refl].
  pose proof (import_backend_evolves sn sn' Hwf E) as Hev.
  destruct (it_clicked it); [|done]. cbn.
  apply (db_evolves_trans _ _ _ Hev).
  exact (on_predict_db_evolves all_symptoms precautions_df render (it_env it) (it_form it)
           (mk_app_state (sess_db sn') (sess_tmp sn') []) (proj1 Hev)).
Qed.

(** C6: along any sequence of runs of the script, whatever the users
    type and click, the database keeps its invariant and only grows: every
    row stored is still there, in its place, and nothing is edited. *)
Theorem session_append_only sn0 sn :
  rtc (session_step all_symptoms precautions_df disease_col render) sn0 sn ->
  db_wf (sess_db sn0) -> db_evolves (sess_db sn0) (sess_db sn).
Proof.
  intros Hr. induction Hr as [sn|x y z Hxy _ IH]; intros Hwf; [by apply db_evolves_refl|].
  inversion Hxy as [? it _]; subst.
  pose proof (script_run_evolves x it Hwf) as Hev.
  exact (db_evolves_trans _ _ _ Hev (IH (proj1 Hev))).
Qed.

(** C7: when the database's directory cannot be opened (the path of
    [patient_data.py] line 54 is hard-coded), the import of the backend
    fails on every run: the page shows only the exception, nothing is
    predicted or stored, and the session never changes. *)
Theorem import_failure_blocks_app sn :
  backend_loaded sn = false -> db_dir_ok (sess_db sn) = false ->
  (forall it, script_run all_symptoms precautions_df disease_col render sn it =
              (sn, [PPageConfig; PException (OperationalError "unable to open database file")])) /\
  (forall sn', rtc (session_step all_symptoms precautions_df disease_col render) sn sn' -> sn' = sn).
Proof.
  intros Hl Hd.
  assert (Hrun : forall it, script_run all_symptoms precautions_df disease_col render sn it =
              (sn, [PPageConfig; PException (OperationalError "unable to open database file")])).
  { intros it. unfold script_run, import_backend, initialize_db, connect. by rewrite Hl, Hd. }
  split; [exact Hrun|]. intros sn' Hr.
  induction Hr as [|x y z Hxy _ IH]; [done|]. inversion Hxy as [? it _]; subst.
  rewrite Hrun in IH. by apply IH.
Qed.

(** C8: every form the widgets can produce is encoded: its symptoms come
    from [sorted(all_symptoms)], so [encoder.transform] does not raise and
    gives a vector of the vocabulary's length. *)
Theorem widget_form_encodes f :
  widget_ok all_symptoms f ->
  exists x, transform all_symptoms (selected_symptoms f) = Ok x /\
            List.length x = List.length all_symptoms.
Proof.
  intros (_ & _ & _ & _ & Hsub). eexists. split.
  - apply transform_ok. intros s Hs. apply Hsub in Hs. unfold symptom_options in Hs.
    by rewrite merge_sort_Permutation in Hs.
  - apply length_map.
Qed.

End ScriptProps.

(** A city of the directory, already in normal form, gets its doctor
    for the specialty. *)
Lemma known_city_doctor d c :
  is_Some (doctors_by_city !! c) -> normalize_city c = c ->
  exists cd doc, doctors_by_city !! c = Some cd /\ cd !! specialist_area d = Some doc /\
                 recommend_doctor d c = doc.
Proof.
  intros [cd Hc] Hn. rewrite <- Hn in Hc. rewrite (recommend_doctor_known d c cd Hc).
  destruct (doctors_by_city_complete _ _ Hc) as (_ & Hall & _).
  rewrite Forall_forall in Hall. destruct (Hall _ (specialist_area_in d)) as [doc Hdoc].
  rewrite Hn in Hc. exists cd, doc. unfold dict_get. by rewrite Hdoc.
Qed.

(** C25: every city of the selectbox but "Other" has a doctor for every
    specialty; "Other" always gets the fallback message, which names the
    city "Other". *)
Theorem widget_city_doctor d c :
  c ∈ city_options ->
  (c = "Other" /\ recommend_doctor d c = no_doctor_msg (specialist_area d) "Other") \/
  (exists cd doc, doctors_by_city !! c = Some cd /\ cd !! specialist_area d = Some doc /\
                  recommend_doctor d c = doc).
Proof.
  intros Hc. unfold city_options in Hc.
  repeat (apply elem_of_cons in Hc as [->|Hc]);
    [.. | by apply not_elem_of_nil in Hc];
    first [ left; split; [done|]; apply recommend_doctor_unknown; reflexivity
          | right; apply known_city_doctor; [decide_by_eval | reflexivity]].
Qed.

(** ** Runs of the script on the example of [App] *)

Definition ex_disease_col : list cell := [CStr "Common Cold"; CStr "Migraine"; CStr "Common Cold"].
Definition ex_click : interaction := mk_interaction ex_env (ex_form "Ali" ["cough"]) true.
Definition ex_session : session := mk_session false (mk_db true None) (mk_tmpdir [] 0).

Lemma ex_click_widget_ok : widget_ok ex_classes (it_form ex_click).
Proof. repeat split; decide_by_eval. Qed.

Lemma session_append_only_witness :
  let sn := (@script_run example_predictor ex_classes ex_df ex_disease_col ex_render
               ex_session ex_click).1 in
  rtc (@session_step example_predictor ex_classes ex_df ex_disease_col ex_render) ex_session sn /\
  db_wf (sess_db ex_session) /\ db_evolves (sess_db ex_session) (sess_db sn).
Proof.
  intros sn.
  assert (Hr : rtc (@session_step example_predictor ex_classes ex_df ex_disease_col ex_render)
                 ex_session sn) by (apply rtc_once; constructor; exact ex_click_widget_ok).
  assert (Hwf : db_wf (sess_db ex_session)) by exact I.
  split; [exact Hr|]. split; [exact Hwf|].
  exact (@session_append_only example_predictor ex_classes ex_df ex_disease_col ex_render
           ex_session sn Hr Hwf).
Defined.

Lemma import_failure_blocks_app_witness :
  let sn := mk_session false (mk_db false None) (mk_tmpdir [] 0) in
  backend_loaded sn = false /\ db_dir_ok (sess_db sn) = false /\
  ((forall it, @script_run example_predictor ex_classes ex_df ex_disease_col ex_render sn it =
       (sn, [PPageConfig; PException (OperationalError "unable to open database file")])) /\
   (forall sn', rtc (@session_step example_predictor ex_classes ex_df ex_disease_col ex_render)
                  sn sn' -> sn' = sn)).
Proof.
  intros sn. assert (Hl : backend_loaded sn = false) by reflexivity.
  assert (Hd : db_dir_ok (sess_db sn) = false) by reflexivity.
  split; [exact Hl|]. split; [exact Hd|].
  exact (@import_failure_blocks_app example_predictor ex_classes ex_df ex_disease_col ex_render
           sn Hl Hd).
Defined.

Lemma widget_form_encodes_witness :
  widget_ok ex_classes (it_form ex_click) /\
  exists x, transform ex_classes (selected_symptoms (it_form ex_click)) = Ok x /\
            List.length x = List.length ex_classes.
Proof.
  split; [exact ex_click_widget_ok|].
  exact (widget_form_encodes ex_classes _ ex_click_widget_ok).
Defined.

Lemma widget_city_doctor_witness :
  "Other" ∈ city_options /\
  (("Other" = "Other" /\ recommend_doctor "flu" "Other" = no_doctor_msg (specialist_area "flu") "Other") \/
   (exists cd doc, doctors_by_city !! "Other" = Some cd /\ cd !! specialist_area "flu" = Some doc /\
                   recommend_doctor "flu" "Other" = doc)).
Proof.
  assert (Hc : "Other" ∈ city_options) by decide_by_eval.
  split; [exact Hc | exact (widget_city_doctor "flu" "Other" Hc)].
Defined.
